(** * multi_thread.c : the pthread-lib pool manager, embedded in Rocq

    The C file keeps its state in process-wide variables ([thread_pool],
    [pool_size], [status_array], [sizeof_status_array], [thread_stop]) and
    talks to the C library (malloc, free, memset, printf, exit), to the
    pthread library and to the clock.  The embedding threads a [world]
    (the globals, the heap objects they point to, the thread-id supply and
    the trace of observable events) through an outcome monad with three
    results: normal return, [exit(code)], and undefined behaviour (an
    access outside an object).

    What the operating system answers on one API call (does malloc
    succeed, what is in the fresh memory, which status does a pthread call
    return, what does the clock say) is an [env], an input of every
    function.

    Conventions: [int], [long], [pthread_t] and [time_t] values are [Z];
    the one place where the source can leave the [int] range
    ([wait_secs *= 1000000]) wraps explicitly; a pointer is [option block]
    with [None] for NULL; sizes are counted in array elements (LP64, so
    the byte counts handed to malloc and memset do not wrap for a
    non-negative element count). *)

From stdpp Require Import base gmap list strings.
From Stdlib Require Import ZArith Lia.

Open Scope Z_scope.

(** ** Data *)

Abbreviation pthread_t := Z (only parsing).
Abbreviation block := positive (only parsing).

Record timeval := { tp_sec : Z; tp_usec : Z }.
Record timespec := { tv_sec : Z; tv_nsec : Z }.

Inductive mutex_id :=
| stop_mutex | thread_pool_mutex | pool_size_mutex | status_array_mutex
| timed_wait_mutex.

Inductive mutex_call := MutexInit | MutexLock | MutexUnlock | MutexDestroy.

(** Everything the process does that an observer can see. *)
Inductive event :=
| EvLogError (method msg : string)
| EvBadStatus (status : Z) (call msg : string)
| EvPrintf (method fmt : string) (args : list Z)
| EvThreadStart (tid : pthread_t)
| EvThreadJoin (tid : pthread_t)
| EvClockRead
| EvCondTimedWait (deadline : timespec).

Inductive fault :=
| NullDereference
| DanglingPointer (b : block)
| OutOfBounds (b : block) (index : Z)
| ArgumentOutOfBounds (index : Z).

Record world := {
  thread_pool : option block;
  pool_size : Z;
  status_array : option block;
  sizeof_status_array : Z;
  thread_stop : Z;
  heap : gmap block (list Z);
  next_block : block;
  next_tid : pthread_t;
  trace : list event
}.

(** The globals as the C file initialises them (lines 35-49); nothing is
    allocated, no thread exists, nothing was printed. *)
Definition initial_world : world :=
  {| thread_pool := None; pool_size := 1;
     status_array := None; sizeof_status_array := 0;
     thread_stop := 0;
     heap := ∅; next_block := 1%positive; next_tid := 1; trace := [] |}.

Definition set_thread_pool (p : option block) (w : world) : world :=
  {| thread_pool := p; pool_size := pool_size w;
     status_array := status_array w;
     sizeof_status_array := sizeof_status_array w;
     thread_stop := thread_stop w; heap := heap w;
     next_block := next_block w; next_tid := next_tid w; trace := trace w |}.

Definition set_pool_size (n : Z) (w : world) : world :=
  {| thread_pool := thread_pool w; pool_size := n;
     status_array := status_array w;
     sizeof_status_array := sizeof_status_array w;
     thread_stop := thread_stop w; heap := heap w;
     next_block := next_block w; next_tid := next_tid w; trace := trace w |}.

Definition set_status_array (p : option block) (w : world) : world :=
  {| thread_pool := thread_pool w; pool_size := pool_size w;
     status_array := p;
     sizeof_status_array := sizeof_status_array w;
     thread_stop := thread_stop w; heap := heap w;
     next_block := next_block w; next_tid := next_tid w; trace := trace w |}.

Definition set_sizeof_status_array (n : Z) (w : world) : world :=
  {| thread_pool := thread_pool w; pool_size := pool_size w;
     status_array := status_array w;
     sizeof_status_array := n;
     thread_stop := thread_stop w; heap := heap w;
     next_block := next_block w; next_tid := next_tid w; trace := trace w |}.

Definition set_thread_stop (v : Z) (w : world) : world :=
  {| thread_pool := thread_pool w; pool_size := pool_size w;
     status_array := status_array w;
     sizeof_status_array := sizeof_status_array w;
     thread_stop := v; heap := heap w;
     next_block := next_block w; next_tid := next_tid w; trace := trace w |}.

Definition set_heap (h : gmap block (list Z)) (w : world) : world :=
  {| thread_pool := thread_pool w; pool_size := pool_size w;
     status_array := status_array w;
     sizeof_status_array := sizeof_status_array w;
     thread_stop := thread_stop w; heap := h;
     next_block := next_block w; next_tid := next_tid w; trace := trace w |}.

Definition set_next_block (b : block) (w : world) : world :=
  {| thread_pool := thread_pool w; pool_size := pool_size w;
     status_array := status_array w;
     sizeof_status_array := sizeof_status_array w;
     thread_stop := thread_stop w; heap := heap w;
     next_block := b; next_tid := next_tid w; trace := trace w |}.

Definition set_next_tid (t : pthread_t) (w : world) : world :=
  {| thread_pool := thread_pool w; pool_size := pool_size w;
     status_array := status_array w;
     sizeof_status_array := sizeof_status_array w;
     thread_stop := thread_stop w; heap := heap w;
     next_block := next_block w; next_tid := t; trace := trace w |}.

Definition set_trace (t : list event) (w : world) : world :=
  {| thread_pool := thread_pool w; pool_size := pool_size w;
     status_array := status_array w;
     sizeof_status_array := sizeof_status_array w;
     thread_stop := thread_stop w; heap := heap w;
     next_block := next_block w; next_tid := next_tid w; trace := t |}.

(** What the system answers during one call of the API. *)
Record env := {
  malloc_fails : bool;
  garbage : nat -> Z;
  create_status : Z -> Z;
  create_leftover : Z -> option Z;
  join_status : pthread_t -> Z;
  mutex_status : mutex_id -> mutex_call -> Z;
  cond_destroy_status : Z;
  clock_status : Z;
  clock_now : timeval;
  cond_notified : bool
}.

(** ** The outcome monad *)

Inductive outcome (A : Type) : Type :=
| Done (a : A) (w : world)
| Exit (code : Z) (w : world)
| Undefined (f : fault) (w : world).

Arguments Done {A} a w.
Arguments Exit {A} code w.
Arguments Undefined {A} f w.

Definition M (A : Type) : Type := world -> outcome A.

Definition ret {A} (a : A) : M A := fun w => Done a w.

Definition bind {A B} (m : M A) (k : A -> M B) : M B :=
  fun w =>
    match m w with
    | Done a w' => k a w'
    | Exit c w' => Exit c w'
    | Undefined f w' => Undefined f w'
    end.

Notation "x <- m ;; k" := (bind m (fun x => k))
  (at level 100, m at next level, right associativity).
Notation "m ;; k" := (bind m (fun _ => k))
  (at level 100, right associativity).

Definition get {A} (f : world -> A) : M A := fun w => Done (f w) w.
Definition modify (f : world -> world) : M unit := fun w => Done tt (f w).
Definition emit (e : event) : M unit :=
  modify (fun w => set_trace (trace w ++ [e]) w).
Definition exit {A} (code : Z) : M A := fun w => Exit code w.
Definition undefined {A} (f : fault) : M A := fun w => Undefined f w.

(** [for (i = start; i < start + count; i++) body(i)], for a bound that
    the body does not change. *)
Fixpoint for_range (body : Z -> M unit) (i : Z) (count : nat) : M unit :=
  match count with
  | O => ret tt
  | S c => body i ;; for_range body (i + 1) c
  end.

(** What a caller sees of an outcome. *)
Definition returned {A} (o : outcome A) : option A :=
  match o with Done a _ => Some a | _ => None end.

Definition final {A} (o : outcome A) : world :=
  match o with Done _ w | Exit _ w | Undefined _ w => w end.

Definition exit_code {A} (o : outcome A) : option Z :=
  match o with Exit c _ => Some c | _ => None end.

(** ** The C library *)

(** [p[i]] as an rvalue. *)
Definition load (p : option block) (i : Z) : M Z :=
  fun w =>
    match p with
    | None => Undefined NullDereference w
    | Some b =>
        match heap w !! b with
        | None => Undefined (DanglingPointer b) w
        | Some cells =>
            if 0 <=? i then
              match cells !! Z.to_nat i with
              | Some v => Done v w
              | None => Undefined (OutOfBounds b i) w
              end
            else Undefined (OutOfBounds b i) w
        end
    end.

(** [p[i] = v]. *)
Definition store (p : option block) (i : Z) (v : Z) : M unit :=
  fun w =>
    match p with
    | None => Undefined NullDereference w
    | Some b =>
        match heap w !! b with
        | None => Undefined (DanglingPointer b) w
        | Some cells =>
            if (0 <=? i) && (i <? Z.of_nat (length cells)) then
              Done tt (set_heap (<[b := <[Z.to_nat i := v]> cells]> (heap w)) w)
            else Undefined (OutOfBounds b i) w
        end
    end.

(** [malloc(count * sizeof(element))]: NULL when the allocator gives up
    (a negative [int] count converts to a size beyond the address space),
    otherwise a block nobody else points to, holding whatever was in that
    memory. *)
Definition refused (E : env) (count : Z) : bool :=
  malloc_fails E || (count <? 0).

Definition malloc (E : env) (count : Z) : M (option block) :=
  fun w =>
    if refused E count then Done None w
    else
      let b := next_block w in
      let cells := garbage E <$> seq 0 (Z.to_nat count) in
      Done (Some b)
           (set_next_block (Pos.succ b) (set_heap (<[b := cells]> (heap w)) w)).

(** [free(p)]; [free(NULL)] does nothing. *)
Definition free (p : option block) : M unit :=
  fun w =>
    match p with
    | None => Done tt w
    | Some b =>
        match heap w !! b with
        | Some _ => Done tt (set_heap (delete b (heap w)) w)
        | None => Undefined (DanglingPointer b) w
        end
    end.

(** [memset(p, 0, count * sizeof(int))]. *)
Definition memset_zero (p : option block) (count : Z) : M unit :=
  fun w =>
    match p with
    | None => if count =? 0 then Done tt w else Undefined NullDereference w
    | Some b =>
        match heap w !! b with
        | None => Undefined (DanglingPointer b) w
        | Some cells =>
            if (0 <=? count) && (count <=? Z.of_nat (length cells)) then
              let n := Z.to_nat count in
              Done tt (set_heap (<[b := replicate n 0 ++ drop n cells]> (heap w)) w)
            else Undefined (OutOfBounds b count) w
        end
    end.

Definition printf (method fmt : string) (args : list Z) : M unit :=
  emit (EvPrintf method fmt args).

(** <errno.h> on Linux; POSIX only asks that the two are positive and
    different. *)
Definition EINVAL : Z := 22.
Definition ETIMEDOUT : Z := 110.

(** ** util.h and multi_thread.h

    The two headers are not among the sources; their macros are taken
    from what the specification says about the calls that use them. *)

(** Modelled from the spec: the macro [LOG_ERROR] of util.h, of which only
    the uses are in multi_thread.c: a failure "produces a log line". *)
Definition LOG_ERROR (method msg : string) : M unit :=
  emit (EvLogError method msg).

(** Modelled from the spec: the macro [CHECK_STATUS] of util.h, of which
    only the uses are in multi_thread.c: a non-zero status of a pthread
    call "is logged with a status code" and "the routine continues". *)
Definition CHECK_STATUS (status : Z) (call msg : string) : M unit :=
  if status =? 0 then ret tt else emit (EvBadStatus status call msg).

(** Modelled from the spec: the macro [FREE] of util.h, of which only the
    uses are in multi_thread.c: it "releases" the object a pointer
    variable refers to; the variable is NULL afterwards. *)
Definition FREE (var : world -> option block)
    (assign : option block -> world -> world) : M unit :=
  p <- get var ;;
  match p with
  | None => ret tt
  | Some _ => free p ;; modify (assign None)
  end.

(** Modelled from the spec: [BOOL], [TRUE] and [FALSE] of the headers:
    [set_status_element] "returns true (success)" or "false". *)
Definition TRUE : Z := 1.
Definition FALSE : Z := 0.

(** ** pthread and the clock *)

Definition pthread_mutex (E : env) (m : mutex_id) (c : mutex_call) : M Z :=
  ret (mutex_status E m c).

(** [pthread_create(&table[i], NULL, func_ptr, parameter)]: on success the
    new thread gets an identifier no other thread has, the identifier is
    stored in the slot, and the thread runs.  On failure no thread runs
    and POSIX leaves the contents of the slot undefined: the library may
    have left the slot alone ([create_leftover] is [None]) or have
    written some value into it. *)
Definition pthread_create (E : env) (table : option block) (i : Z) : M Z :=
  let status := create_status E i in
  if status =? 0 then
    tid <- get next_tid ;;
    modify (set_next_tid (tid + 1)) ;;
    store table i tid ;;
    emit (EvThreadStart tid) ;;
    ret 0
  else
    match create_leftover E i with
    | Some v => store table i v
    | None => ret tt
    end ;;
    ret status.

Definition pthread_join (E : env) (thread : pthread_t) : M Z :=
  emit (EvThreadJoin thread) ;;
  ret (join_status E thread).

Definition gettimeofday (E : env) : M (Z * timeval) :=
  emit EvClockRead ;;
  ret (clock_status E, clock_now E).

(** POSIX: EINVAL for a nanosecond field outside [0, 1000 million),
    ETIMEDOUT when the deadline passes, 0 when the condition is notified
    (or the wait wakes up spuriously). *)
Definition cond_timedwait_status (E : env) (ts : timespec) : Z :=
  if (tv_nsec ts <? 0) || (1000000000 <=? tv_nsec ts) then EINVAL
  else if cond_notified E then 0
  else ETIMEDOUT.

Definition pthread_cond_timedwait (E : env) (ts : timespec) : M Z :=
  emit (EvCondTimedWait ts) ;;
  ret (cond_timedwait_status E ts).

Definition pthread_cond_destroy (E : env) : M Z :=
  ret (cond_destroy_status E).

(** The value an [int] holds after an arithmetic result [z]: the two's
    complement wrap of the compiled code, where ISO C leaves a signed
    overflow undefined. *)
Definition wrap_int (z : Z) : Z :=
  (z + 2147483648) mod 4294967296 - 2147483648.

(** ** multi_thread.c *)

(** *** Lock wrappers (lines 329-377) *)

Definition _lock_stop (E : env) : M unit :=
  status <- pthread_mutex E stop_mutex MutexLock ;;
  CHECK_STATUS status "pthread_mutex_lock" "bad status (stop_mutex)".

Definition _unlock_stop (E : env) : M unit :=
  status <- pthread_mutex E stop_mutex MutexUnlock ;;
  CHECK_STATUS status "pthread_mutex_unlock" "bad status (stop_mutex)".

Definition _lock_status_array (E : env) : M unit :=
  status <- pthread_mutex E status_array_mutex MutexLock ;;
  CHECK_STATUS status "pthread_mutex_lock" "bad status (status_array_mutex)".

Definition _unlock_status_array (E : env) : M unit :=
  status <- pthread_mutex E status_array_mutex MutexUnlock ;;
  CHECK_STATUS status "pthread_mutex_lock" "bad status (status_array_mutex)".

Definition _lock_thread_pool (E : env) : M unit :=
  status <- pthread_mutex E thread_pool_mutex MutexLock ;;
  CHECK_STATUS status "pthread_mutex_lock" "bad status (thread_pool_mutex)".

Definition _unlock_thread_pool (E : env) : M unit :=
  status <- pthread_mutex E thread_pool_mutex MutexUnlock ;;
  CHECK_STATUS status "pthread_mutex_lock" "bad status (thread_pool_mutex)".

Definition _lock_pool_size (E : env) : M unit :=
  status <- pthread_mutex E pool_size_mutex MutexLock ;;
  CHECK_STATUS status "pthread_mutex_lock" "bad status (pool_size_mutex)".

Definition _unlock_pool_size (E : env) : M unit :=
  status <- pthread_mutex E pool_size_mutex MutexUnlock ;;
  CHECK_STATUS status "pthread_mutex_lock" "bad status (pool_size_mutex)".

(** *** Mutex set-up and tear-down (lines 117-130, 389-403) *)

Definition _create_local_mutexes (E : env) : M unit :=
  status <- pthread_mutex E stop_mutex MutexInit ;;
  CHECK_STATUS status "pthread_mutex_init" "stop_mutex bad status" ;;
  status <- pthread_mutex E thread_pool_mutex MutexInit ;;
  CHECK_STATUS status "pthread_mutex_init" "thread_pool_mutex bad status" ;;
  status <- pthread_mutex E pool_size_mutex MutexInit ;;
  CHECK_STATUS status "pthread_mutex_init" "pool_size_mutex bad status" ;;
  status <- pthread_mutex E status_array_mutex MutexInit ;;
  CHECK_STATUS status "pthread_mutex_init" "status_array_mutex bad status".

Definition _destroy_all_mutexes (E : env) : M unit :=
  status <- pthread_mutex E stop_mutex MutexDestroy ;;
  CHECK_STATUS status "pthread_mutex_destroy" "bad status (stop_mutex)" ;;
  status <- pthread_mutex E thread_pool_mutex MutexDestroy ;;
  CHECK_STATUS status "pthread_mutex_destroy" "bad status (thread_pool_mutex)" ;;
  status <- pthread_mutex E pool_size_mutex MutexDestroy ;;
  CHECK_STATUS status "pthread_mutex_destroy" "bad status (pool_size_mutex)" ;;
  status <- pthread_mutex E status_array_mutex MutexDestroy ;;
  CHECK_STATUS status "pthread_mutex_destroy" "bad status (status_array_mutex)".

(** *** The stop flag (lines 411-452) *)

Definition stop_threads (E : env) : M unit :=
  _lock_stop E ;;
  modify (set_thread_stop 1) ;;
  _unlock_stop E.

Definition should_stop (E : env) : M Z :=
  _lock_stop E ;;
  should_stop <- get thread_stop ;;
  _unlock_stop E ;;
  ret should_stop.

Definition set_stop (E : env) (stop : Z) : M unit :=
  _lock_stop E ;;
  modify (set_thread_stop stop) ;;
  _unlock_stop E.

(** *** The pool size (lines 459-466) *)

Definition get_pool_size (E : env) : M Z :=
  _lock_pool_size E ;;
  size <- get pool_size ;;
  _unlock_pool_size E ;;
  ret size.

(** *** Joining (lines 142-181)

    [t_status] is the caller's array, or NULL; it is only read. *)

Definition read_argument (a : list Z) (i : Z) : M Z :=
  if 0 <=? i then
    match a !! Z.to_nat i with
    | Some v => ret v
    | None => undefined (ArgumentOutOfBounds i)
    end
  else undefined (ArgumentOutOfBounds i).

Definition join_one (E : env) (i : Z) : M unit :=
  table <- get thread_pool ;;
  thread <- load table i ;;
  status <- pthread_join E thread ;;
  CHECK_STATUS status "pthread_join" "bad status".

Definition join_threads_body (E : env) (t_status : option (list Z))
    (will_check_status : bool) (i : Z) : M unit :=
  if will_check_status then
    match t_status with
    | None => undefined NullDereference
    | Some a =>
        alive <- read_argument a i ;;
        if alive =? 0 then
          printf "join_threads: " "%s Thread [%d] is hung, not joining\n" [i + 1]
        else join_one E i
    end
  else
    printf "join_threads: " "%s Going to stop thread [%d]\n" [i + 1] ;;
    join_one E i.

Definition join_threads (E : env) (t_status : option (list Z)) : M unit :=
  let will_check_status := match t_status with None => false | Some _ => true end in
  match t_status with
  | None =>
      printf "join_threads: " "%s Joining on ALL threads reguardless of state \n" []
  | Some _ => ret tt
  end ;;
  n <- get pool_size ;;
  for_range (join_threads_body E t_status will_check_status) 0 (Z.to_nat n) ;;
  printf "join_threads: " "%s Threads Stopped Successfully\n" [] ;;
  FREE thread_pool set_thread_pool ;;
  _destroy_all_mutexes E.

(** *** Timed waits (lines 191-290) *)

Definition timed_wait_cleanup (E : env) : M unit :=
  status <- pthread_mutex E timed_wait_mutex MutexUnlock ;;
  CHECK_STATUS status "pthread_mutex_unlock" "bad status (timed_wait_mutex)" ;;
  status <- pthread_mutex E timed_wait_mutex MutexDestroy ;;
  CHECK_STATUS status "pthread_mutex_destroy" "bad status (timed_wait_mutex)" ;;
  status <- pthread_cond_destroy E ;;
  CHECK_STATUS status "pthread_cond_destroy" "bad status (timed_wait_cond)".

Definition timed_wait (E : env) (wait_secs : Z) : M Z :=
  r <- gettimeofday E ;;
  let rc := fst r in
  let tp := snd r in
  if negb (rc =? 0) then
    LOG_ERROR "timed_wait: " "gettimeofday failed in timed_wait" ;;
    ret rc
  else
    status <- pthread_mutex E timed_wait_mutex MutexLock ;;
    CHECK_STATUS status "pthread_mutex_lock" "bad status (timed_wait_mutex)" ;;
    let ts := {| tv_sec := tp_sec tp; tv_nsec := tp_usec tp * 1000 |} in
    let ts := {| tv_sec := tv_sec ts + wait_secs; tv_nsec := tv_nsec ts |} in
    rc <- pthread_cond_timedwait E ts ;;
    timed_wait_cleanup E ;;
    ret rc.

Definition timed_wait_milli (E : env) (wait_secs : Z) : M Z :=
  if wait_secs <=? 0 then ret 0
  else
    r <- gettimeofday E ;;
    let rc := fst r in
    let tp := snd r in
    if negb (rc =? 0) then
      LOG_ERROR "timed_wait_milli: " "gettimeofday failed" ;;
      ret rc
    else
      status <- pthread_mutex E timed_wait_mutex MutexLock ;;
      CHECK_STATUS status "pthread_mutex_lock" "bad status (timed_wait_mutex)" ;;
      let wait_secs := wrap_int (wait_secs * 1000000) in
      let ts := {| tv_sec := tp_sec tp; tv_nsec := tp_usec tp + wait_secs |} in
      rc <- pthread_cond_timedwait E ts ;;
      timed_wait_cleanup E ;;
      ret rc.

(** *** Index lookup (lines 303-323) *)

Fixpoint find_scan (thread : pthread_t) (i : Z) (count : nat) : M Z :=
  match count with
  | O => ret i
  | S c =>
      table <- get thread_pool ;;
      other <- load table i ;;
      if thread =? other then ret i else find_scan thread (i + 1) c
  end.

Definition _find_my_index (E : env) (thread : pthread_t) : M Z :=
  size <- get_pool_size E ;;
  _lock_thread_pool E ;;
  i <- find_scan thread 0 (Z.to_nat size) ;;
  _unlock_thread_pool E ;;
  if i >=? size then
    LOG_ERROR "find_my_index: " "Unable to match any thread in thread_pool" ;;
    ret (-1)
  else ret i.

(** *** The status array, reading and writing (lines 529-563) *)

Definition get_status_array (E : env) : M (option block) :=
  _lock_status_array E ;;
  sa <- get status_array ;;
  _unlock_status_array E ;;
  ret sa.

Definition set_status_element (E : env) (index status : Z) : M Z :=
  _lock_status_array E ;;
  size <- get sizeof_status_array ;;
  rc <- (if index <? size then
           table <- get status_array ;;
           store table index status ;;
           ret TRUE
         else ret FALSE) ;;
  _unlock_status_array E ;;
  ret rc.

(** *** Allocation (lines 83-112, 478-520)

    [ERROR_CODE_MALLOC] comes from a header that is not among the sources;
    the functions take it as a constant of the build. *)

(** The body of the start-up loop (lines 107-108). *)
Definition create_threads_body (E : env) (i : Z) : M unit :=
  table <- get thread_pool ;;
  status <- pthread_create E table i ;;
  CHECK_STATUS status "pthread_create" "thread bad status".

Section Allocation.

Variable ERROR_CODE_MALLOC : Z.

Definition create_threads (E : env) (num_threads : Z) : M (option block) :=
  modify (set_pool_size num_threads) ;;
  n <- get pool_size ;;
  p <- malloc E n ;;
  modify (set_thread_pool p) ;;
  match p with
  | None =>
      LOG_ERROR "create_threads: " "Could not create threads!" ;;
      exit ERROR_CODE_MALLOC
  | Some _ =>
      _create_local_mutexes E ;;
      modify (set_thread_stop 0) ;;
      n <- get pool_size ;;
      for_range (create_threads_body E) 0 (Z.to_nat n) ;;
      get thread_pool
  end.

Definition create_status_array (E : env) : M unit :=
  _lock_status_array E ;;
  FREE status_array set_status_array ;;
  n <- get pool_size ;;
  modify (set_sizeof_status_array n) ;;
  n <- get sizeof_status_array ;;
  p <- malloc E n ;;
  modify (set_status_array p) ;;
  rc <- match p with
        | None =>
            LOG_ERROR "create_status_array: " "Unable to malloc memory for status_array" ;;
            ret ERROR_CODE_MALLOC
        | Some _ => ret 0
        end ;;
  _unlock_status_array E ;;
  if negb (rc =? 0) then exit rc else ret tt.

Definition init_status_array (E : env) : M unit :=
  n <- get pool_size ;;
  size <- get sizeof_status_array ;;
  if negb (n =? size) then create_status_array E
  else
    _lock_status_array E ;;
    table <- get status_array ;;
    size <- get sizeof_status_array ;;
    memset_zero table size ;;
    _unlock_status_array E.

End Allocation.

(** ** The API as a caller drives it *)

Inductive call :=
| CreateThreads (num_threads : Z)
| JoinThreads (t_status : option (list Z))
| TimedWait (wait_secs : Z)
| TimedWaitMilli (wait_secs : Z)
| FindMyIndex (thread : pthread_t)
| StopThreads
| ShouldStop
| SetStop (stop : Z)
| GetPoolSize
| CreateStatusArray
| InitStatusArray
| GetStatusArray
| SetStatusElement (index status : Z).

Inductive value :=
| VUnit
| VInt (z : Z)
| VPointer (p : option block).

Definition run_call (ERROR_CODE_MALLOC : Z) (E : env) (c : call) : M value :=
  match c with
  | CreateThreads n => p <- create_threads ERROR_CODE_MALLOC E n ;; ret (VPointer p)
  | JoinThreads t_status => join_threads E t_status ;; ret VUnit
  | TimedWait s => rc <- timed_wait E s ;; ret (VInt rc)
  | TimedWaitMilli s => rc <- timed_wait_milli E s ;; ret (VInt rc)
  | FindMyIndex t => i <- _find_my_index E t ;; ret (VInt i)
  | StopThreads => stop_threads E ;; ret VUnit
  | ShouldStop => b <- should_stop E ;; ret (VInt b)
  | SetStop v => set_stop E v ;; ret VUnit
  | GetPoolSize => n <- get_pool_size E ;; ret (VInt n)
  | CreateStatusArray => create_status_array ERROR_CODE_MALLOC E ;; ret VUnit
  | InitStatusArray => init_status_array ERROR_CODE_MALLOC E ;; ret VUnit
  | GetStatusArray => p <- get_status_array E ;; ret (VPointer p)
  | SetStatusElement i v => rc <- set_status_element E i v ;; ret (VInt rc)
  end.

(** A run of the process: one call after the other, each with the
    answers the system gives during it. *)
Fixpoint run_calls (ERROR_CODE_MALLOC : Z) (cs : list (env * call)) : M unit :=
  match cs with
  | [] => ret tt
  | (E, c) :: rest =>
      run_call ERROR_CODE_MALLOC E c ;; run_calls ERROR_CODE_MALLOC rest
  end.

(** A quiet system: every call succeeds, fresh memory holds [fill], the
    clock reads [now], nobody notifies a condition variable. *)
Definition quiet_env (fill : Z) (now : timeval) : env :=
  {| malloc_fails := false;
     garbage := fun _ => fill;
     create_status := fun _ => 0;
     create_leftover := fun _ => None;
     join_status := fun _ => 0;
     mutex_status := fun _ _ => 0;
     cond_destroy_status := 0;
     clock_status := 0;
     clock_now := now;
     cond_notified := false |}.

(** A clock reading. *)
Definition noon : timeval := {| tp_sec := 1000; tp_usec := 250000 |}.

(** The clock reading with the largest microsecond count: [gettimeofday]
    gives [tv_usec] between 0 and 999999. *)
Definition last_microsecond : timeval :=
  {| tp_sec := 1000; tp_usec := 999999 |}.

(** The status array as a caller with the pointer sees it. *)
Definition status_cells (w : world) : option (list Z) :=
  match status_array w with
  | None => None
  | Some b => heap w !! b
  end.

(** The handle table, likewise. *)
Definition handle_table (w : world) : option (list Z) :=
  match thread_pool w with
  | None => None
  | Some b => heap w !! b
  end.

(** The deadlines of the timed waits in a trace, oldest first. *)
Definition deadlines (t : list event) : list timespec :=
  omap (fun e => match e with EvCondTimedWait ts => Some ts | _ => None end) t.

(** How often the clock was read. *)
Definition clock_reads (t : list event) : nat :=
  length (omap (fun e => match e with EvClockRead => Some tt | _ => None end) t).

(** ** Vocabulary of the properties *)

(** The deadline [timed_wait_milli] hands to [pthread_cond_timedwait]
    (lines 270-272). *)
Definition milli_deadline (now : timeval) (n : Z) : timespec :=
  {| tv_sec := tp_sec now; tv_nsec := tp_usec now + wrap_int (n * 1000000) |}.

(** The deadline [timed_wait] hands over (lines 213-215). *)
Definition seconds_deadline (now : timeval) (n : Z) : timespec :=
  {| tv_sec := tp_sec now + n; tv_nsec := tp_usec now * 1000 |}.

(** A pool of three workers whose status array was created by
    [init_status_array], in a system that fills fresh memory with 7. *)
Definition pool_of_three : world :=
  final (run_calls 12
           [(quiet_env 7 noon, CreateThreads 3);
            (quiet_env 7 noon, InitStatusArray)]
           initial_world).

(** The status array is where the globals say it is. *)
Definition status_array_at (w : world) (b : block) (cells : list Z) : Prop :=
  status_array w = Some b
  /\ heap w !! b = Some cells
  /\ Z.of_nat (length cells) = sizeof_status_array w.

(** The handles [pthread_join] was called on, oldest first. *)
Definition joined_handles (t : list event) : list pthread_t :=
  omap (fun e => match e with EvThreadJoin h => Some h | _ => None end) t.

(** The format of the line that reports a skipped worker (line 163). *)
Definition hung_format : string := "%s Thread [%d] is hung, not joining\n".

(** The worker numbers (index + 1) the log reports as hung. *)
Definition hung_reports (t : list event) : list Z :=
  omap (fun e =>
          match e with
          | EvPrintf _ fmt [k] => if String.eqb fmt hung_format then Some k else None
          | _ => None
          end) t.

(** Is worker [i] to be joined: always without a liveness array,
    otherwise when its entry is not 0. *)
Definition alive (t_status : option (list Z)) (i : nat) : bool :=
  match t_status with
  | None => true
  | Some a => match a !! i with Some v => negb (v =? 0) | None => false end
  end.

(** What is due at index [i]: a join of the handle in slot [i]
    ([join_of]), or a hung report with the worker number [i + 1]
    ([skip_of]). *)
Definition join_of (table : list Z) (t_status : option (list Z)) (i : nat)
  : option pthread_t :=
  if alive t_status i then table !! i else None.

Definition skip_of (t_status : option (list Z)) (i : nat) : option Z :=
  if alive t_status i then None else Some (Z.of_nat i + 1).

(** The value [will_check_status] has after line 151. *)
Definition will_check (t_status : option (list Z)) : bool :=
  match t_status with None => false | Some _ => true end.

(** The liveness array, when there is one, has an entry for each of the
    first [n] workers. *)
Definition covers (t_status : option (list Z)) (n : nat) : Prop :=
  match t_status with None => True | Some a => (n <= length a)%nat end.

(** The threads that were started, oldest first. *)
Definition started_threads (t : list event) : list pthread_t :=
  omap (fun e => match e with EvThreadStart h => Some h | _ => None end) t.

(** The world [w] after the events [evs]. *)
Definition logged (evs : list event) (w : world) : world :=
  set_trace (trace w ++ evs) w.

(** Code is [quiet] when it returns and all it does to the world is to
    add status reports (what [CHECK_STATUS] prints) to the trace. *)
Definition is_report (e : event) : Prop :=
  match e with EvBadStatus _ _ _ => True | _ => False end.

Definition only_reports (w w' : world) : Prop :=
  exists evs, Forall is_report evs /\ w' = logged evs w.

Definition quiet {A} (m : M A) : Prop :=
  forall w, exists a w', m w = Done a w' /\ only_reports w w'.

(** The two relations between the world before and the world after a
    call that the development uses. *)
Definition same_stop (w w' : world) : Prop := thread_stop w' = thread_stop w.

Definition any_world (w w' : world) : Prop := True.

(** The calls that reach a malloc. *)
Definition allocates (c : call) : bool :=
  match c with
  | CreateThreads _ | CreateStatusArray | InitStatusArray => true
  | _ => false
  end.

(** The element count the call asks malloc for. *)
Definition requested (c : call) (w : world) : Z :=
  match c with
  | CreateThreads n => n
  | _ => pool_size w
  end.

(** [status_array] is NULL or points to an object that was not freed. *)
Definition status_array_live (w : world) : Prop :=
  match status_array w with
  | None => True
  | Some b => is_Some (heap w !! b)
  end.

(** The calls after which a stop request is still standing: all but
    [create_threads], which clears the flag, and [set_stop(0)]. *)
Definition keeps_request (c : call) : Prop :=
  match c with
  | CreateThreads _ => False
  | SetStop stop => stop <> 0
  | _ => True
  end.

(** The value [i] has when the scan of [_find_my_index] (lines 309-313)
    leaves the loop, for a scan that starts at index [k] over the handles
    [l]: the index of the first handle equal to [thread], or the index
    after the last one. *)
Fixpoint scan_result (thread : Z) (l : list Z) (k : nat) : nat :=
  match l with
  | [] => k
  | h :: t => if thread =? h then k else scan_result thread t (S k)
  end.

(** The calls that do not write the stop flag. *)
Definition leaves_flag (c : call) : Prop :=
  match c with
  | CreateThreads _ | SetStop _ | StopThreads => False
  | _ => True
  end.

(** [w'] is [w] with a longer trace, nothing else differs. *)
Definition trace_only (w w' : world) : Prop :=
  exists evs, w' = logged evs w.

(** *** Well-formed worlds

    What the globals promise about the heap: the handle table, when
    there is one, is a live object of [pool_size] entries; the status
    array, when there is one, is a live object of
    [sizeof_status_array] entries, and the declared length is 0 when
    there is none; the two are different objects; and the allocator has
    not handed out [next_block] or anything after it. *)

Definition table_ok (w : world) : Prop :=
  match thread_pool w with
  | None => True
  | Some b =>
      exists table,
        heap w !! b = Some table /\ Z.of_nat (length table) = pool_size w
  end.

Definition status_ok (w : world) : Prop :=
  match status_array w with
  | None => sizeof_status_array w = 0
  | Some b =>
      exists cells,
        heap w !! b = Some cells
        /\ Z.of_nat (length cells) = sizeof_status_array w
  end.

Definition heap_below (w : world) : Prop :=
  forall b, is_Some (heap w !! b) -> (b < next_block w)%positive.

Definition apart (w : world) : Prop :=
  forall b, thread_pool w = Some b -> status_array w <> Some b.

Definition well_formed (w : world) : Prop :=
  table_ok w /\ status_ok w /\ heap_below w /\ apart w.

(** [w'] has the globals and the heap of [w], but for the stop flag, the
    thread-id supply and the trace. *)
Definition same_memory (w w' : world) : Prop :=
  thread_pool w' = thread_pool w
  /\ pool_size w' = pool_size w
  /\ status_array w' = status_array w
  /\ sizeof_status_array w' = sizeof_status_array w
  /\ heap w' = heap w
  /\ next_block w' = next_block w.

(** Code that, when it returns, has left the memory as it was. *)
Definition keeps_memory {A} (m : M A) : Prop :=
  forall w a w', m w = Done a w' -> same_memory w w'.

(** * Properties *)

Ltac run :=
  unfold _lock_stop, _unlock_stop, _lock_status_array, _unlock_status_array,
    _lock_thread_pool, _unlock_thread_pool, _lock_pool_size, _unlock_pool_size,
    timed_wait_cleanup, gettimeofday, pthread_cond_timedwait,
    pthread_cond_destroy, pthread_mutex, LOG_ERROR, CHECK_STATUS, printf,
    emit, bind, ret, get, modify, exit, undefined;
  simpl.

Ltac split_status :=
  repeat match goal with
         | |- context [if ?s =? 0 then _ else _] => destruct (s =? 0); simpl
         end.

(** ** The pool size *)

(** C10: before the first [create_threads], [get_pool_size] returns 1,
    the value [pool_size] is initialised with, although no pool and no
    handle table exist. *)
Theorem get_pool_size_before_create (E : env) :
  returned (get_pool_size E initial_world) = Some 1
  /\ thread_pool initial_world = None
  /\ heap initial_world = ∅.
Proof.
  split; [| split; reflexivity].
  unfold get_pool_size. run. split_status; reflexivity.
Qed.

(** ** Timed waits *)

Lemma timed_wait_milli_early (E : env) (n : Z) (w : world) :
  n <= 0 -> timed_wait_milli E n w = Done 0 w.
Proof.
  intros Hn. unfold timed_wait_milli.
  destruct (Z.leb_spec n 0); [reflexivity | lia].
Qed.

(** C7: for every n <= 0, [timed_wait_milli n] returns 0 at once: the
    world, trace included, is the one it started from, so the state did
    not change, the clock was not read and nothing was waited for. *)
Theorem timed_wait_milli_non_positive (E : env) (n : Z) (w : world) :
  n <= 0 ->
  timed_wait_milli E n w = Done 0 w
  /\ clock_reads (trace (final (timed_wait_milli E n w))) = clock_reads (trace w)
  /\ deadlines (trace (final (timed_wait_milli E n w))) = deadlines (trace w).
Proof.
  intros Hn. rewrite (timed_wait_milli_early E n w Hn).
  repeat split; reflexivity.
Qed.

Lemma timed_wait_milli_non_positive_witness :
  timed_wait_milli (quiet_env 0 noon) (-5) initial_world = Done 0 initial_world.
Proof.
  apply (timed_wait_milli_non_positive (quiet_env 0 noon) (-5) initial_world).
  lia.
Defined.

Lemma timed_wait_milli_run (E : env) (n : Z) (w : world) :
  0 < n -> clock_status E = 0 ->
  returned (timed_wait_milli E n w)
    = Some (cond_timedwait_status E (milli_deadline (clock_now E) n))
  /\ deadlines (trace (final (timed_wait_milli E n w)))
     = deadlines (trace w) ++ [milli_deadline (clock_now E) n].
Proof.
  intros Hn Hclock. unfold timed_wait_milli.
  destruct (Z.leb_spec n 0); [lia |].
  run. rewrite Hclock. simpl. split_status;
    (split; [reflexivity |]);
    unfold deadlines; rewrite ?omap_app; simpl; rewrite ?app_nil_r;
    reflexivity.
Qed.

Lemma timed_wait_run (E : env) (n : Z) (w : world) :
  clock_status E = 0 ->
  returned (timed_wait E n w)
    = Some (cond_timedwait_status E (seconds_deadline (clock_now E) n))
  /\ deadlines (trace (final (timed_wait E n w)))
     = deadlines (trace w) ++ [seconds_deadline (clock_now E) n].
Proof.
  intros Hclock. unfold timed_wait.
  run. rewrite Hclock. simpl. split_status;
    (split; [reflexivity |]);
    unfold deadlines; rewrite ?omap_app; simpl; rewrite ?app_nil_r;
    reflexivity.
Qed.

Lemma timed_wait_clock_failure (E : env) (n : Z) (w : world) :
  clock_status E <> 0 ->
  returned (timed_wait E n w) = Some (clock_status E)
  /\ deadlines (trace (final (timed_wait E n w))) = deadlines (trace w).
Proof.
  intros Hclock. unfold timed_wait. run.
  destruct (Z.eqb_spec (clock_status E) 0); [contradiction |]. simpl.
  split; [reflexivity |].
  unfold deadlines; rewrite ?omap_app; simpl; rewrite ?app_nil_r; reflexivity.
Qed.

Lemma timed_wait_milli_clock_failure (E : env) (n : Z) (w : world) :
  0 < n -> clock_status E <> 0 ->
  returned (timed_wait_milli E n w) = Some (clock_status E)
  /\ deadlines (trace (final (timed_wait_milli E n w))) = deadlines (trace w).
Proof.
  intros Hn Hclock. unfold timed_wait_milli.
  destruct (Z.leb_spec n 0); [lia |]. run.
  destruct (Z.eqb_spec (clock_status E) 0); [contradiction |]. simpl.
  split; [reflexivity |].
  unfold deadlines; rewrite ?omap_app; simpl; rewrite ?app_nil_r; reflexivity.
Qed.

Lemma wrap_int_exact (z : Z) :
  -2147483648 <= z <= 2147483647 -> wrap_int z = z.
Proof.
  intros Hz. unfold wrap_int.
  rewrite Z.mod_small by lia. lia.
Qed.

Lemma wrap_int_range (z : Z) : -2147483648 <= wrap_int z <= 2147483647.
Proof.
  unfold wrap_int.
  pose proof (Z.mod_pos_bound (z + 2147483648) 4294967296 ltac:(lia)). lia.
Qed.

Lemma wrap_int_congruent (z : Z) :
  wrap_int z = z - 4294967296 * ((z + 2147483648) / 4294967296).
Proof.
  unfold wrap_int. rewrite Z.mod_eq by lia. lia.
Qed.

(** C9, as the code has it: for n > 0 (and a clock that can be read)
    the deadline handed to the wait has [tv_sec = now.tv_sec] and
    [tv_nsec = now.tv_usec + (int)(n * 1000000)]: the microseconds are
    added as they are and nothing is carried into [tv_sec].  The product
    is the exact one up to n = 2147 and wraps modulo 2^32 from n = 2148
    on.  The nanosecond field is above 999999999 for every n from 1000
    to 2147, whatever the clock reads; for n from 1 to 999 it never is,
    the clock reading less than one million microseconds. *)
Theorem timed_wait_milli_deadline (E : env) (n : Z) (w : world) :
  0 < n -> n <= 2147483647 -> clock_status E = 0 ->
  deadlines (trace (final (timed_wait_milli E n w)))
    = deadlines (trace w)
      ++ [{| tv_sec := tp_sec (clock_now E);
             tv_nsec := tp_usec (clock_now E) + wrap_int (n * 1000000) |}]
  /\ (n < 2148 -> wrap_int (n * 1000000) = n * 1000000)
  /\ (2148 <= n ->
      wrap_int (n * 1000000) <> n * 1000000
      /\ exists k, 0 < k /\ wrap_int (n * 1000000) = n * 1000000 - k * 4294967296)
  /\ (1000 <= n < 2148 -> 0 <= tp_usec (clock_now E) ->
      999999999 < tp_usec (clock_now E) + wrap_int (n * 1000000))
  /\ (n <= 999 -> 0 <= tp_usec (clock_now E) < 1000000 ->
      0 <= tp_usec (clock_now E) + wrap_int (n * 1000000) <= 999999999).
Proof.
  intros Hpos Hint Hclock.
  split; [apply (timed_wait_milli_run E n w Hpos Hclock) |].
  split; [intros Hsmall; apply wrap_int_exact; lia |].
  split; [| split].
  - intros Hbig. split.
    + pose proof (wrap_int_range (n * 1000000)). lia.
    + exists ((n * 1000000 + 2147483648) / 4294967296). split.
      * apply Z.div_str_pos. lia.
      * rewrite wrap_int_congruent. lia.
  - intros Hn Husec. rewrite wrap_int_exact by lia. lia.
  - intros Hn Husec. rewrite wrap_int_exact by lia. lia.
Qed.

Lemma timed_wait_milli_deadline_witness :
  deadlines (trace (final (timed_wait_milli (quiet_env 0 noon) 1500 initial_world)))
    = [{| tv_sec := 1000; tv_nsec := 1500250000 |}].
Proof.
  destruct (timed_wait_milli_deadline (quiet_env 0 noon) 1500 initial_world)
    as [Hdeadline _]; [lia | lia | reflexivity |].
  exact Hdeadline.
Defined.

(** C9 as stated fails for n from 1 to 999: with the largest microsecond
    count a clock reads, 999999, the nanosecond field is 1999999 for
    n = 1 and 999999999 for n = 999, not above 999999999, and
    [pthread_cond_timedwait] takes the deadline (the call returns
    ETIMEDOUT, not EINVAL). *)
Lemma timed_wait_milli_short_wait_in_range :
  deadlines
    (trace (final (timed_wait_milli (quiet_env 0 last_microsecond) 1
                     initial_world)))
  = [{| tv_sec := 1000; tv_nsec := 1999999 |}]
  /\ deadlines
       (trace (final (timed_wait_milli (quiet_env 0 last_microsecond) 999
                        initial_world)))
     = [{| tv_sec := 1000; tv_nsec := 999999999 |}]
  /\ returned (timed_wait_milli (quiet_env 0 last_microsecond) 999
                 initial_world)
     = Some ETIMEDOUT.
Proof. repeat split; reflexivity. Qed.

(** C3, as the code has it: when the clock cannot be read the call
    returns the clock's error code; when it can, the call returns the
    status of [pthread_cond_timedwait] as it is ([timed_wait_milli] with
    n <= 0 returns 0 before it reads the clock).  For [timed_wait] with a
    well-formed clock reading, the normal case in which the time elapses
    and nobody notifies gives ETIMEDOUT, which is not 0. *)
Theorem timed_wait_returns (E : env) (n : Z) (w : world) :
  returned (timed_wait E n w)
    = Some (if clock_status E =? 0
            then cond_timedwait_status E (seconds_deadline (clock_now E) n)
            else clock_status E)
  /\ returned (timed_wait_milli E n w)
     = Some (if n <=? 0 then 0
             else if clock_status E =? 0
                  then cond_timedwait_status E (milli_deadline (clock_now E) n)
                  else clock_status E)
  /\ (cond_notified E = false ->
      0 <= tp_usec (clock_now E) < 1000000 ->
      cond_timedwait_status E (seconds_deadline (clock_now E) n) = ETIMEDOUT)
  /\ ETIMEDOUT <> 0.
Proof.
  split; [| split; [| split]].
  - destruct (Z.eqb_spec (clock_status E) 0) as [Hc | Hc].
    + apply (timed_wait_run E n w Hc).
    + apply (timed_wait_clock_failure E n w Hc).
  - destruct (Z.leb_spec n 0) as [Hn | Hn].
    + rewrite timed_wait_milli_early by exact Hn. reflexivity.
    + destruct (Z.eqb_spec (clock_status E) 0) as [Hc | Hc].
      * apply (timed_wait_milli_run E n w Hn Hc).
      * apply (timed_wait_milli_clock_failure E n w Hn Hc).
  - intros Hquiet Husec. unfold cond_timedwait_status, seconds_deadline. simpl.
    rewrite Hquiet.
    destruct (Z.ltb_spec (tp_usec (clock_now E) * 1000) 0); [lia |].
    destruct (Z.leb_spec 1000000000 (tp_usec (clock_now E) * 1000)); [lia |].
    reflexivity.
  - unfold ETIMEDOUT. lia.
Qed.

Lemma timed_wait_returns_witness :
  returned (timed_wait (quiet_env 0 noon) 2 initial_world) = Some ETIMEDOUT.
Proof.
  destruct (timed_wait_returns (quiet_env 0 noon) 2 initial_world)
    as (Hseconds & _ & Hnormal & _).
  rewrite Hseconds.
  change (clock_status (quiet_env 0 noon) =? 0) with true. cbv iota.
  rewrite Hnormal; [reflexivity | reflexivity | simpl; lia].
Defined.

(** C3 as stated fails: the clock is read without error, the whole time
    elapses, nobody notifies, and both calls return 110 (ETIMEDOUT), not
    0. *)
Lemma timed_wait_elapsed_is_not_success :
  clock_status (quiet_env 0 noon) = 0
  /\ returned (timed_wait (quiet_env 0 noon) 2 initial_world) = Some 110
  /\ returned (timed_wait_milli (quiet_env 0 noon) 2 initial_world) = Some 110.
Proof. repeat split; reflexivity. Qed.

(** ** The status array *)

(** C1 fails at index -1: the array has three slots, the test
    [index < sizeof_status_array] lets -1 through, and the store goes to
    the slot before the array instead of returning false without a
    write. *)
Theorem set_status_element_minus_one :
  sizeof_status_array pool_of_three = 3
  /\ status_cells pool_of_three = Some [7; 7; 7]
  /\ set_status_element (quiet_env 7 noon) (-1) 5 pool_of_three
     = Undefined (OutOfBounds 2%positive (-1)) pool_of_three.
Proof. repeat split; reflexivity. Qed.

(** C2 fails on the path that recreates the array: the pool size (3)
    differs from the declared length (0), [init_status_array] allocates
    three slots and leaves in them what malloc returned, here 7, not 0. *)
Theorem init_status_array_leaves_fresh_memory :
  let w := final (create_threads 12 (quiet_env 7 noon) 3 initial_world) in
  pool_size w = 3
  /\ sizeof_status_array w = 0
  /\ sizeof_status_array (final (init_status_array 12 (quiet_env 7 noon) w)) = 3
  /\ status_cells (final (init_status_array 12 (quiet_env 7 noon) w))
     = Some [7; 7; 7].
Proof. repeat split; reflexivity. Qed.

Lemma set_status_element_in_range (E : env) (index v : Z) (w : world)
    (b : block) (cells : list Z) :
  status_array_at w b cells ->
  0 <= index < sizeof_status_array w ->
  returned (set_status_element E index v w) = Some TRUE
  /\ status_array_at (final (set_status_element E index v w)) b
       (<[Z.to_nat index := v]> cells).
Proof.
  intros (Hp & Hcells & Hlen) Hindex.
  unfold set_status_element, store, status_array_at. run.
  split_status;
    (destruct (Z.ltb_spec index (sizeof_status_array w)); [| lia]);
    simpl; rewrite Hp; simpl; rewrite Hcells;
    (destruct (Z.leb_spec 0 index); [| lia]);
    (destruct (Z.ltb_spec index (Z.of_nat (length cells))); [| lia]);
    simpl; split_status; rewrite ?lookup_insert_eq, ?length_insert; auto.
Qed.

Lemma set_status_element_too_large (E : env) (index v : Z) (w : world) :
  sizeof_status_array w <= index ->
  returned (set_status_element E index v w) = Some FALSE
  /\ heap (final (set_status_element E index v w)) = heap w
  /\ status_array (final (set_status_element E index v w)) = status_array w.
Proof.
  intros Hindex. unfold set_status_element. run.
  split_status;
    (destruct (Z.ltb_spec index (sizeof_status_array w)); [lia |]);
    simpl; split_status; auto.
Qed.

Lemma set_status_element_below_zero (E : env) (index v : Z) (w : world)
    (b : block) (cells : list Z) :
  status_array_at w b cells ->
  index < 0 ->
  exists w', set_status_element E index v w = Undefined (OutOfBounds b index) w'.
Proof.
  intros (Hp & Hcells & Hlen) Hindex.
  unfold set_status_element, store. run.
  split_status;
    (destruct (Z.ltb_spec index (sizeof_status_array w)); [| lia]);
    simpl; rewrite Hp; simpl; rewrite Hcells;
    (destruct (Z.leb_spec 0 index); [lia |]);
    simpl; eauto.
Qed.

(** The path of [init_status_array] that keeps the array: same block,
    same length, every slot 0. *)
Lemma init_status_array_same_size (ERROR_CODE_MALLOC : Z) (E : env)
    (w : world) (b : block) (cells : list Z) :
  status_array_at w b cells ->
  pool_size w = sizeof_status_array w ->
  returned (init_status_array ERROR_CODE_MALLOC E w) = Some tt
  /\ status_array_at (final (init_status_array ERROR_CODE_MALLOC E w)) b
       (replicate (length cells) 0).
Proof.
  intros (Hp & Hcells & Hlen) Hsize.
  unfold init_status_array, memset_zero, status_array_at. run.
  destruct (Z.eqb_spec (pool_size w) (sizeof_status_array w)); [| contradiction].
  simpl.
  split_status; rewrite Hp; simpl; rewrite Hcells;
    (destruct (Z.leb_spec 0 (sizeof_status_array w)); [| lia]);
    (destruct (Z.leb_spec (sizeof_status_array w) (Z.of_nat (length cells)));
       [| lia]);
    simpl; split_status;
    rewrite <- Hlen, Nat2Z.id, drop_all, app_nil_r, ?lookup_insert_eq,
      ?length_replicate; auto.
Qed.

(** The path that recreates it: the old array, if any, is released,
    the new one is a block of the new length, holding what the allocator
    left there. *)
Lemma init_status_array_resized (ERROR_CODE_MALLOC : Z) (E : env) (w : world) :
  pool_size w <> sizeof_status_array w ->
  0 <= pool_size w ->
  malloc_fails E = false ->
  status_array_live w ->
  returned (init_status_array ERROR_CODE_MALLOC E w) = Some tt
  /\ status_array_at (final (init_status_array ERROR_CODE_MALLOC E w))
       (next_block w) (garbage E <$> seq 0 (Z.to_nat (pool_size w))).
Proof.
  intros Hsize Hpos Hmalloc Hlive. unfold status_array_live in Hlive.
  unfold init_status_array, create_status_array, FREE, free, malloc, refused,
    status_array_at.
  run.
  destruct (Z.eqb_spec (pool_size w) (sizeof_status_array w)); [contradiction |].
  simpl.
  destruct (status_array w) as [old |] eqn:Hp.
  - destruct Hlive as [cells Hcells].
    split_status; rewrite Hp; simpl; rewrite Hcells; simpl; rewrite Hmalloc;
      simpl; (destruct (Z.ltb_spec (pool_size w) 0); [lia |]); simpl;
      split_status; rewrite ?lookup_insert_eq, ?length_fmap, ?length_seq;
      (split; [reflexivity | split; [reflexivity | split; [reflexivity | lia]]]).
  - split_status; rewrite Hp; simpl; rewrite Hmalloc; simpl;
      (destruct (Z.ltb_spec (pool_size w) 0); [lia |]); simpl;
      split_status; rewrite ?lookup_insert_eq, ?length_fmap, ?length_seq;
      (split; [reflexivity | split; [reflexivity | split; [reflexivity | lia]]]).
Qed.

(** ** Joining *)

Lemma joined_handles_app (s t : list event) :
  joined_handles (s ++ t) = joined_handles s ++ joined_handles t.
Proof. apply omap_app. Qed.

Lemma hung_reports_app (s t : list event) :
  hung_reports (s ++ t) = hung_reports s ++ hung_reports t.
Proof. apply omap_app. Qed.

Lemma omap_cons_option_list {A B} (f : A -> option B) (x : A) (l : list A) :
  omap f (x :: l) = option_list (f x) ++ omap f l.
Proof. simpl. destruct (f x); reflexivity. Qed.

Ltac join_step_done :=
  eexists; repeat split; try (reflexivity || assumption); simpl;
  rewrite ?joined_handles_app, ?hung_reports_app; simpl;
  rewrite ?app_nil_r; reflexivity.

Lemma join_threads_body_run (E : env) (t_status : option (list Z))
    (w : world) (b : block) (table : list Z) (k : nat) :
  thread_pool w = Some b ->
  heap w !! b = Some table ->
  (k < length table)%nat ->
  covers t_status (S k) ->
  exists w',
    join_threads_body E t_status (will_check t_status) (Z.of_nat k) w = Done tt w'
    /\ thread_pool w' = Some b
    /\ heap w' = heap w
    /\ pool_size w' = pool_size w
    /\ joined_handles (trace w')
       = joined_handles (trace w) ++ option_list (join_of table t_status k)
    /\ hung_reports (trace w')
       = hung_reports (trace w) ++ option_list (skip_of t_status k).
Proof.
  intros Hp Htable Hk Hcover.
  destruct (lookup_lt_is_Some_2 table k Hk) as [h Hh].
  unfold join_threads_body, join_of, skip_of, alive, will_check.
  rewrite Hh.
  destruct t_status as [a |]; simpl in *.
  - destruct (lookup_lt_is_Some_2 a k ltac:(lia)) as [v Hv].
    unfold read_argument, join_one, pthread_join, load. run.
    destruct (Z.leb_spec 0 (Z.of_nat k)); [| lia].
    rewrite Nat2Z.id, Hv. simpl.
    destruct (v =? 0); simpl.
    + join_step_done.
    + rewrite Hp. simpl. rewrite Htable, Hh. simpl.
      split_status; unfold modify; join_step_done.
  - unfold join_one, pthread_join, load. run.
    rewrite Hp. simpl. rewrite Htable.
    destruct (Z.leb_spec 0 (Z.of_nat k)); [| lia].
    rewrite Nat2Z.id, Hh. simpl.
    split_status; unfold modify; join_step_done.
Qed.

Lemma join_threads_loop (E : env) (t_status : option (list Z))
    (b : block) (table : list Z) (count : nat) :
  forall (k : nat) (w : world),
    thread_pool w = Some b ->
    heap w !! b = Some table ->
    (k + count <= length table)%nat ->
    covers t_status (k + count) ->
    exists w',
      for_range (join_threads_body E t_status (will_check t_status))
        (Z.of_nat k) count w = Done tt w'
      /\ thread_pool w' = Some b
      /\ heap w' = heap w
      /\ pool_size w' = pool_size w
      /\ joined_handles (trace w')
         = joined_handles (trace w) ++ omap (join_of table t_status) (seq k count)
      /\ hung_reports (trace w')
         = hung_reports (trace w) ++ omap (skip_of t_status) (seq k count).
Proof.
  induction count as [| count IH]; intros k w Hp Htable Hk Hcover.
  - exists w. simpl. rewrite !app_nil_r. repeat split; auto.
  - destruct (join_threads_body_run E t_status w b table k Hp Htable)
      as (w1 & Hrun & Hp1 & Hheap1 & Hsize1 & Hjoin1 & Hhung1);
      [lia | destruct t_status; simpl in *; [lia | exact I] |].
    destruct (IH (S k) w1) as (w2 & Hloop & Hp2 & Hheap2 & Hsize2 & Hjoin2 & Hhung2);
      [exact Hp1 | rewrite Hheap1; exact Htable | lia
      | destruct t_status; simpl in *; [lia | exact I] |].
    exists w2.
    change (for_range ?body (Z.of_nat k) (S count) w)
      with (bind (body (Z.of_nat k)) (fun _ => for_range body (Z.of_nat k + 1) count) w).
    unfold bind at 1. rewrite Hrun.
    replace (Z.of_nat k + 1) with (Z.of_nat (S k)) by lia.
    rewrite Hloop.
    repeat split; try congruence.
    + rewrite Hjoin2, Hjoin1, <- app_assoc.
      change (seq k (S count)) with (k :: seq (S k) count).
      rewrite omap_cons_option_list. reflexivity.
    + rewrite Hhung2, Hhung1, <- app_assoc.
      change (seq k (S count)) with (k :: seq (S k) count).
      rewrite omap_cons_option_list. reflexivity.
Qed.

Lemma omap_lookup_seq {A} (l p : list A) :
  omap (fun i => (p ++ l) !! i) (seq (length p) (length l)) = l.
Proof.
  revert p. induction l as [| x l IH]; intros p; [reflexivity |].
  change (seq (length p) (length (x :: l)))
    with (length p :: seq (S (length p)) (length l)).
  rewrite omap_cons_option_list, list_lookup_middle by reflexivity.
  simpl. f_equal.
  specialize (IH (p ++ [x])).
  rewrite <- app_assoc, length_app, Nat.add_1_r in IH. exact IH.
Qed.

Lemma join_all_handles (table : list Z) :
  omap (join_of table None) (seq 0 (length table)) = table.
Proof. exact (omap_lookup_seq table []). Qed.

Lemma skip_none (n k : nat) : omap (skip_of None) (seq k n) = [].
Proof. revert k. induction n as [| n IH]; intros k; [reflexivity | apply IH]. Qed.

(** C4: [join_threads] on a pool of n workers returns, and what it did
    is, index by index from 0 to n-1 in this order: a join of the handle
    in slot i when there is no liveness array or its entry i is not 0,
    and otherwise no join but a log line naming worker i+1 as hung.
    Without a liveness array the joins are the whole table, in table
    order, and nothing is reported as hung. *)
Theorem join_threads_selects (E : env) (t_status : option (list Z))
    (w : world) (table : list Z) :
  handle_table w = Some table ->
  Z.of_nat (length table) = pool_size w ->
  covers t_status (length table) ->
  exists w',
    join_threads E t_status w = Done tt w'
    /\ joined_handles (trace w')
       = joined_handles (trace w)
         ++ omap (join_of table t_status) (seq 0 (length table))
    /\ hung_reports (trace w')
       = hung_reports (trace w)
         ++ omap (skip_of t_status) (seq 0 (length table))
    /\ (t_status = None ->
        joined_handles (trace w') = joined_handles (trace w) ++ table
        /\ hung_reports (trace w') = hung_reports (trace w)).
Proof.
  intros Htable Hlen Hcover. unfold handle_table in Htable.
  destruct (thread_pool w) as [b |] eqn:Hp; [| discriminate].
  assert (Hfinish : forall w0 w1 : world,
    for_range (join_threads_body E t_status (will_check t_status)) 0
      (length table) w0 = Done tt w1 ->
    thread_pool w1 = Some b -> heap w1 !! b = Some table ->
    exists w',
      (for_range (join_threads_body E t_status (will_check t_status)) 0
         (length table) ;;
       printf "join_threads: " "%s Threads Stopped Successfully\n" [] ;;
       FREE thread_pool set_thread_pool ;;
       _destroy_all_mutexes E) w0 = Done tt w'
      /\ joined_handles (trace w') = joined_handles (trace w1)
      /\ hung_reports (trace w') = hung_reports (trace w1)).
  { intros w0 w1 Hloop Hp1 Htable1.
    unfold bind at 1. rewrite Hloop.
    unfold _destroy_all_mutexes, FREE, free. run.
    rewrite Hp1. simpl. rewrite Htable1. simpl.
    split_status; eexists; (split; [reflexivity |]); simpl;
      rewrite ?joined_handles_app, ?hung_reports_app; simpl;
      rewrite ?app_nil_r; split; reflexivity. }
  assert (Hgoal : exists w',
    join_threads E t_status w = Done tt w'
    /\ joined_handles (trace w')
       = joined_handles (trace w)
         ++ omap (join_of table t_status) (seq 0 (length table))
    /\ hung_reports (trace w')
       = hung_reports (trace w)
         ++ omap (skip_of t_status) (seq 0 (length table))).
  { unfold join_threads.
    destruct t_status as [a |].
    - destruct (join_threads_loop E (Some a) b table (length table) 0%nat w)
        as (w1 & Hloop & Hp1 & Hheap1 & _ & Hjoin1 & Hhung1); auto.
      destruct (Hfinish w w1 Hloop Hp1) as (w' & Hrun & Hjoin & Hhung);
        [rewrite Hheap1; exact Htable |].
      exists w'. unfold bind at 1, ret at 1. unfold bind at 1, get at 1.
      rewrite <- Hlen, Nat2Z.id.
      split; [exact Hrun | split; congruence].
    - set (w0 := set_trace
                   (trace w ++
                    [EvPrintf "join_threads: "
                       "%s Joining on ALL threads reguardless of state \n" []]) w).
      destruct (join_threads_loop E None b table (length table) 0%nat w0)
        as (w1 & Hloop & Hp1 & Hheap1 & _ & Hjoin1 & Hhung1); auto.
      destruct (Hfinish w0 w1 Hloop Hp1) as (w' & Hrun & Hjoin & Hhung);
        [rewrite Hheap1; exact Htable |].
      exists w'. unfold bind at 1, printf at 1, emit, modify.
      unfold bind at 1, get at 1. fold w0.
      change (pool_size w0) with (pool_size w).
      rewrite <- Hlen, Nat2Z.id.
      split; [exact Hrun |].
      rewrite Hjoin, Hhung, Hjoin1, Hhung1.
      subst w0. simpl. rewrite joined_handles_app, hung_reports_app. simpl.
      rewrite !app_nil_r. split; reflexivity. }
  destruct Hgoal as (w' & Hrun & Hjoin & Hhung).
  exists w'. repeat split; try assumption.
  - subst t_status. rewrite Hjoin, join_all_handles. reflexivity.
  - subst t_status. rewrite Hhung, skip_none, app_nil_r. reflexivity.
Qed.

Lemma join_threads_selects_witness :
  exists w',
    join_threads (quiet_env 7 noon) (Some [1; 0; 1])
      (final (create_threads 12 (quiet_env 7 noon) 3 initial_world))
    = Done tt w'
    /\ joined_handles (trace w') = [1; 3]
    /\ hung_reports (trace w') = [2].
Proof.
  destruct (join_threads_selects (quiet_env 7 noon) (Some [1; 0; 1])
              (final (create_threads 12 (quiet_env 7 noon) 3 initial_world))
              [1; 2; 3])
    as (w' & Hrun & Hjoin & Hhung & _);
    [reflexivity | reflexivity | simpl; lia |].
  exists w'. split; [exact Hrun | split; [exact Hjoin | exact Hhung]].
Defined.

(** ** Creating the pool *)

Lemma started_threads_app (s t : list event) :
  started_threads (s ++ t) = started_threads s ++ started_threads t.
Proof. apply omap_app. Qed.

Lemma create_threads_loop (E : env) (b : positive) (count : nat) :
  forall (k : nat) (w : world) (cells : list Z),
    thread_pool w = Some b ->
    heap w !! b = Some cells ->
    (k + count <= length cells)%nat ->
    (forall i, Z.of_nat k <= i < Z.of_nat (k + count) -> create_status E i = 0) ->
    exists w',
      for_range (create_threads_body E) (Z.of_nat k) count w = Done tt w'
      /\ thread_pool w' = Some b
      /\ pool_size w' = pool_size w
      /\ thread_stop w' = thread_stop w
      /\ heap w' !! b
         = Some (take k cells ++ seqZ (next_tid w) (Z.of_nat count)
                   ++ drop (k + count) cells)
      /\ started_threads (trace w')
         = started_threads (trace w) ++ seqZ (next_tid w) (Z.of_nat count).
Proof.
  induction count as [| count IH]; intros k w cells Hp Hcells Hk Hok.
  - exists w. simpl. rewrite Nat.add_0_r, take_drop, app_nil_r.
    repeat split; auto.
  - assert (Hlt : (k < length cells)%nat) by lia.
    set (w1 := set_trace (trace w ++ [EvThreadStart (next_tid w)])
                 (set_heap (<[b := <[k := next_tid w]> cells]> (heap w))
                    (set_next_tid (next_tid w + 1) w))).
    assert (Hbody : create_threads_body E (Z.of_nat k) w = Done tt w1).
    { unfold create_threads_body, pthread_create, store. run.
      rewrite Hp, (Hok (Z.of_nat k)) by lia. simpl. rewrite Hcells.
      destruct (Z.leb_spec 0 (Z.of_nat k)); [| lia].
      destruct (Z.ltb_spec (Z.of_nat k) (Z.of_nat (length cells))); [| lia].
      simpl. rewrite Nat2Z.id. reflexivity. }
    destruct (IH (S k) w1 (<[k := next_tid w]> cells))
      as (w2 & Hloop & Hp2 & Hsize2 & Hstop2 & Hheap2 & Hstart2).
    + exact Hp.
    + subst w1. simpl. apply lookup_insert_eq.
    + rewrite length_insert. lia.
    + intros i Hi. apply Hok. lia.
    + exists w2.
      change (for_range ?body (Z.of_nat k) (S count) w)
        with (bind (body (Z.of_nat k))
                (fun _ => for_range body (Z.of_nat k + 1) count) w).
      unfold bind at 1. rewrite Hbody.
      replace (Z.of_nat k + 1) with (Z.of_nat (S k)) by lia.
      rewrite Hloop.
      split; [reflexivity |]. split; [exact Hp2 |].
      split; [exact Hsize2 |]. split; [exact Hstop2 |].
      assert (Hseq : seqZ (next_tid w) (Z.of_nat (S count))
                     = next_tid w :: seqZ (next_tid w + 1) (Z.of_nat count)).
      { rewrite seqZ_cons by lia. f_equal. f_equal; lia. }
      split.
      * rewrite Hheap2. f_equal. subst w1. simpl.
        rewrite (take_S_r _ _ (next_tid w))
          by (apply list_lookup_insert_eq; exact Hlt).
        rewrite take_insert_ge by lia.
        rewrite drop_insert_lt by lia.
        rewrite Hseq, <- app_assoc. simpl.
        replace (S (k + count)) with (k + S count)%nat by lia.
        reflexivity.
      * rewrite Hstart2. subst w1. simpl.
        rewrite started_threads_app, Hseq, <- app_assoc. reflexivity.
Qed.

(** *** Code that can only add status reports to the log

    The lock wrappers and the mutex set-up and tear-down call pthread
    and hand the status to [CHECK_STATUS]: they return, and the world
    they leave differs from the one they found by status reports at the
    end of the trace. *)

Lemma logged_nil (w : world) : logged [] w = w.
Proof. destruct w. unfold logged, set_trace. simpl. rewrite app_nil_r. reflexivity. Qed.

Lemma logged_logged (s t : list event) (w : world) :
  logged t (logged s w) = logged (s ++ t) w.
Proof. unfold logged, set_trace. simpl. rewrite app_assoc. reflexivity. Qed.

Lemma only_reports_refl (w : world) : only_reports w w.
Proof. exists []. split; [constructor | symmetry; apply logged_nil]. Qed.

Lemma only_reports_trans (w1 w2 w3 : world) :
  only_reports w1 w2 -> only_reports w2 w3 -> only_reports w1 w3.
Proof.
  intros (s & Hs & ->) (t & Ht & ->). exists (s ++ t). split.
  - apply Forall_app; split; assumption.
  - apply logged_logged.
Qed.

Lemma reports_start_nothing (evs : list event) :
  Forall is_report evs -> started_threads evs = [].
Proof.
  induction 1 as [| e evs He _ IH]; [reflexivity |].
  destruct e; try contradiction. exact IH.
Qed.

Lemma only_reports_started (w w' : world) :
  only_reports w w' ->
  started_threads (trace w') = started_threads (trace w).
Proof.
  intros (evs & Hevs & ->). simpl.
  rewrite started_threads_app, (reports_start_nothing evs Hevs), app_nil_r.
  reflexivity.
Qed.

Lemma quiet_ret {A} (a : A) : quiet (ret a).
Proof. intros w. exists a, w. split; [reflexivity | apply only_reports_refl]. Qed.

Lemma quiet_bind {A B} (m : M A) (k : A -> M B) :
  quiet m -> (forall a, quiet (k a)) -> quiet (bind m k).
Proof.
  intros Hm Hk w. destruct (Hm w) as (a & w1 & Hrun & Hrep).
  destruct (Hk a w1) as (c & w2 & Hrun2 & Hrep2).
  exists c, w2. unfold bind. rewrite Hrun. split; [exact Hrun2 |].
  eapply only_reports_trans; eassumption.
Qed.

Lemma quiet_CHECK_STATUS (status : Z) (call msg : string) :
  quiet (CHECK_STATUS status call msg).
Proof.
  intros w. unfold CHECK_STATUS. destruct (status =? 0).
  - apply quiet_ret.
  - exists tt, (logged [EvBadStatus status call msg] w).
    split; [reflexivity |].
    exists [EvBadStatus status call msg]. split; [| reflexivity].
    repeat constructor.
Qed.

Lemma quiet_pthread_mutex (E : env) (m : mutex_id) (c : mutex_call) :
  quiet (pthread_mutex E m c).
Proof. apply quiet_ret. Qed.

Lemma quiet_pthread_cond_destroy (E : env) : quiet (pthread_cond_destroy E).
Proof. apply quiet_ret. Qed.

Create HintDb quiet.
#[local] Hint Resolve quiet_ret quiet_CHECK_STATUS quiet_pthread_mutex
  quiet_pthread_cond_destroy : quiet.
#[local] Hint Extern 2 (quiet (bind _ _)) =>
  apply quiet_bind; [| intros ?] : quiet.

Lemma quiet_lock_stop (E : env) : quiet (_lock_stop E).
Proof. unfold _lock_stop. auto with quiet. Qed.

Lemma quiet_unlock_stop (E : env) : quiet (_unlock_stop E).
Proof. unfold _unlock_stop. auto with quiet. Qed.

Lemma quiet_lock_pool_size (E : env) : quiet (_lock_pool_size E).
Proof. unfold _lock_pool_size. auto with quiet. Qed.

Lemma quiet_unlock_pool_size (E : env) : quiet (_unlock_pool_size E).
Proof. unfold _unlock_pool_size. auto with quiet. Qed.

Lemma quiet_create_local_mutexes (E : env) : quiet (_create_local_mutexes E).
Proof. unfold _create_local_mutexes. auto 20 with quiet. Qed.

Lemma quiet_destroy_all_mutexes (E : env) : quiet (_destroy_all_mutexes E).
Proof. unfold _destroy_all_mutexes. auto 20 with quiet. Qed.

Lemma get_pool_size_run (E : env) (w : world) :
  exists w', get_pool_size E w = Done (pool_size w) w' /\ only_reports w w'.
Proof.
  unfold get_pool_size.
  destruct (quiet_lock_pool_size E w) as ([] & w1 & Hlock & Hrep1).
  destruct (quiet_unlock_pool_size E w1) as ([] & w2 & Hunlock & Hrep2).
  exists w2. unfold bind at 1. rewrite Hlock.
  unfold bind at 1, get at 1. unfold bind at 1. rewrite Hunlock.
  split.
  - destruct Hrep1 as (evs & _ & ->). reflexivity.
  - eapply only_reports_trans; eassumption.
Qed.

Lemma should_stop_run (E : env) (w : world) :
  exists w', should_stop E w = Done (thread_stop w) w' /\ only_reports w w'.
Proof.
  unfold should_stop.
  destruct (quiet_lock_stop E w) as ([] & w1 & Hlock & Hrep1).
  destruct (quiet_unlock_stop E w1) as ([] & w2 & Hunlock & Hrep2).
  exists w2. unfold bind at 1. rewrite Hlock.
  unfold bind at 1, get at 1. unfold bind at 1. rewrite Hunlock.
  split.
  - destruct Hrep1 as (evs & _ & ->). reflexivity.
  - eapply only_reports_trans; eassumption.
Qed.

(** C5: when [create_threads] is called with n > 0, the allocation
    succeeds and every [pthread_create] returns 0, the call returns the
    handle table, the table has n entries, they are pairwise different
    and are the threads this call started, and [get_pool_size] returns
    n from then on. *)
Theorem create_threads_pool (ERROR_CODE_MALLOC : Z) (E : env) (n : Z)
    (w : world) :
  0 < n ->
  malloc_fails E = false ->
  (forall i, 0 <= i < n -> create_status E i = 0) ->
  exists (p : positive) (table : list Z) (w' : world),
    create_threads ERROR_CODE_MALLOC E n w = Done (Some p) w'
    /\ thread_pool w' = Some p
    /\ handle_table w' = Some table
    /\ Z.of_nat (length table) = n
    /\ NoDup table
    /\ started_threads (trace w') = started_threads (trace w) ++ table
    /\ forall E', returned (get_pool_size E' w') = Some n.
Proof.
  intros Hn Hmalloc Hcreate.
  set (b := next_block w).
  set (cells := garbage E <$> seq 0 (Z.to_nat n)).
  set (w0 := set_thread_pool (Some b)
               (set_next_block (Pos.succ b)
                  (set_heap (<[b := cells]> (heap (set_pool_size n w)))
                     (set_pool_size n w)))).
  destruct (quiet_create_local_mutexes E w0)
    as ([] & w1 & Hmutex & Hrep1).
  pose proof (only_reports_started _ _ Hrep1) as Hstarted1.
  destruct Hrep1 as (evs & _ & Hw1).
  assert (Hlen : length cells = Z.to_nat n)
    by (subst cells; rewrite length_fmap, length_seq; reflexivity).
  destruct (create_threads_loop E b (Z.to_nat n) 0%nat
              (set_thread_stop 0 w1) cells)
    as (w2 & Hloop & Hp2 & Hsize2 & _ & Hheap2 & Hstart2).
  { subst w1. reflexivity. }
  { subst w1. simpl. apply lookup_insert_eq. }
  { lia. }
  { intros i Hi. apply Hcreate. lia. }
  exists b, (seqZ (next_tid w) n), w2.
  assert (Htid : next_tid (set_thread_stop 0 w1) = next_tid w)
    by (subst w1; reflexivity).
  rewrite Htid, Z2Nat.id in Hheap2, Hstart2 by lia.
  change (0 + Z.to_nat n)%nat with (Z.to_nat n) in Hheap2.
  rewrite take_0, <- Hlen, drop_all, app_nil_r in Hheap2. simpl in Hheap2.
  split.
  { unfold create_threads, malloc, refused.
    unfold bind at 1, modify at 1. unfold bind at 1, get at 1.
    unfold bind at 1. simpl pool_size at 1. rewrite Hmalloc.
    destruct (Z.ltb_spec n 0); [lia |]. simpl orb. cbv iota.
    unfold bind at 1, modify at 1.
    match goal with |- _ ?W = _ => change W with w0 end.
    unfold bind at 1. rewrite Hmutex.
    unfold bind at 1, modify at 1. unfold bind at 1, get at 1.
    replace (pool_size (set_thread_stop 0 w1)) with n by (subst w1; reflexivity).
    unfold bind at 1. change (Z.of_nat 0) with 0 in Hloop. rewrite Hloop.
    unfold get. rewrite Hp2. reflexivity. }
  split; [exact Hp2 |].
  split; [unfold handle_table; rewrite Hp2; exact Hheap2 |].
  split; [rewrite length_seqZ; lia |].
  split; [apply NoDup_seqZ |].
  split.
  { rewrite Hstart2. simpl. rewrite Hstarted1. reflexivity. }
  intros E'. destruct (get_pool_size_run E' w2) as (w3 & Hget & _).
  rewrite Hget. simpl. rewrite Hsize2. subst w1. reflexivity.
Qed.

Lemma create_threads_pool_witness :
  exists (p : positive) (table : list Z) (w' : world),
    create_threads 12 (quiet_env 7 noon) 3 initial_world = Done (Some p) w'
    /\ thread_pool w' = Some p
    /\ handle_table w' = Some table
    /\ Z.of_nat (length table) = 3
    /\ NoDup table
    /\ started_threads (trace w') = started_threads (trace initial_world) ++ table
    /\ forall E', returned (get_pool_size E' w') = Some 3.
Proof.
  apply (create_threads_pool 12 (quiet_env 7 noon) 3 initial_world);
    [lia | reflexivity | intros i Hi; reflexivity].
Defined.

(** ** What a call cannot do

    A relation [R] between the world before and the world after is kept
    by a piece of code when it holds whatever the code does, also when
    the code ends in undefined behaviour; the code is [steady] when it
    moreover never ends the process.  [R] is any transitive relation
    that holds between worlds with the same stop flag. *)

Section Discipline.

Variable R : world -> world -> Prop.
Hypothesis R_trans : forall w1 w2 w3, R w1 w2 -> R w2 w3 -> R w1 w3.
Hypothesis R_frame : forall w w', thread_stop w' = thread_stop w -> R w w'.

Definition steady {A} (m : M A) : Prop :=
  forall w, R w (final (m w)) /\ exit_code (m w) = None.

Ltac leaf :=
  let w := fresh "w" in
  intros w; simpl;
  repeat (case_match; simpl);
  (split; [apply R_frame; reflexivity | reflexivity]).

Lemma steady_ret {A} (a : A) : steady (ret a).
Proof. unfold ret. leaf. Qed.

Lemma steady_bind {A B} (m : M A) (k : A -> M B) :
  steady m -> (forall a, steady (k a)) -> steady (bind m k).
Proof.
  intros Hm Hk w. unfold bind.
  destruct (Hm w) as [HR Hexit].
  destruct (m w) as [a w1 | c w1 | f w1]; simpl in *.
  - destruct (Hk a w1) as [HR2 Hexit2]. split; [| exact Hexit2].
    eapply R_trans; eassumption.
  - discriminate.
  - split; [exact HR | reflexivity].
Qed.

Lemma steady_get {A} (f : world -> A) : steady (get f).
Proof. unfold get. leaf. Qed.

Lemma steady_modify (f : world -> world) :
  (forall w, thread_stop (f w) = thread_stop w) -> steady (modify f).
Proof. intros Hf w. unfold modify. simpl. split; [apply R_frame, Hf | reflexivity]. Qed.

Lemma steady_emit (e : event) : steady (emit e).
Proof. unfold emit. apply steady_modify. reflexivity. Qed.

Lemma steady_undefined {A} (f : fault) : steady (@undefined A f).
Proof. unfold undefined. leaf. Qed.

Lemma steady_load (p : option positive) (i : Z) : steady (load p i).
Proof. unfold load. leaf. Qed.

Lemma steady_store (p : option positive) (i v : Z) : steady (store p i v).
Proof. unfold store. leaf. Qed.

Lemma steady_malloc (E : env) (count : Z) : steady (malloc E count).
Proof. unfold malloc. leaf. Qed.

Lemma steady_free (p : option positive) : steady (free p).
Proof. unfold free. leaf. Qed.

Lemma steady_memset_zero (p : option positive) (count : Z) :
  steady (memset_zero p count).
Proof. unfold memset_zero. leaf. Qed.

Lemma steady_read_argument (a : list Z) (i : Z) : steady (read_argument a i).
Proof. unfold read_argument, ret, undefined. leaf. Qed.

Lemma steady_for_range (body : Z -> M unit) (count : nat) :
  (forall i, steady (body i)) -> forall i, steady (for_range body i count).
Proof.
  intros Hbody. induction count as [| count IH]; intros i; simpl.
  - apply steady_ret.
  - apply steady_bind; [apply Hbody | intros _; apply IH].
Qed.

Create HintDb steady.

Hint Resolve steady_ret steady_get steady_emit steady_undefined steady_load
  steady_store steady_malloc steady_free steady_memset_zero
  steady_read_argument : steady.
Hint Extern 2 (steady (bind _ _)) =>
  apply steady_bind; [| intros ?] : steady.
Hint Extern 2 (steady (modify _)) =>
  apply steady_modify; intros ?; reflexivity : steady.
Hint Extern 3 (steady (for_range _ _ _)) =>
  apply steady_for_range; intros ? : steady.
Hint Extern 4 (steady (if ?c then _ else _)) => destruct c : steady.
Hint Extern 4 (steady (match ?x with _ => _ end)) => destruct x : steady.
Hint Unfold printf LOG_ERROR CHECK_STATUS FREE pthread_mutex pthread_create
  pthread_join gettimeofday pthread_cond_timedwait pthread_cond_destroy
  _lock_stop _unlock_stop _lock_status_array _unlock_status_array
  _lock_thread_pool _unlock_thread_pool _lock_pool_size _unlock_pool_size
  _create_local_mutexes _destroy_all_mutexes timed_wait_cleanup
  join_one join_threads_body create_threads_body : steady.

Ltac steady_code := autounfold with steady; auto 40 with steady.

Lemma steady_should_stop (E : env) : steady (should_stop E).
Proof. unfold should_stop. steady_code. Qed.

Lemma steady_get_pool_size (E : env) : steady (get_pool_size E).
Proof. unfold get_pool_size. steady_code. Qed.

Lemma steady_join_threads (E : env) (t_status : option (list Z)) :
  steady (join_threads E t_status).
Proof. unfold join_threads. steady_code. Qed.

Lemma steady_timed_wait (E : env) (n : Z) : steady (timed_wait E n).
Proof. unfold timed_wait. steady_code. Qed.

Lemma steady_timed_wait_milli (E : env) (n : Z) : steady (timed_wait_milli E n).
Proof. unfold timed_wait_milli. steady_code. Qed.

Lemma steady_find_scan (thread : Z) (count : nat) :
  forall i, steady (find_scan thread i count).
Proof.
  induction count as [| count IH]; intros i; simpl; [apply steady_ret |].
  steady_code.
Qed.

Lemma steady_find_my_index (E : env) (thread : Z) :
  steady (_find_my_index E thread).
Proof.
  pose proof steady_find_scan. pose proof steady_get_pool_size.
  unfold _find_my_index. steady_code.
Qed.

Lemma steady_get_status_array (E : env) : steady (get_status_array E).
Proof. unfold get_status_array. steady_code. Qed.

Lemma steady_set_status_element (E : env) (index status : Z) :
  steady (set_status_element E index status).
Proof. unfold set_status_element. steady_code. Qed.

(** The code that writes the stop flag is steady for a relation that
    does not look at it. *)
Lemma steady_write_stop (stop : Z) :
  (forall w w', R w w') -> steady (modify (set_thread_stop stop)).
Proof. intros Hany w. split; [apply Hany | reflexivity]. Qed.

Lemma steady_set_stop (E : env) (stop : Z) :
  (forall w w', R w w') -> steady (set_stop E stop).
Proof.
  intros Hany. unfold set_stop.
  pose proof (steady_write_stop stop Hany). steady_code.
Qed.

Lemma steady_stop_threads (E : env) :
  (forall w w', R w w') -> steady (stop_threads E).
Proof.
  intros Hany. unfold stop_threads.
  pose proof (steady_write_stop 1 Hany). steady_code.
Qed.

(** What [create_threads] does once the handle table is allocated
    (lines 98-111). *)
Lemma steady_start_workers (E : env) :
  (forall w w', R w w') ->
  steady (_create_local_mutexes E ;;
          modify (set_thread_stop 0) ;;
          n <- get pool_size ;;
          for_range (create_threads_body E) 0 (Z.to_nat n) ;;
          get thread_pool).
Proof.
  intros Hany. pose proof (steady_write_stop 0 Hany). steady_code.
Qed.

End Discipline.

Lemma same_stop_trans (w1 w2 w3 : world) :
  same_stop w1 w2 -> same_stop w2 w3 -> same_stop w1 w3.
Proof. unfold same_stop. congruence. Qed.

Lemma same_stop_frame (w w' : world) :
  thread_stop w' = thread_stop w -> same_stop w w'.
Proof. exact id. Qed.

Lemma any_world_trans (w1 w2 w3 : world) :
  any_world w1 w2 -> any_world w2 w3 -> any_world w1 w3.
Proof. exact (fun _ _ => I). Qed.

Lemma any_world_frame (w w' : world) :
  thread_stop w' = thread_stop w -> any_world w w'.
Proof. exact (fun _ => I). Qed.

Lemma final_bind_ret {A B} (m : M A) (f : A -> B) (w : world) :
  final (bind m (fun a => ret (f a)) w) = final (m w).
Proof. unfold bind, ret. destruct (m w); reflexivity. Qed.

Lemma final_bind_ret_done {A B} (m : M A) (f : A -> B) (w : world) :
  bind m (fun a => ret (f a)) w
  = match m w with
    | Done a w' => Done (f a) w'
    | Exit c w' => Exit c w'
    | Undefined u w' => Undefined u w'
    end.
Proof. reflexivity. Qed.

Lemma exit_code_bind_ret {A B} (m : M A) (f : A -> B) (w : world) :
  exit_code (bind m (fun a => ret (f a)) w) = exit_code (m w).
Proof. unfold bind, ret. destruct (m w); reflexivity. Qed.

Ltac every_path :=
  run; repeat (case_match; simpl in *; try discriminate).

(** *** Where the process can end *)

Lemma create_threads_exit (ERROR_CODE_MALLOC : Z) (E : env) (n : Z)
    (w : world) (code : Z) :
  exit_code (create_threads ERROR_CODE_MALLOC E n w) = Some code ->
  code = ERROR_CODE_MALLOC /\ refused E n = true.
Proof.
  unfold create_threads, malloc.
  unfold bind at 1, modify at 1. unfold bind at 1, get at 1.
  unfold bind at 1. simpl pool_size.
  destruct (refused E n) eqn:Hrefused.
  - run. intros [= <-]. split; reflexivity.
  - unfold bind at 1, modify at 1. intros Hexit. exfalso.
    match type of Hexit with
    | exit_code (_ ?W) = _ =>
        destruct (steady_start_workers any_world any_world_trans
                    any_world_frame E (fun _ _ => I) W) as [_ Hnone]
    end.
    congruence.
Qed.

Lemma create_status_array_exit (ERROR_CODE_MALLOC : Z) (E : env)
    (w : world) (code : Z) :
  exit_code (create_status_array ERROR_CODE_MALLOC E w) = Some code ->
  code = ERROR_CODE_MALLOC /\ refused E (pool_size w) = true.
Proof.
  unfold create_status_array, FREE, free, malloc.
  every_path; intros; simplify_eq /=; split; reflexivity || assumption.
Qed.

Lemma init_status_array_exit (ERROR_CODE_MALLOC : Z) (E : env)
    (w : world) (code : Z) :
  exit_code (init_status_array ERROR_CODE_MALLOC E w) = Some code ->
  code = ERROR_CODE_MALLOC /\ refused E (pool_size w) = true.
Proof.
  unfold init_status_array.
  unfold bind at 1, get at 1. unfold bind at 1, get at 1.
  destruct (negb (pool_size w =? sizeof_status_array w)).
  - apply create_status_array_exit.
  - unfold memset_zero. every_path; intros; simplify_eq /=.
Qed.

Lemma create_status_array_same_stop (ERROR_CODE_MALLOC : Z) (E : env)
    (w : world) :
  thread_stop (final (create_status_array ERROR_CODE_MALLOC E w))
  = thread_stop w.
Proof.
  unfold create_status_array, FREE, free, malloc.
  every_path; simplify_eq /=; reflexivity.
Qed.

Lemma init_status_array_same_stop (ERROR_CODE_MALLOC : Z) (E : env)
    (w : world) :
  thread_stop (final (init_status_array ERROR_CODE_MALLOC E w))
  = thread_stop w.
Proof.
  unfold init_status_array.
  unfold bind at 1, get at 1. unfold bind at 1, get at 1.
  destruct (negb (pool_size w =? sizeof_status_array w)).
  - apply create_status_array_same_stop.
  - unfold memset_zero. every_path; simplify_eq /=; reflexivity.
Qed.

Lemma run_call_exit (ERROR_CODE_MALLOC : Z) (E : env) (c : call) (w : world)
    (code : Z) :
  exit_code (run_call ERROR_CODE_MALLOC E c w) = Some code ->
  code = ERROR_CODE_MALLOC
  /\ allocates c = true
  /\ refused E (requested c w) = true.
Proof.
  pose proof (fun A (m : M A) (H : steady any_world m) =>
                proj2 (H w)) as Hsteady.
  destruct c; simpl run_call;
    rewrite (exit_code_bind_ret _ _ w); simpl allocates; simpl requested;
    intros Hexit.
  - destruct (create_threads_exit _ _ _ _ _ Hexit). auto.
  - rewrite Hsteady in Hexit; [discriminate |].
    apply steady_join_threads; [exact any_world_trans | exact any_world_frame].
  - rewrite Hsteady in Hexit; [discriminate |].
    apply steady_timed_wait; [exact any_world_trans | exact any_world_frame].
  - rewrite Hsteady in Hexit; [discriminate |].
    apply steady_timed_wait_milli; [exact any_world_trans | exact any_world_frame].
  - rewrite Hsteady in Hexit; [discriminate |].
    apply steady_find_my_index; [exact any_world_trans | exact any_world_frame].
  - rewrite Hsteady in Hexit; [discriminate |].
    apply steady_stop_threads;
      [exact any_world_trans | exact any_world_frame | exact (fun _ _ => I)].
  - rewrite Hsteady in Hexit; [discriminate |].
    apply steady_should_stop; [exact any_world_trans | exact any_world_frame].
  - rewrite Hsteady in Hexit; [discriminate |].
    apply steady_set_stop;
      [exact any_world_trans | exact any_world_frame | exact (fun _ _ => I)].
  - rewrite Hsteady in Hexit; [discriminate |].
    apply steady_get_pool_size; [exact any_world_trans | exact any_world_frame].
  - destruct (create_status_array_exit _ _ _ _ Hexit). auto.
  - destruct (init_status_array_exit _ _ _ _ Hexit). auto.
  - rewrite Hsteady in Hexit; [discriminate |].
    apply steady_get_status_array; [exact any_world_trans | exact any_world_frame].
  - rewrite Hsteady in Hexit; [discriminate |].
    apply steady_set_status_element; [exact any_world_trans | exact any_world_frame].
Qed.

Lemma create_threads_refused (ERROR_CODE_MALLOC : Z) (E : env) (n : Z)
    (w : world) :
  refused E n = true ->
  create_threads ERROR_CODE_MALLOC E n w
  = Exit ERROR_CODE_MALLOC
      (logged [EvLogError "create_threads: " "Could not create threads!"]
         (set_thread_pool None (set_pool_size n w))).
Proof.
  intros Hrefused. unfold create_threads, malloc. run.
  rewrite Hrefused. reflexivity.
Qed.

Lemma create_status_array_refused (ERROR_CODE_MALLOC : Z) (E : env)
    (w : world) :
  ERROR_CODE_MALLOC <> 0 ->
  refused E (pool_size w) = true ->
  status_array_live w ->
  exit_code (create_status_array ERROR_CODE_MALLOC E w) = Some ERROR_CODE_MALLOC
  /\ started_threads (trace (final (create_status_array ERROR_CODE_MALLOC E w)))
     = started_threads (trace w).
Proof.
  intros Hcode Hrefused Hlive. unfold status_array_live in Hlive.
  assert (Hnonzero : (ERROR_CODE_MALLOC =? 0) = false)
    by (apply Z.eqb_neq; exact Hcode).
  unfold create_status_array, FREE, free, malloc. run.
  destruct (status_array w) as [b |] eqn:Hp.
  - destruct Hlive as [cells Hcells].
    destruct (mutex_status E status_array_mutex MutexLock =? 0); simpl;
      rewrite Hp; simpl; rewrite Hcells; simpl; rewrite Hrefused; simpl;
      rewrite Hnonzero; simpl;
      destruct (mutex_status E status_array_mutex MutexUnlock =? 0); simpl;
      (split; [reflexivity |]);
      rewrite ?started_threads_app; simpl; rewrite ?app_nil_r; reflexivity.
  - destruct (mutex_status E status_array_mutex MutexLock =? 0); simpl;
      rewrite Hp; simpl; rewrite Hrefused; simpl;
      rewrite Hnonzero; simpl;
      destruct (mutex_status E status_array_mutex MutexUnlock =? 0); simpl;
      (split; [reflexivity |]);
      rewrite ?started_threads_app; simpl; rewrite ?app_nil_r; reflexivity.
Qed.

Lemma timed_wait_clock_failure_logged (E : env) (n : Z) (w : world) :
  clock_status E <> 0 ->
  timed_wait E n w
  = Done (clock_status E)
      (logged [EvClockRead;
               EvLogError "timed_wait: " "gettimeofday failed in timed_wait"] w).
Proof.
  intros Hclock. unfold timed_wait, logged. run.
  destruct (Z.eqb_spec (clock_status E) 0); [contradiction |]. simpl.
  rewrite <- app_assoc. reflexivity.
Qed.

(** C8 fails for a bounds violation, a failure of the layer that is not
    an allocation failure: in a process that has made no call yet the
    status array has no slot, so that index -1 is out of bounds; the
    test [index < sizeof_status_array] lets it through (-1 < 0) and the
    store goes through the NULL pointer.  The call does not come back
    with FALSE: it returns nothing and logs nothing, and the process
    does not go on. *)
Theorem bounds_violation_is_not_returned :
  malloc_fails (quiet_env 0 noon) = false
  /\ status_array initial_world = None
  /\ sizeof_status_array initial_world = 0
  /\ set_status_element (quiet_env 0 noon) (-1) 5 initial_world
     = Undefined NullDereference initial_world
  /\ returned (set_status_element (quiet_env 0 noon) (-1) 5 initial_world)
     = None
  /\ trace (final (set_status_element (quiet_env 0 noon) (-1) 5 initial_world))
     = [].
Proof. repeat split; reflexivity. Qed.

(** ** The stop flag *)

Lemma stop_threads_run (E : env) (w : world) :
  exists w', stop_threads E w = Done tt w' /\ thread_stop w' = 1.
Proof.
  unfold stop_threads. run. split_status; eexists; split; reflexivity.
Qed.

Lemma set_stop_run (E : env) (stop : Z) (w : world) :
  exists w', set_stop E stop w = Done tt w' /\ thread_stop w' = stop.
Proof.
  unfold set_stop. run. split_status; eexists; split; reflexivity.
Qed.

Lemma run_call_request (ERROR_CODE_MALLOC : Z) (E : env) (c : call)
    (w : world) :
  keeps_request c ->
  thread_stop w <> 0 ->
  thread_stop (final (run_call ERROR_CODE_MALLOC E c w)) <> 0.
Proof.
  pose proof (fun A (m : M A) (H : steady same_stop m) =>
                proj1 (H w)) as Hsteady.
  unfold same_stop in Hsteady.
  destruct c; simpl run_call; rewrite (final_bind_ret _ _ w);
    simpl keeps_request; intros Hkeeps Hstop.
  - contradiction.
  - rewrite Hsteady; [exact Hstop |].
    apply steady_join_threads; [exact same_stop_trans | exact same_stop_frame].
  - rewrite Hsteady; [exact Hstop |].
    apply steady_timed_wait; [exact same_stop_trans | exact same_stop_frame].
  - rewrite Hsteady; [exact Hstop |].
    apply steady_timed_wait_milli; [exact same_stop_trans | exact same_stop_frame].
  - rewrite Hsteady; [exact Hstop |].
    apply steady_find_my_index; [exact same_stop_trans | exact same_stop_frame].
  - destruct (stop_threads_run E w) as (w' & -> & Hflag). simpl.
    rewrite Hflag. lia.
  - rewrite Hsteady; [exact Hstop |].
    apply steady_should_stop; [exact same_stop_trans | exact same_stop_frame].
  - destruct (set_stop_run E stop w) as (w' & -> & Hflag). simpl.
    rewrite Hflag. exact Hkeeps.
  - rewrite Hsteady; [exact Hstop |].
    apply steady_get_pool_size; [exact same_stop_trans | exact same_stop_frame].
  - rewrite create_status_array_same_stop. exact Hstop.
  - rewrite init_status_array_same_stop. exact Hstop.
  - rewrite Hsteady; [exact Hstop |].
    apply steady_get_status_array; [exact same_stop_trans | exact same_stop_frame].
  - rewrite Hsteady; [exact Hstop |].
    apply steady_set_status_element; [exact same_stop_trans | exact same_stop_frame].
Qed.

Lemma run_calls_request (ERROR_CODE_MALLOC : Z) (cs : list (env * call)) :
  forall w w',
    Forall (fun ec => keeps_request (snd ec)) cs ->
    thread_stop w <> 0 ->
    run_calls ERROR_CODE_MALLOC cs w = Done tt w' ->
    thread_stop w' <> 0.
Proof.
  induction cs as [| [E c] cs IH]; intros w w' Hcs Hstop Hrun.
  - injection Hrun as <-. exact Hstop.
  - inversion Hcs as [| ? ? Hc Hrest]; subst.
    simpl in Hrun. unfold bind in Hrun.
    pose proof (run_call_request ERROR_CODE_MALLOC E c w Hc Hstop) as Hnext.
    destruct (run_call ERROR_CODE_MALLOC E c w) as [v w1 | |];
      [| discriminate | discriminate].
    exact (IH w1 w' Hrest Hnext Hrun).
Qed.

(** C6, as the code has it: once [stop_threads] has returned, whatever
    calls of the API follow, as long as none of them is [set_stop(0)] or
    [create_threads] (which clears the flag), a call of [should_stop]
    returns, and returns a non-zero value. *)
Theorem stop_stays_requested (ERROR_CODE_MALLOC : Z) (E0 E1 : env)
    (cs : list (env * call)) (w w' : world) :
  Forall (fun ec => keeps_request (snd ec)) cs ->
  run_calls ERROR_CODE_MALLOC ((E0, StopThreads) :: cs) w = Done tt w' ->
  exists v, returned (should_stop E1 w') = Some v /\ v <> 0.
Proof.
  intros Hcs Hrun.
  assert (Hstop : thread_stop w' <> 0).
  { simpl in Hrun. unfold bind at 1 in Hrun.
    rewrite (final_bind_ret_done (stop_threads E0) (fun _ => VUnit) w) in Hrun.
    destruct (stop_threads_run E0 w) as (w1 & Hstopped & Hflag).
    rewrite Hstopped in Hrun.
    apply (run_calls_request ERROR_CODE_MALLOC cs w1 w' Hcs); [| exact Hrun].
    rewrite Hflag. lia. }
  destruct (should_stop_run E1 w') as (w2 & -> & _).
  exists (thread_stop w'). split; [reflexivity | exact Hstop].
Qed.

Lemma stop_stays_requested_witness :
  exists v,
    returned
      (should_stop (quiet_env 0 noon)
         (final (run_calls 12
                   [(quiet_env 0 noon, StopThreads);
                    (quiet_env 0 noon, GetPoolSize);
                    (quiet_env 0 noon, SetStop 5);
                    (quiet_env 0 noon, InitStatusArray);
                    (quiet_env 0 noon, TimedWaitMilli 3)]
                   initial_world)))
    = Some v
    /\ v <> 0.
Proof.
  apply (stop_stays_requested 12 (quiet_env 0 noon) (quiet_env 0 noon)
           [(quiet_env 0 noon, GetPoolSize);
            (quiet_env 0 noon, SetStop 5);
            (quiet_env 0 noon, InitStatusArray);
            (quiet_env 0 noon, TimedWaitMilli 3)]
           initial_world).
  - repeat (constructor; [simpl; try exact I; lia |]). constructor.
  - reflexivity.
Defined.

(** C6 as stated fails: [create_threads] is one of the other operations
    of the layer, and after [stop_threads] then [create_threads] a call
    of [should_stop] returns 0 although nobody called [set_stop(0)]. *)
Lemma create_threads_clears_stop :
  returned
    (run_calls 12
       [(quiet_env 0 noon, StopThreads); (quiet_env 0 noon, CreateThreads 1)]
       initial_world)
  = Some tt
  /\ returned
       (should_stop (quiet_env 0 noon)
          (final (run_calls 12
                    [(quiet_env 0 noon, StopThreads);
                     (quiet_env 0 noon, CreateThreads 1)]
                    initial_world)))
     = Some 0.
Proof. split; reflexivity. Qed.

(** * Further properties *)

(** ** What quiet code leaves alone *)

Lemma only_reports_globals (w w' : world) :
  only_reports w w' ->
  thread_pool w' = thread_pool w
  /\ pool_size w' = pool_size w
  /\ status_array w' = status_array w
  /\ sizeof_status_array w' = sizeof_status_array w
  /\ thread_stop w' = thread_stop w
  /\ heap w' = heap w
  /\ next_block w' = next_block w
  /\ next_tid w' = next_tid w.
Proof. intros (evs & _ & ->). repeat split; reflexivity. Qed.

Lemma quiet_lock_thread_pool (E : env) : quiet (_lock_thread_pool E).
Proof. unfold _lock_thread_pool. auto with quiet. Qed.

Lemma quiet_unlock_thread_pool (E : env) : quiet (_unlock_thread_pool E).
Proof. unfold _unlock_thread_pool. auto with quiet. Qed.

Lemma quiet_lock_status_array (E : env) : quiet (_lock_status_array E).
Proof. unfold _lock_status_array. auto with quiet. Qed.

Lemma quiet_unlock_status_array (E : env) : quiet (_unlock_status_array E).
Proof. unfold _unlock_status_array. auto with quiet. Qed.

(** ** Index lookup *)

Lemma scan_result_found (thread : Z) (l : list Z) :
  forall (k i : nat),
    l !! i = Some thread ->
    (forall j, (j < i)%nat -> l !! j <> Some thread) ->
    scan_result thread l k = (k + i)%nat.
Proof.
  induction l as [| h t IH]; intros k i Hi Hfirst; [discriminate |].
  simpl. destruct (Z.eqb_spec thread h) as [-> | Hne].
  - destruct i as [| i]; [lia |].
    exfalso. apply (Hfirst 0%nat); [lia | reflexivity].
  - destruct i as [| i]; [simpl in Hi; congruence |].
    rewrite (IH (S k) i); [lia | exact Hi |].
    intros j Hj. apply (Hfirst (S j)). lia.
Qed.

Lemma scan_result_absent (thread : Z) (l : list Z) :
  forall k : nat, thread ∉ l -> scan_result thread l k = (k + length l)%nat.
Proof.
  induction l as [| h t IH]; intros k Habsent; simpl; [lia |].
  destruct (Z.eqb_spec thread h) as [-> | Hne].
  - exfalso. apply Habsent. left.
  - rewrite IH; [lia |]. intros Hin. apply Habsent. right. exact Hin.
Qed.

Lemma find_scan_run (thread : Z) (b : positive) (table : list Z)
    (count : nat) :
  forall (k : nat) (w : world),
    thread_pool w = Some b ->
    heap w !! b = Some table ->
    (k + count <= length table)%nat ->
    find_scan thread (Z.of_nat k) count w
    = Done (Z.of_nat (scan_result thread (take count (drop k table)) k)) w.
Proof.
  induction count as [| count IH]; intros k w Hp Htable Hk.
  - reflexivity.
  - destruct (lookup_lt_is_Some_2 table k ltac:(lia)) as [h Hh].
    rewrite (drop_S _ _ _ Hh). simpl.
    unfold bind, get, load. rewrite Hp, Htable.
    destruct (Z.leb_spec 0 (Z.of_nat k)); [| lia].
    rewrite Nat2Z.id, Hh.
    destruct (thread =? h); [reflexivity |].
    replace (Z.of_nat k + 1) with (Z.of_nat (S k)) by lia.
    apply IH; [exact Hp | exact Htable | lia].
Qed.

Lemma find_my_index_run (E : env) (thread : Z) (w : world) (table : list Z) :
  handle_table w = Some table ->
  Z.of_nat (length table) = pool_size w ->
  exists w1,
    only_reports w w1
    /\ _find_my_index E thread w
       = (let i := Z.of_nat (scan_result thread table 0) in
          if i >=? pool_size w
          then (LOG_ERROR "find_my_index: "
                  "Unable to match any thread in thread_pool" ;; ret (-1)) w1
          else Done i w1).
Proof.
  intros Htable Hlen. unfold handle_table in Htable.
  destruct (thread_pool w) as [b |] eqn:Hp; [| discriminate].
  destruct (get_pool_size_run E w) as (w1 & Hsize & Hrep1).
  destruct (quiet_lock_thread_pool E w1) as ([] & w2 & Hlock & Hrep2).
  destruct (quiet_unlock_thread_pool E w2) as ([] & w3 & Hunlock & Hrep3).
  assert (Hrep : only_reports w w2) by (eapply only_reports_trans; eassumption).
  destruct (only_reports_globals _ _ Hrep) as (Hp2 & _ & _ & _ & _ & Hheap2 & _).
  exists w3. split; [eapply only_reports_trans; eassumption |].
  unfold _find_my_index.
  unfold bind at 1. rewrite Hsize.
  unfold bind at 1. rewrite Hlock.
  unfold bind at 1.
  rewrite <- Hlen, Nat2Z.id.
  pose proof (find_scan_run thread b table (length table) 0%nat w2) as Hscan.
  change (Z.of_nat 0) with 0 in Hscan.
  rewrite Hscan;
    [| rewrite Hp2; exact Hp | rewrite Hheap2; exact Htable | lia].
  rewrite drop_0, firstn_all.
  unfold bind at 1. rewrite Hunlock.
  cbv zeta. destruct (_ >=? _); reflexivity.
Qed.

(** X1: on a pool whose handle table has [pool_size] entries,
    [_find_my_index] returns the position of the first entry equal to
    the handle it is asked for. *)
Theorem find_my_index_first_match (E : env) (thread : Z) (w : world)
    (table : list Z) (i : nat) :
  handle_table w = Some table ->
  Z.of_nat (length table) = pool_size w ->
  table !! i = Some thread ->
  (forall j, (j < i)%nat -> table !! j <> Some thread) ->
  returned (_find_my_index E thread w) = Some (Z.of_nat i).
Proof.
  intros Htable Hlen Hi Hfirst.
  destruct (find_my_index_run E thread w table Htable Hlen) as (w1 & _ & ->).
  rewrite (scan_result_found thread table 0 i Hi Hfirst). cbv zeta.
  pose proof (lookup_lt_Some _ _ _ Hi) as Hlt.
  destruct (Z.geb_spec (Z.of_nat (0 + i)) (pool_size w)); [lia | reflexivity].
Qed.

Lemma find_my_index_first_match_witness :
  returned
    (_find_my_index (quiet_env 7 noon) 2
       (final (create_threads 12 (quiet_env 7 noon) 3 initial_world)))
  = Some 1.
Proof.
  apply (find_my_index_first_match (quiet_env 7 noon) 2
           (final (create_threads 12 (quiet_env 7 noon) 3 initial_world))
           [1; 2; 3] 1%nat);
    [reflexivity | reflexivity | reflexivity |].
  intros j Hj. destruct j as [| j]; [discriminate | lia].
Defined.

(** X2: when no entry of the handle table equals the handle,
    [_find_my_index] returns -1, and the last thing it does is to log
    the failure; the pool and the stop flag are as before. *)
Theorem find_my_index_no_match (E : env) (thread : Z) (w : world)
    (table : list Z) :
  handle_table w = Some table ->
  Z.of_nat (length table) = pool_size w ->
  thread ∉ table ->
  exists w',
    _find_my_index E thread w = Done (-1) w'
    /\ last (trace w')
       = Some (EvLogError "find_my_index: "
                 "Unable to match any thread in thread_pool")
    /\ handle_table w' = Some table
    /\ pool_size w' = pool_size w.
Proof.
  intros Htable Hlen Habsent.
  destruct (find_my_index_run E thread w table Htable Hlen)
    as (w1 & Hrep & ->).
  rewrite (scan_result_absent thread table 0 Habsent). cbv zeta.
  destruct (Z.geb_spec (Z.of_nat (0 + length table)) (pool_size w)); [| lia].
  destruct (only_reports_globals _ _ Hrep) as (Hp & Hsize & _ & _ & _ & Hheap & _).
  eexists. split; [reflexivity |]. simpl.
  split; [apply last_snoc |].
  split; [| exact Hsize].
  unfold handle_table in *. simpl. rewrite Hp, Hheap. exact Htable.
Qed.

Lemma find_my_index_no_match_witness :
  returned
    (_find_my_index (quiet_env 7 noon) 9
       (final (create_threads 12 (quiet_env 7 noon) 3 initial_world)))
  = Some (-1).
Proof.
  destruct (find_my_index_no_match (quiet_env 7 noon) 9
              (final (create_threads 12 (quiet_env 7 noon) 3 initial_world))
              [1; 2; 3])
    as (w' & -> & _); [reflexivity | reflexivity | | reflexivity].
  intros Hin. repeat (apply elem_of_cons in Hin as [Hin | Hin]; [discriminate |]).
  inversion Hin.
Defined.

(** ** Timed waits, further *)

(** X3: [timed_wait] has no guard on the duration: for every
    [wait_secs], zero and negative ones included, it reads the clock
    once and waits once, until [now.tv_sec + wait_secs] seconds and
    [now.tv_usec * 1000] nanoseconds.  With a well-formed clock reading
    the nanosecond field is in range, and the call returns 0 when the
    wait is notified and ETIMEDOUT when it is not. *)
Theorem timed_wait_always_waits (E : env) (n : Z) (w : world) :
  clock_status E = 0 ->
  0 <= tp_usec (clock_now E) < 1000000 ->
  clock_reads (trace (final (timed_wait E n w))) = S (clock_reads (trace w))
  /\ deadlines (trace (final (timed_wait E n w)))
     = deadlines (trace w)
       ++ [{| tv_sec := tp_sec (clock_now E) + n;
              tv_nsec := tp_usec (clock_now E) * 1000 |}]
  /\ 0 <= tp_usec (clock_now E) * 1000 < 1000000000
  /\ returned (timed_wait E n w)
     = Some (if cond_notified E then 0 else ETIMEDOUT).
Proof.
  intros Hclock Husec.
  split; [| split; [| split]].
  - unfold timed_wait. run. rewrite Hclock. simpl.
    split_status; unfold clock_reads; rewrite ?omap_app; simpl;
      rewrite ?app_nil_r, ?length_app; simpl; lia.
  - apply (timed_wait_run E n w Hclock).
  - lia.
  - destruct (timed_wait_run E n w Hclock) as [-> _].
    unfold cond_timedwait_status, seconds_deadline. simpl.
    destruct (Z.ltb_spec (tp_usec (clock_now E) * 1000) 0); [lia |].
    destruct (Z.leb_spec 1000000000 (tp_usec (clock_now E) * 1000)); [lia |].
    reflexivity.
Qed.

Lemma timed_wait_always_waits_witness :
  returned (timed_wait (quiet_env 0 noon) (-3) initial_world) = Some ETIMEDOUT
  /\ deadlines (trace (final (timed_wait (quiet_env 0 noon) (-3) initial_world)))
     = [{| tv_sec := 997; tv_nsec := 250000000 |}].
Proof.
  destruct (timed_wait_always_waits (quiet_env 0 noon) (-3) initial_world)
    as (_ & Hdeadline & _ & Hreturn); [reflexivity | simpl; lia |].
  split; [exact Hreturn | exact Hdeadline].
Defined.

(** X4: what [timed_wait_milli n] returns, for a clock that reads
    [tv_usec] below one million.  From n = 1 to n = 999 the nanosecond
    field of the deadline is in range and the call returns 0 when the
    wait is notified and ETIMEDOUT when it is not.  From n = 1000 to
    n = 4293 the field is too large (up to n = 2147) or negative (the
    product has wrapped): [pthread_cond_timedwait] is called once with
    this deadline, refuses it, and the call returns EINVAL whether the
    wait would have been notified or not.  From n = 4295 to n = 5293 the
    wrapped product has brought the field back into range, 2^32
    nanoseconds short of what was asked, and the call returns 0 or
    ETIMEDOUT again. *)
Theorem timed_wait_milli_one_second_or_more (E : env) (n : Z) (w : world) :
  clock_status E = 0 ->
  0 <= tp_usec (clock_now E) < 1000000 ->
  0 < n ->
  deadlines (trace (final (timed_wait_milli E n w)))
  = deadlines (trace w) ++ [milli_deadline (clock_now E) n]
  /\ (n <= 999 ->
      tv_nsec (milli_deadline (clock_now E) n)
      = tp_usec (clock_now E) + n * 1000000
      /\ 0 <= tv_nsec (milli_deadline (clock_now E) n) < 1000000000
      /\ returned (timed_wait_milli E n w)
         = Some (if cond_notified E then 0 else ETIMEDOUT))
  /\ (1000 <= n <= 4293 ->
      (tv_nsec (milli_deadline (clock_now E) n) < 0
       \/ 1000000000 <= tv_nsec (milli_deadline (clock_now E) n))
      /\ returned (timed_wait_milli E n w) = Some EINVAL)
  /\ (4295 <= n <= 5293 ->
      tv_nsec (milli_deadline (clock_now E) n)
      = tp_usec (clock_now E) + n * 1000000 - 4294967296
      /\ 0 <= tv_nsec (milli_deadline (clock_now E) n) < 1000000000
      /\ returned (timed_wait_milli E n w)
         = Some (if cond_notified E then 0 else ETIMEDOUT)).
Proof.
  intros Hclock Husec Hn.
  destruct (timed_wait_milli_run E n w Hn Hclock) as [-> Hdeadline].
  split; [exact Hdeadline |].
  assert (Hwrap : 2148 <= n <= 5293 ->
                  wrap_int (n * 1000000) = n * 1000000 - 4294967296).
  { intros Hrange. unfold wrap_int.
    replace (n * 1000000 + 2147483648)
      with (n * 1000000 - 2147483648 + 1 * 4294967296) by lia.
    rewrite Z.mod_add by lia. rewrite Z.mod_small by lia. lia. }
  unfold cond_timedwait_status, milli_deadline. simpl.
  split; [| split].
  - intros Hsmall. rewrite wrap_int_exact by lia.
    split; [reflexivity |]. split; [lia |].
    destruct (Z.ltb_spec (tp_usec (clock_now E) + n * 1000000) 0); [lia |].
    destruct (Z.leb_spec 1000000000 (tp_usec (clock_now E) + n * 1000000));
      [lia | reflexivity].
  - intros Hrange. destruct (Z.lt_ge_cases n 2148) as [Hlow | Hhigh].
    + rewrite wrap_int_exact by lia. split; [lia |].
      destruct (Z.ltb_spec (tp_usec (clock_now E) + n * 1000000) 0); [lia |].
      destruct (Z.leb_spec 1000000000 (tp_usec (clock_now E) + n * 1000000));
        [reflexivity | lia].
    + rewrite Hwrap by lia. split; [lia |].
      destruct (Z.ltb_spec (tp_usec (clock_now E) + (n * 1000000 - 4294967296)) 0);
        [reflexivity | lia].
  - intros Hrange. rewrite Hwrap by lia.
    split; [lia |]. split; [lia |].
    destruct (Z.ltb_spec (tp_usec (clock_now E) + (n * 1000000 - 4294967296)) 0);
      [lia |].
    destruct (Z.leb_spec 1000000000
                (tp_usec (clock_now E) + (n * 1000000 - 4294967296)));
      [lia | reflexivity].
Qed.

Lemma timed_wait_milli_one_second_or_more_witness :
  returned (timed_wait_milli (quiet_env 0 noon) 1000 initial_world) = Some EINVAL
  /\ returned (timed_wait_milli (quiet_env 0 noon) 4295 initial_world)
     = Some ETIMEDOUT
  /\ deadlines
       (trace (final (timed_wait_milli (quiet_env 0 noon) 4295 initial_world)))
     = [{| tv_sec := 1000; tv_nsec := 282704 |}].
Proof.
  destruct (timed_wait_milli_one_second_or_more (quiet_env 0 noon) 1000
              initial_world) as (_ & _ & Hsecond & _);
    [reflexivity | simpl; lia | lia |].
  destruct (timed_wait_milli_one_second_or_more (quiet_env 0 noon) 4295
              initial_world) as (Hdeadline & _ & _ & Hwrapped);
    [reflexivity | simpl; lia | lia |].
  split; [apply Hsecond; lia |].
  split; [apply Hwrapped; lia |].
  exact Hdeadline.
Defined.

(** ** The stop flag, further *)

Lemma run_call_same_stop (ERROR_CODE_MALLOC : Z) (E : env) (c : call)
    (w : world) :
  leaves_flag c ->
  thread_stop (final (run_call ERROR_CODE_MALLOC E c w)) = thread_stop w.
Proof.
  pose proof (fun A (m : M A) (H : steady same_stop m) =>
                proj1 (H w)) as Hsteady.
  unfold same_stop in Hsteady.
  destruct c; simpl run_call; rewrite (final_bind_ret _ _ w);
    simpl leaves_flag; intros Hleaves; try contradiction.
  - apply Hsteady.
    apply steady_join_threads; [exact same_stop_trans | exact same_stop_frame].
  - apply Hsteady.
    apply steady_timed_wait; [exact same_stop_trans | exact same_stop_frame].
  - apply Hsteady.
    apply steady_timed_wait_milli; [exact same_stop_trans | exact same_stop_frame].
  - apply Hsteady.
    apply steady_find_my_index; [exact same_stop_trans | exact same_stop_frame].
  - apply Hsteady.
    apply steady_should_stop; [exact same_stop_trans | exact same_stop_frame].
  - apply Hsteady.
    apply steady_get_pool_size; [exact same_stop_trans | exact same_stop_frame].
  - apply create_status_array_same_stop.
  - apply init_status_array_same_stop.
  - apply Hsteady.
    apply steady_get_status_array; [exact same_stop_trans | exact same_stop_frame].
  - apply Hsteady.
    apply steady_set_status_element; [exact same_stop_trans | exact same_stop_frame].
Qed.

Lemma run_calls_same_stop (ERROR_CODE_MALLOC : Z) (cs : list (env * call)) :
  forall w w',
    Forall (fun ec => leaves_flag (snd ec)) cs ->
    run_calls ERROR_CODE_MALLOC cs w = Done tt w' ->
    thread_stop w' = thread_stop w.
Proof.
  induction cs as [| [E c] cs IH]; intros w w' Hcs Hrun.
  - injection Hrun as <-. reflexivity.
  - inversion Hcs as [| ? ? Hc Hrest]; subst.
    simpl in Hrun. unfold bind in Hrun.
    pose proof (run_call_same_stop ERROR_CODE_MALLOC E c w Hc) as Hnext.
    destruct (run_call ERROR_CODE_MALLOC E c w) as [v w1 | |];
      [| discriminate | discriminate].
    rewrite (IH w1 w' Hrest Hrun). exact Hnext.
Qed.

(** X5: the stop flag holds the last value written to it: after
    [set_stop(v)], for any v (0 included), and any calls of the API other
    than [set_stop], [stop_threads] and [create_threads], [should_stop]
    returns v. *)
Theorem should_stop_reads_last_write (ERROR_CODE_MALLOC : Z) (E0 E1 : env)
    (v : Z) (cs : list (env * call)) (w w' : world) :
  Forall (fun ec => leaves_flag (snd ec)) cs ->
  run_calls ERROR_CODE_MALLOC ((E0, SetStop v) :: cs) w = Done tt w' ->
  returned (should_stop E1 w') = Some v.
Proof.
  intros Hcs Hrun.
  simpl in Hrun. unfold bind at 1 in Hrun.
  rewrite (final_bind_ret_done (set_stop E0 v) (fun _ => VUnit) w) in Hrun.
  destruct (set_stop_run E0 v w) as (w1 & Hset & Hflag).
  rewrite Hset in Hrun.
  pose proof (run_calls_same_stop ERROR_CODE_MALLOC cs w1 w' Hcs Hrun) as Hsame.
  destruct (should_stop_run E1 w') as (w2 & -> & _).
  simpl. congruence.
Qed.

Lemma should_stop_reads_last_write_witness :
  returned
    (should_stop (quiet_env 0 noon)
       (final (run_calls 12
                 [(quiet_env 0 noon, SetStop 0);
                  (quiet_env 0 noon, InitStatusArray);
                  (quiet_env 0 noon, SetStatusElement 0 4);
                  (quiet_env 0 noon, TimedWait 1)]
                 (final (stop_threads (quiet_env 0 noon) initial_world)))))
  = Some 0.
Proof.
  apply (should_stop_reads_last_write 12 (quiet_env 0 noon) (quiet_env 0 noon) 0
           [(quiet_env 0 noon, InitStatusArray);
            (quiet_env 0 noon, SetStatusElement 0 4);
            (quiet_env 0 noon, TimedWait 1)]
           (final (stop_threads (quiet_env 0 noon) initial_world))).
  - repeat (constructor; [exact I |]). constructor.
  - reflexivity.
Defined.

(** ** Joining, further *)

Lemma trace_only_refl (w : world) : trace_only w w.
Proof. exists []. symmetry. apply logged_nil. Qed.

Lemma trace_only_trans (w1 w2 w3 : world) :
  trace_only w1 w2 -> trace_only w2 w3 -> trace_only w1 w3.
Proof. intros (s & ->) (t & ->). exists (s ++ t). apply logged_logged. Qed.

Lemma only_reports_trace_only (w w' : world) :
  only_reports w w' -> trace_only w w'.
Proof. intros (evs & _ & ->). exists evs. reflexivity. Qed.

Lemma trace_only_step (e : event) (w : world) :
  trace_only w (set_trace (trace w ++ [e]) w).
Proof. exists [e]. reflexivity. Qed.

Lemma join_one_trace_only (E : env) (w : world) (b : positive)
    (table : list Z) (k : nat) :
  thread_pool w = Some b ->
  heap w !! b = Some table ->
  (k < length table)%nat ->
  exists w', join_one E (Z.of_nat k) w = Done tt w' /\ trace_only w w'.
Proof.
  intros Hp Htable Hk.
  destruct (lookup_lt_is_Some_2 table k Hk) as [h Hh].
  unfold join_one, pthread_join, load. run.
  rewrite Hp. simpl. rewrite Htable.
  destruct (Z.leb_spec 0 (Z.of_nat k)); [| lia].
  rewrite Nat2Z.id, Hh. simpl.
  destruct (join_status E h =? 0); simpl; eexists; (split; [reflexivity |]).
  - apply trace_only_step.
  - eapply trace_only_trans; [apply trace_only_step |].
    unfold modify. apply trace_only_step.
Qed.

Lemma join_threads_body_trace_only (E : env) (t_status : option (list Z))
    (w : world) (b : positive) (table : list Z) (k : nat) :
  thread_pool w = Some b ->
  heap w !! b = Some table ->
  (k < length table)%nat ->
  covers t_status (S k) ->
  exists w',
    join_threads_body E t_status (will_check t_status) (Z.of_nat k) w = Done tt w'
    /\ trace_only w w'.
Proof.
  intros Hp Htable Hk Hcover.
  unfold join_threads_body, will_check.
  destruct t_status as [a |]; simpl in Hcover.
  - destruct (lookup_lt_is_Some_2 a k ltac:(lia)) as [v Hv].
    unfold read_argument.
    destruct (Z.leb_spec 0 (Z.of_nat k)); [| lia].
    rewrite Nat2Z.id, Hv. unfold bind at 1, ret at 1.
    destruct (v =? 0); [| exact (join_one_trace_only E w b table k Hp Htable Hk)].
    eexists. split; [reflexivity |]. apply trace_only_step.
  - unfold bind at 1, printf, emit, modify.
    set (w0 := set_trace _ w).
    destruct (join_one_trace_only E w0 b table k Hp Htable Hk)
      as (w' & Hrun & Hrep).
    exists w'. split; [exact Hrun |].
    eapply trace_only_trans; [apply trace_only_step | exact Hrep].
Qed.

Lemma join_threads_loop_trace_only (E : env) (t_status : option (list Z))
    (b : positive) (table : list Z) (count : nat) :
  forall (k : nat) (w : world),
    thread_pool w = Some b ->
    heap w !! b = Some table ->
    (k + count <= length table)%nat ->
    covers t_status (k + count) ->
    exists w',
      for_range (join_threads_body E t_status (will_check t_status))
        (Z.of_nat k) count w = Done tt w'
      /\ trace_only w w'.
Proof.
  induction count as [| count IH]; intros k w Hp Htable Hk Hcover.
  - exists w. split; [reflexivity | apply trace_only_refl].
  - destruct (join_threads_body_trace_only E t_status w b table k Hp Htable)
      as (w1 & Hrun & Hrep1);
      [lia | destruct t_status; simpl in *; [lia | exact I] |].
    destruct (IH (S k) w1) as (w2 & Hloop & Hrep2).
    + destruct Hrep1 as (evs & ->). exact Hp.
    + destruct Hrep1 as (evs & ->). exact Htable.
    + lia.
    + destruct t_status; simpl in *; [lia | exact I].
    + exists w2.
      change (for_range ?body (Z.of_nat k) (S count) w)
        with (bind (body (Z.of_nat k))
                (fun _ => for_range body (Z.of_nat k + 1) count) w).
      unfold bind at 1. rewrite Hrun.
      replace (Z.of_nat k + 1) with (Z.of_nat (S k)) by lia.
      split; [exact Hloop | eapply trace_only_trans; eassumption].
Qed.

(** X6: [join_threads] tears the pool down whichever workers it joined:
    when it returns, [thread_pool] is NULL and the handle table is
    released, while [pool_size], the stop flag and the status array are
    what they were, so that [get_pool_size] still returns the size of
    the pool that is gone. *)
Theorem join_threads_releases_table (E : env) (t_status : option (list Z))
    (w : world) (b : positive) (table : list Z) :
  thread_pool w = Some b ->
  heap w !! b = Some table ->
  Z.of_nat (length table) = pool_size w ->
  covers t_status (length table) ->
  exists w',
    join_threads E t_status w = Done tt w'
    /\ thread_pool w' = None
    /\ heap w' = delete b (heap w)
    /\ pool_size w' = pool_size w
    /\ thread_stop w' = thread_stop w
    /\ status_array w' = status_array w
    /\ sizeof_status_array w' = sizeof_status_array w
    /\ forall E', returned (get_pool_size E' w') = Some (pool_size w).
Proof.
  intros Hp Htable Hlen Hcover.
  set (w0 := match t_status with
             | None =>
                 set_trace
                   (trace w ++
                    [EvPrintf "join_threads: "
                       "%s Joining on ALL threads reguardless of state \n" []]) w
             | Some _ => w
             end).
  assert (Hw0 : trace_only w w0)
    by (subst w0; destruct t_status;
        [apply trace_only_refl | apply trace_only_step]).
  destruct Hw0 as (evs0 & Hw0).
  destruct (join_threads_loop_trace_only E t_status b table (length table)
              0%nat w0) as (w1 & Hloop & (evs1 & Hw1)).
  { rewrite Hw0. exact Hp. }
  { rewrite Hw0. exact Htable. }
  { lia. }
  { exact Hcover. }
  change (Z.of_nat 0) with 0 in Hloop.
  set (w2 := set_thread_pool None
               (set_heap (delete b (heap w))
                  (logged [EvPrintf "join_threads: "
                             "%s Threads Stopped Successfully\n" []] w1))).
  destruct (quiet_destroy_all_mutexes E w2) as ([] & w3 & Hdestroy & Hrep3).
  destruct (only_reports_globals _ _ Hrep3)
    as (Hp3 & Hsize3 & Hsa3 & Hsz3 & Hstop3 & Hheap3 & _).
  exists w3.
  assert (Hrun : join_threads E t_status w = Done tt w3).
  { unfold join_threads.
    assert (Hfirst : (match t_status with
                      | None =>
                          printf "join_threads: "
                            "%s Joining on ALL threads reguardless of state \n" []
                      | Some _ => ret tt
                      end) w = Done tt w0)
      by (subst w0; destruct t_status; reflexivity).
    unfold bind at 1. rewrite Hfirst.
    unfold bind at 1, get at 1.
    replace (pool_size w0) with (pool_size w) by (rewrite Hw0; reflexivity).
    rewrite <- Hlen, Nat2Z.id.
    replace (match t_status with None => false | Some _ => true end)
      with (will_check t_status) by reflexivity.
    unfold bind at 1. rewrite Hloop.
    unfold bind at 1, printf at 1, emit, modify.
    unfold bind at 1, FREE, free.
    unfold bind at 1, get at 1.
    change (set_trace _ w1)
      with (logged [EvPrintf "join_threads: "
                      "%s Threads Stopped Successfully\n" []] w1).
    assert (Hp1 : thread_pool
                    (logged [EvPrintf "join_threads: "
                               "%s Threads Stopped Successfully\n" []] w1)
                  = Some b) by (rewrite Hw1, Hw0; exact Hp).
    rewrite Hp1. unfold bind at 1.
    assert (Hheap1 : heap
                       (logged [EvPrintf "join_threads: "
                                  "%s Threads Stopped Successfully\n" []] w1)
                     = heap w) by (rewrite Hw1, Hw0; reflexivity).
    rewrite Hheap1, Htable. unfold modify.
    change (set_thread_pool None (set_heap (delete b (heap w)) _)) with w2.
    exact Hdestroy. }
  split; [exact Hrun |].
  split; [rewrite Hp3; reflexivity |].
  split; [rewrite Hheap3; reflexivity |].
  assert (Hsize : pool_size w3 = pool_size w)
    by (rewrite Hsize3; subst w2; simpl; rewrite Hw1, Hw0; reflexivity).
  split; [exact Hsize |].
  split; [rewrite Hstop3; subst w2; simpl; rewrite Hw1, Hw0; reflexivity |].
  split; [rewrite Hsa3; subst w2; simpl; rewrite Hw1, Hw0; reflexivity |].
  split; [rewrite Hsz3; subst w2; simpl; rewrite Hw1, Hw0; reflexivity |].
  intros E'. destruct (get_pool_size_run E' w3) as (w4 & -> & _).
  simpl. rewrite Hsize. reflexivity.
Qed.

Lemma join_threads_releases_table_witness :
  exists w',
    join_threads (quiet_env 7 noon) (Some [0; 0; 1])
      (final (create_threads 12 (quiet_env 7 noon) 3 initial_world))
    = Done tt w'
    /\ thread_pool w' = None
    /\ forall E', returned (get_pool_size E' w') = Some 3.
Proof.
  destruct (join_threads_releases_table (quiet_env 7 noon) (Some [0; 0; 1])
              (final (create_threads 12 (quiet_env 7 noon) 3 initial_world))
              1%positive [1; 2; 3])
    as (w' & Hrun & Hp & _ & _ & _ & _ & _ & Hsize);
    [reflexivity | reflexivity | reflexivity | simpl; lia |].
  exists w'. split; [exact Hrun | split; [exact Hp | exact Hsize]].
Defined.

Lemma for_range_app (body : Z -> M unit) (m r : nat) :
  forall (i : Z) (w : world),
    for_range body i (m + r) w
    = (for_range body i m ;; for_range body (i + Z.of_nat m) r) w.
Proof.
  induction m as [| m IH]; intros i w.
  - simpl. unfold bind, ret. rewrite Z.add_0_r. reflexivity.
  - change (for_range body i (S m + r) w)
      with (bind (body i) (fun _ => for_range body (i + 1) (m + r)) w).
    change (for_range body i (S m))
      with (bind (body i) (fun _ => for_range body (i + 1) m)).
    unfold bind. destruct (body i w) as [[] w1 | |]; [| reflexivity ..].
    rewrite IH. unfold bind.
    replace (i + 1 + Z.of_nat m) with (i + Z.of_nat (S m)) by lia.
    reflexivity.
Qed.

(** X7: [join_threads] does not look at [thread_pool] before it uses
    it: with no handle table ([thread_pool] NULL) and a positive
    [pool_size], as before the first [create_threads] (where
    [pool_size] is 1) or after an earlier [join_threads], a call that
    is to join worker 0 reads through the NULL pointer. *)
Theorem join_threads_without_table (E : env) (t_status : option (list Z))
    (w : world) :
  thread_pool w = None ->
  0 < pool_size w ->
  alive t_status 0 = true ->
  exists w', join_threads E t_status w = Undefined NullDereference w'.
Proof.
  intros Hp Hsize Halive.
  destruct (Z.to_nat (pool_size w)) as [| count] eqn:Hcount; [lia |].
  unfold join_threads.
  destruct t_status as [a |]; unfold alive in Halive.
  - destruct (a !! 0%nat) as [v |] eqn:Hv; [| discriminate].
    unfold bind at 1, ret at 1. unfold bind at 1, get at 1.
    rewrite Hcount. unfold bind at 1.
    change (for_range ?body 0 (S count) w)
      with (bind (body 0) (fun _ => for_range body (0 + 1) count) w).
    unfold bind at 1, join_threads_body, read_argument. simpl.
    change (Z.to_nat 0) with 0%nat. rewrite Hv. unfold bind at 1, ret at 1.
    destruct (v =? 0); [discriminate |].
    unfold join_one, load. run. rewrite Hp. eauto.
  - unfold bind at 1, printf at 1, emit, modify.
    unfold bind at 1, get at 1. simpl pool_size. rewrite Hcount.
    unfold bind at 1.
    match goal with
    | |- context [for_range ?body 0 (S count) ?W] =>
        change (for_range body 0 (S count) W)
          with (bind (body 0) (fun _ => for_range body (0 + 1) count) W)
    end.
    unfold bind at 1, join_threads_body, join_one, load. run.
    rewrite Hp. eauto.
Qed.

Lemma join_threads_without_table_witness :
  exists w',
    join_threads (quiet_env 0 noon) None initial_world
    = Undefined NullDereference w'.
Proof.
  apply (join_threads_without_table (quiet_env 0 noon) None initial_world);
    [reflexivity | reflexivity | reflexivity].
Defined.

(** X8: [join_threads] trusts the caller for the length of the liveness
    array: with an array shorter than the pool it handles the workers
    the array covers and then reads the entry after the array's end. *)
Theorem join_threads_short_liveness (E : env) (a : list Z) (w : world)
    (table : list Z) :
  handle_table w = Some table ->
  Z.of_nat (length table) = pool_size w ->
  (length a < length table)%nat ->
  exists w',
    join_threads E (Some a) w
    = Undefined (ArgumentOutOfBounds (Z.of_nat (length a))) w'
    /\ joined_handles (trace w')
       = joined_handles (trace w)
         ++ omap (join_of table (Some a)) (seq 0 (length a)).
Proof.
  intros Htable Hlen Hshort. unfold handle_table in Htable.
  destruct (thread_pool w) as [b |] eqn:Hp; [| discriminate].
  destruct (join_threads_loop E (Some a) b table (length a) 0%nat w)
    as (w1 & Hloop & Hp1 & Hheap1 & _ & Hjoin1 & _);
    [exact Hp | exact Htable | lia | simpl; lia |].
  change (Z.of_nat 0) with 0 in Hloop.
  exists w1. split; [| exact Hjoin1].
  unfold join_threads.
  unfold bind at 1, ret at 1. unfold bind at 1, get at 1.
  rewrite <- Hlen, Nat2Z.id.
  replace (length table) with (length a + S (length table - length a - 1))%nat
    by lia.
  unfold bind at 1.
  change true with (will_check (Some a)).
  rewrite for_range_app. unfold bind at 1. rewrite Hloop.
  change (for_range ?body ?i (S ?c) w1)
    with (bind (body i) (fun _ => for_range body (i + 1) c) w1).
  unfold bind at 1, join_threads_body, will_check, read_argument.
  change (0 + Z.of_nat (length a)) with (Z.of_nat (length a)).
  destruct (Z.leb_spec 0 (Z.of_nat (length a))); [| lia].
  rewrite Nat2Z.id, (lookup_ge_None_2 a (length a)) by lia.
  reflexivity.
Qed.

Lemma join_threads_short_liveness_witness :
  exists w',
    join_threads (quiet_env 7 noon) (Some [1; 1])
      (final (create_threads 12 (quiet_env 7 noon) 3 initial_world))
    = Undefined (ArgumentOutOfBounds 2) w'
    /\ joined_handles (trace w') = [1; 2].
Proof.
  destruct (join_threads_short_liveness (quiet_env 7 noon) [1; 1]
              (final (create_threads 12 (quiet_env 7 noon) 3 initial_world))
              [1; 2; 3])
    as (w' & Hrun & Hjoin); [reflexivity | reflexivity | simpl; lia |].
  exists w'. split; [exact Hrun | exact Hjoin].
Defined.

(** ** Creating the pool, further *)

Lemma reports_join_nothing (evs : list event) :
  Forall is_report evs -> joined_handles evs = [].
Proof.
  induction 1 as [| e evs He _ IH]; [reflexivity |].
  destruct e; try contradiction. exact IH.
Qed.

Lemma only_reports_joined (w w' : world) :
  only_reports w w' ->
  joined_handles (trace w') = joined_handles (trace w).
Proof.
  intros (evs & Hevs & ->). simpl.
  rewrite joined_handles_app, (reports_join_nothing evs Hevs), app_nil_r.
  reflexivity.
Qed.

(** The start-up loop whatever [pthread_create] answers: it returns, it
    writes nothing but slots k .. k+count-1 of the table, and the
    threads it starts are the contents of the slots whose
    [pthread_create] returned 0. *)
Lemma create_threads_loop_any (E : env) (b : positive) (count : nat) :
  forall (k : nat) (w : world) (cells : list Z),
    thread_pool w = Some b ->
    heap w !! b = Some cells ->
    (k + count <= length cells)%nat ->
    exists (w' : world) (cells' : list Z),
      for_range (create_threads_body E) (Z.of_nat k) count w = Done tt w'
      /\ heap w' = <[b := cells']> (heap w)
      /\ length cells' = length cells
      /\ thread_pool w' = Some b
      /\ pool_size w' = pool_size w
      /\ status_array w' = status_array w
      /\ sizeof_status_array w' = sizeof_status_array w
      /\ thread_stop w' = thread_stop w
      /\ next_block w' = next_block w
      /\ (forall i : nat,
             (i < k)%nat \/ (k + count <= i)%nat ->
             cells' !! i = cells !! i)
      /\ started_threads (trace w')
         = started_threads (trace w)
           ++ omap (fun i : nat =>
                      if create_status E (Z.of_nat i) =? 0
                      then cells' !! i else None)
                (seq k count)
      /\ joined_handles (trace w') = joined_handles (trace w).
Proof.
  induction count as [| count IH]; intros k w cells Hp Hcells Hk.
  - exists w, cells. simpl. rewrite app_nil_r, insert_id by exact Hcells.
    repeat split; auto.
  - assert (Hlt : (k < length cells)%nat) by lia.
    change (for_range ?body (Z.of_nat k) (S count) w)
      with (bind (body (Z.of_nat k))
              (fun _ => for_range body (Z.of_nat k + 1) count) w).
    replace (Z.of_nat k + 1) with (Z.of_nat (S k)) by lia.
    change (seq k (S count)) with (k :: seq (S k) count).
    destruct (Z.eqb_spec (create_status E (Z.of_nat k)) 0) as [Hok | Hbad].
    + set (w1 := set_trace (trace w ++ [EvThreadStart (next_tid w)])
                   (set_heap (<[b := <[k := next_tid w]> cells]> (heap w))
                      (set_next_tid (next_tid w + 1) w))).
      assert (Hbody : create_threads_body E (Z.of_nat k) w = Done tt w1).
      { unfold create_threads_body, pthread_create, store. run.
        rewrite Hp, Hok. simpl. rewrite Hcells.
        destruct (Z.leb_spec 0 (Z.of_nat k)); [| lia].
        destruct (Z.ltb_spec (Z.of_nat k) (Z.of_nat (length cells))); [| lia].
        simpl. rewrite Nat2Z.id. reflexivity. }
      destruct (IH (S k) w1 (<[k := next_tid w]> cells))
        as (w2 & cells2 & Hloop & Hheap2 & Hlen2 & Hp2 & Hsize2 & Hsa2 & Hsz2
            & Hstop2 & Hnb2 & Hsame2 & Hstart2 & Hjoin2);
        [exact Hp | apply lookup_insert_eq | rewrite length_insert; lia |].
      exists w2, cells2. unfold bind at 1. rewrite Hbody, Hloop.
      assert (Hk2 : cells2 !! k = Some (next_tid w)).
      { rewrite Hsame2 by (left; lia).
        apply list_lookup_insert_eq. exact Hlt. }
      split; [reflexivity |].
      split; [rewrite Hheap2; apply insert_insert_eq |].
      split; [rewrite Hlen2; apply length_insert |].
      repeat (split; [assumption |]).
      split.
      * intros i Hi.
        rewrite Hsame2 by lia.
        apply list_lookup_insert_ne. lia.
      * split.
        -- rewrite Hstart2, omap_cons_option_list.
           destruct (Z.eqb_spec (create_status E (Z.of_nat k)) 0);
             [| contradiction].
           rewrite Hk2. subst w1. simpl.
           rewrite started_threads_app, <- app_assoc. reflexivity.
        -- rewrite Hjoin2. subst w1. simpl.
           rewrite joined_handles_app. apply app_nil_r.
    + set (cells1 := match create_leftover E (Z.of_nat k) with
                     | Some v => <[k := v]> cells
                     | None => cells
                     end).
      set (w1 := logged [EvBadStatus (create_status E (Z.of_nat k))
                           "pthread_create" "thread bad status"]
                   (set_heap (<[b := cells1]> (heap w)) w)).
      assert (Hlen1 : length cells1 = length cells).
      { subst cells1. destruct (create_leftover E (Z.of_nat k));
          [apply length_insert | reflexivity]. }
      assert (Hbody : create_threads_body E (Z.of_nat k) w = Done tt w1).
      { subst w1 cells1. unfold create_threads_body, pthread_create, store. run.
        destruct (Z.eqb_spec (create_status E (Z.of_nat k)) 0); [contradiction |].
        rewrite Hp. simpl.
        destruct (create_leftover E (Z.of_nat k)) as [v |]; simpl.
        - rewrite Hcells.
          destruct (Z.leb_spec 0 (Z.of_nat k)); [| lia].
          destruct (Z.ltb_spec (Z.of_nat k) (Z.of_nat (length cells))); [| lia].
          simpl. rewrite Nat2Z.id.
          destruct (Z.eqb_spec (create_status E (Z.of_nat k)) 0);
            [contradiction |].
          reflexivity.
        - destruct (Z.eqb_spec (create_status E (Z.of_nat k)) 0);
            [contradiction |].
          rewrite insert_id by exact Hcells.
          destruct w; reflexivity. }
      destruct (IH (S k) w1 cells1)
        as (w2 & cells2 & Hloop & Hheap2 & Hlen2 & Hp2 & Hsize2 & Hsa2 & Hsz2
            & Hstop2 & Hnb2 & Hsame2 & Hstart2 & Hjoin2);
        [exact Hp | apply lookup_insert_eq | rewrite Hlen1; lia |].
      exists w2, cells2. unfold bind at 1. rewrite Hbody, Hloop.
      split; [reflexivity |].
      split; [rewrite Hheap2; apply insert_insert_eq |].
      split; [rewrite Hlen2; exact Hlen1 |].
      repeat (split; [assumption |]).
      split.
      * intros i Hi. rewrite Hsame2 by lia.
        subst cells1. destruct (create_leftover E (Z.of_nat k));
          [apply list_lookup_insert_ne; lia | reflexivity].
      * split.
        -- rewrite Hstart2, omap_cons_option_list.
           destruct (Z.eqb_spec (create_status E (Z.of_nat k)) 0);
             [contradiction |].
           subst w1. simpl. rewrite started_threads_app, app_nil_r.
           reflexivity.
        -- rewrite Hjoin2. subst w1. simpl.
           rewrite joined_handles_app. apply app_nil_r.
Qed.

Lemma create_threads_run (ERROR_CODE_MALLOC : Z) (E : env) (n : Z) (w : world) :
  refused E n = false ->
  exists (w' : world) (table : list Z),
    create_threads ERROR_CODE_MALLOC E n w = Done (Some (next_block w)) w'
    /\ thread_pool w' = Some (next_block w)
    /\ heap w' = <[next_block w := table]> (heap w)
    /\ Z.of_nat (length table) = n
    /\ pool_size w' = n
    /\ thread_stop w' = 0
    /\ status_array w' = status_array w
    /\ sizeof_status_array w' = sizeof_status_array w
    /\ next_block w' = Pos.succ (next_block w)
    /\ started_threads (trace w')
       = started_threads (trace w)
         ++ omap (fun i : nat =>
                    if create_status E (Z.of_nat i) =? 0
                    then table !! i else None)
              (seq 0 (Z.to_nat n))
    /\ joined_handles (trace w') = joined_handles (trace w).
Proof.
  intros Hrefused.
  assert (Hn : 0 <= n).
  { unfold refused in Hrefused. apply orb_false_elim in Hrefused as [_ Hneg].
    apply Z.ltb_ge. exact Hneg. }
  set (b := next_block w).
  set (cells := garbage E <$> seq 0 (Z.to_nat n)).
  set (w0 := set_thread_pool (Some b)
               (set_next_block (Pos.succ b)
                  (set_heap (<[b := cells]> (heap (set_pool_size n w)))
                     (set_pool_size n w)))).
  destruct (quiet_create_local_mutexes E w0) as ([] & w1 & Hmutex & Hrep1).
  pose proof (only_reports_started _ _ Hrep1) as Hstarted1.
  pose proof (only_reports_joined _ _ Hrep1) as Hjoined1.
  destruct Hrep1 as (evs & _ & Hw1).
  assert (Hlen : length cells = Z.to_nat n)
    by (subst cells; rewrite length_fmap, length_seq; reflexivity).
  destruct (create_threads_loop_any E b (Z.to_nat n) 0%nat
              (set_thread_stop 0 w1) cells)
    as (w2 & table & Hloop & Hheap2 & Hlen2 & Hp2 & Hsize2 & Hsa2 & Hsz2
        & Hstop2 & Hnb2 & Hsame2 & Hstart2 & Hjoin2).
  { subst w1. reflexivity. }
  { subst w1. simpl. apply lookup_insert_eq. }
  { lia. }
  change (Z.of_nat 0) with 0 in Hloop.
  exists w2, table.
  split.
  { unfold create_threads, malloc.
    unfold bind at 1, modify at 1. unfold bind at 1, get at 1.
    unfold bind at 1. simpl pool_size at 1. rewrite Hrefused.
    unfold bind at 1, modify at 1.
    match goal with |- _ ?W = _ => change W with w0 end.
    unfold bind at 1. rewrite Hmutex.
    unfold bind at 1, modify at 1. unfold bind at 1, get at 1.
    replace (pool_size (set_thread_stop 0 w1)) with n by (subst w1; reflexivity).
    unfold bind at 1. rewrite Hloop.
    unfold get. rewrite Hp2. reflexivity. }
  split; [exact Hp2 |].
  split.
  { rewrite Hheap2. subst w1. simpl. apply insert_insert_eq. }
  split; [rewrite Hlen2, Hlen; lia |].
  split; [rewrite Hsize2; subst w1; reflexivity |].
  split; [rewrite Hstop2; reflexivity |].
  split; [rewrite Hsa2; subst w1; reflexivity |].
  split; [rewrite Hsz2; subst w1; reflexivity |].
  split; [rewrite Hnb2; subst w1; reflexivity |].
  split.
  { rewrite Hstart2. simpl. rewrite Hstarted1. reflexivity. }
  rewrite Hjoin2. simpl. rewrite Hjoined1. reflexivity.
Qed.

Lemma create_threads_all_started (ERROR_CODE_MALLOC : Z) (E : env) (n : Z)
    (w : world) :
  0 < n ->
  malloc_fails E = false ->
  (forall i, 0 <= i < n -> create_status E i = 0) ->
  exists w',
    create_threads ERROR_CODE_MALLOC E n w = Done (Some (next_block w)) w'
    /\ handle_table w' = Some (seqZ (next_tid w) n)
    /\ pool_size w' = n
    /\ started_threads (trace w')
       = started_threads (trace w) ++ seqZ (next_tid w) n.
Proof.
  intros Hn Hmalloc Hcreate.
  set (b := next_block w).
  set (cells := garbage E <$> seq 0 (Z.to_nat n)).
  set (w0 := set_thread_pool (Some b)
               (set_next_block (Pos.succ b)
                  (set_heap (<[b := cells]> (heap (set_pool_size n w)))
                     (set_pool_size n w)))).
  destruct (quiet_create_local_mutexes E w0) as ([] & w1 & Hmutex & Hrep1).
  pose proof (only_reports_started _ _ Hrep1) as Hstarted1.
  destruct Hrep1 as (evs & _ & Hw1).
  assert (Hlen : length cells = Z.to_nat n)
    by (subst cells; rewrite length_fmap, length_seq; reflexivity).
  destruct (create_threads_loop E b (Z.to_nat n) 0%nat
              (set_thread_stop 0 w1) cells)
    as (w2 & Hloop & Hp2 & Hsize2 & _ & Hheap2 & Hstart2).
  { subst w1. reflexivity. }
  { subst w1. simpl. apply lookup_insert_eq. }
  { lia. }
  { intros i Hi. apply Hcreate. lia. }
  change (Z.of_nat 0) with 0 in Hloop.
  assert (Htid : next_tid (set_thread_stop 0 w1) = next_tid w)
    by (subst w1; reflexivity).
  rewrite Htid, Z2Nat.id in Hheap2, Hstart2 by lia.
  change (0 + Z.to_nat n)%nat with (Z.to_nat n) in Hheap2.
  rewrite take_0, <- Hlen, drop_all, app_nil_r in Hheap2. simpl in Hheap2.
  exists w2. split.
  { unfold create_threads, malloc, refused.
    unfold bind at 1, modify at 1. unfold bind at 1, get at 1.
    unfold bind at 1. simpl pool_size at 1. rewrite Hmalloc.
    destruct (Z.ltb_spec n 0); [lia |]. simpl orb. cbv iota.
    unfold bind at 1, modify at 1.
    match goal with |- _ ?W = _ => change W with w0 end.
    unfold bind at 1. rewrite Hmutex.
    unfold bind at 1, modify at 1. unfold bind at 1, get at 1.
    replace (pool_size (set_thread_stop 0 w1)) with n by (subst w1; reflexivity).
    unfold bind at 1. rewrite Hloop.
    unfold get. rewrite Hp2. reflexivity. }
  split; [unfold handle_table; rewrite Hp2; exact Hheap2 |].
  split; [rewrite Hsize2; subst w1; reflexivity |].
  rewrite Hstart2. simpl. rewrite Hstarted1. reflexivity.
Qed.

(** X10: after a [create_threads] in which every thread was started,
    each worker finds its own slot: [_find_my_index], asked for the
    handle in slot i of the table, returns i. *)
Theorem worker_finds_its_slot (ERROR_CODE_MALLOC : Z) (E E' : env) (n : Z)
    (w : world) (i : nat) :
  0 < n ->
  malloc_fails E = false ->
  (forall j, 0 <= j < n -> create_status E j = 0) ->
  Z.of_nat i < n ->
  exists (p : positive) (table : list Z) (thread : Z) (w' : world),
    create_threads ERROR_CODE_MALLOC E n w = Done (Some p) w'
    /\ handle_table w' = Some table
    /\ table !! i = Some thread
    /\ returned (_find_my_index E' thread w') = Some (Z.of_nat i).
Proof.
  intros Hn Hmalloc Hcreate Hi.
  destruct (create_threads_all_started ERROR_CODE_MALLOC E n w Hn Hmalloc Hcreate)
    as (w' & Hrun & Htable & Hsize & _).
  exists (next_block w), (seqZ (next_tid w) n), (next_tid w + Z.of_nat i), w'.
  split; [exact Hrun |]. split; [exact Htable |].
  split; [apply lookup_seqZ_lt; exact Hi |].
  destruct (find_my_index_run E' (next_tid w + Z.of_nat i) w'
              (seqZ (next_tid w) n) Htable) as (w1 & _ & ->).
  { rewrite length_seqZ, Hsize. lia. }
  rewrite (scan_result_found _ (seqZ (next_tid w) n) 0 i).
  - cbv zeta.
    destruct (Z.geb_spec (Z.of_nat (0 + i)) (pool_size w')); [lia | reflexivity].
  - apply lookup_seqZ_lt. exact Hi.
  - intros j Hj Hlookup. apply lookup_seqZ in Hlookup. lia.
Qed.

Lemma worker_finds_its_slot_witness :
  exists (p : positive) (table : list Z) (thread : Z) (w' : world),
    create_threads 12 (quiet_env 7 noon) 4 initial_world = Done (Some p) w'
    /\ handle_table w' = Some table
    /\ table !! 2%nat = Some thread
    /\ returned (_find_my_index (quiet_env 7 noon) thread w') = Some 2.
Proof.
  apply (worker_finds_its_slot 12 (quiet_env 7 noon) (quiet_env 7 noon) 4
           initial_world 2);
    [lia | reflexivity | intros j Hj; reflexivity | lia].
Defined.

(** ** Well-formed worlds *)

Lemma same_memory_refl (w : world) : same_memory w w.
Proof. repeat split. Qed.

Lemma same_memory_trans (w1 w2 w3 : world) :
  same_memory w1 w2 -> same_memory w2 w3 -> same_memory w1 w3.
Proof.
  unfold same_memory.
  intros (? & ? & ? & ? & ? & ?) (? & ? & ? & ? & ? & ?).
  repeat split; congruence.
Qed.

Lemma same_memory_well_formed (w w' : world) :
  same_memory w w' -> well_formed w -> well_formed w'.
Proof.
  intros (Hp & Hsize & Hsa & Hsz & Hheap & Hnb) (Htable & Hstatus & Hbelow & Hapart).
  unfold well_formed, table_ok, status_ok, heap_below, apart in *.
  rewrite Hp, Hsize, Hsa, Hsz, Hheap, Hnb. auto.
Qed.

Lemma keeps_memory_ret {A} (a : A) : keeps_memory (ret a).
Proof. intros w a' w' [= _ <-]. apply same_memory_refl. Qed.

Lemma keeps_memory_bind {A B} (m : M A) (k : A -> M B) :
  keeps_memory m -> (forall a, keeps_memory (k a)) -> keeps_memory (bind m k).
Proof.
  intros Hm Hk w c w' Hrun. unfold bind in Hrun.
  destruct (m w) as [a w1 | |] eqn:Hmw; [| discriminate | discriminate].
  eapply same_memory_trans; [apply (Hm w a w1 Hmw) | apply (Hk a w1 c w' Hrun)].
Qed.

Lemma keeps_memory_get {A} (f : world -> A) : keeps_memory (get f).
Proof. intros w a w' [= _ <-]. apply same_memory_refl. Qed.

Lemma keeps_memory_emit (e : event) : keeps_memory (emit e).
Proof. intros w a w' [= _ <-]. repeat split. Qed.

Lemma keeps_memory_write_stop (stop : Z) :
  keeps_memory (modify (set_thread_stop stop)).
Proof. intros w a w' [= _ <-]. repeat split. Qed.

Lemma keeps_memory_undefined {A} (f : fault) : keeps_memory (@undefined A f).
Proof. intros w a w' Hrun. discriminate. Qed.

Lemma keeps_memory_load (p : option positive) (i : Z) : keeps_memory (load p i).
Proof.
  intros w a w' Hrun. unfold load in Hrun.
  repeat case_match; simplify_eq. apply same_memory_refl.
Qed.

Lemma keeps_memory_read_argument (a : list Z) (i : Z) :
  keeps_memory (read_argument a i).
Proof.
  intros w v w' Hrun. unfold read_argument, ret, undefined in Hrun.
  repeat case_match; simplify_eq. apply same_memory_refl.
Qed.

Lemma keeps_memory_for_range (body : Z -> M unit) (count : nat) :
  (forall i, keeps_memory (body i)) ->
  forall i, keeps_memory (for_range body i count).
Proof.
  intros Hbody. induction count as [| count IH]; intros i; simpl.
  - apply keeps_memory_ret.
  - apply keeps_memory_bind; [apply Hbody | intros _; apply IH].
Qed.

Create HintDb memory.
#[local] Hint Resolve keeps_memory_ret keeps_memory_get keeps_memory_emit
  keeps_memory_write_stop keeps_memory_undefined keeps_memory_load
  keeps_memory_read_argument : memory.
#[local] Hint Extern 2 (keeps_memory (bind _ _)) =>
  apply keeps_memory_bind; [| intros ?] : memory.
#[local] Hint Extern 3 (keeps_memory (for_range _ _ _)) =>
  apply keeps_memory_for_range; intros ? : memory.
#[local] Hint Extern 4 (keeps_memory (if ?c then _ else _)) =>
  destruct c : memory.
#[local] Hint Extern 4 (keeps_memory (match ?x with _ => _ end)) =>
  destruct x : memory.
#[local] Hint Unfold printf LOG_ERROR CHECK_STATUS pthread_mutex
  pthread_join gettimeofday pthread_cond_timedwait pthread_cond_destroy
  _lock_stop _unlock_stop _lock_status_array _unlock_status_array
  _lock_thread_pool _unlock_thread_pool _lock_pool_size _unlock_pool_size
  _create_local_mutexes _destroy_all_mutexes timed_wait_cleanup
  join_one join_threads_body : memory.

Ltac memory_code := autounfold with memory; auto 40 with memory.

Lemma keeps_memory_stop_threads (E : env) : keeps_memory (stop_threads E).
Proof. unfold stop_threads. memory_code. Qed.

Lemma keeps_memory_set_stop (E : env) (stop : Z) : keeps_memory (set_stop E stop).
Proof. unfold set_stop. memory_code. Qed.

Lemma keeps_memory_should_stop (E : env) : keeps_memory (should_stop E).
Proof. unfold should_stop. memory_code. Qed.

Lemma keeps_memory_get_pool_size (E : env) : keeps_memory (get_pool_size E).
Proof. unfold get_pool_size. memory_code. Qed.

Lemma keeps_memory_get_status_array (E : env) :
  keeps_memory (get_status_array E).
Proof. unfold get_status_array. memory_code. Qed.

Lemma keeps_memory_timed_wait (E : env) (n : Z) : keeps_memory (timed_wait E n).
Proof. unfold timed_wait. memory_code. Qed.

Lemma keeps_memory_timed_wait_milli (E : env) (n : Z) :
  keeps_memory (timed_wait_milli E n).
Proof. unfold timed_wait_milli. memory_code. Qed.

Lemma keeps_memory_find_scan (thread : Z) (count : nat) :
  forall i, keeps_memory (find_scan thread i count).
Proof.
  induction count as [| count IH]; intros i; simpl; [apply keeps_memory_ret |].
  memory_code.
Qed.

Lemma keeps_memory_find_my_index (E : env) (thread : Z) :
  keeps_memory (_find_my_index E thread).
Proof.
  pose proof keeps_memory_find_scan. pose proof keeps_memory_get_pool_size.
  unfold _find_my_index. memory_code.
Qed.

Lemma keeps_memory_join_loop (E : env) (t_status : option (list Z))
    (check : bool) (count : nat) (i : Z) :
  keeps_memory (for_range (join_threads_body E t_status check) i count).
Proof. memory_code. Qed.

Lemma keeps_memory_destroy_all_mutexes (E : env) :
  keeps_memory (_destroy_all_mutexes E).
Proof. memory_code. Qed.

Lemma bind_done_inv {A B} (m : M A) (k : A -> M B) (w w' : world) (c : B) :
  bind m k w = Done c w' ->
  exists a w1, m w = Done a w1 /\ k a w1 = Done c w'.
Proof.
  unfold bind. destruct (m w) as [a w1 | |]; [| discriminate | discriminate].
  intros Hrun. exists a, w1. split; [reflexivity | exact Hrun].
Qed.

Lemma initial_world_well_formed : well_formed initial_world.
Proof.
  split; [exact I |]. split; [reflexivity |]. split.
  - intros b [cells Hcells]. simpl in Hcells.
    rewrite lookup_empty in Hcells. discriminate.
  - intros b Hb. discriminate.
Qed.

(** Writing to the cells of one live object, without changing their
    number. *)
Lemma well_formed_update (w w' : world) (b : positive) (cells cells' : list Z) :
  well_formed w ->
  heap w !! b = Some cells ->
  length cells' = length cells ->
  thread_pool w' = thread_pool w ->
  pool_size w' = pool_size w ->
  status_array w' = status_array w ->
  sizeof_status_array w' = sizeof_status_array w ->
  next_block w' = next_block w ->
  heap w' = <[b := cells']> (heap w) ->
  well_formed w'.
Proof.
  intros (Htable & Hstatus & Hbelow & Hapart) Hcells Hlen Hp Hsize Hsa Hsz Hnb Hheap.
  unfold well_formed, table_ok, status_ok, heap_below, apart in *.
  rewrite Hp, Hsize, Hsa, Hsz, Hnb, Hheap.
  split; [| split; [| split]].
  - destruct (thread_pool w) as [t |]; [| exact I].
    destruct Htable as (table & Ht & Htl).
    destruct (decide (b = t)) as [-> | Hne].
    + exists cells'. rewrite lookup_insert_eq. split; [reflexivity |].
      rewrite Hlen. congruence.
    + exists table. rewrite lookup_insert_ne by exact Hne. auto.
  - destruct (status_array w) as [s |]; [| exact Hstatus].
    destruct Hstatus as (old & Hs & Hsl).
    destruct (decide (b = s)) as [-> | Hne].
    + exists cells'. rewrite lookup_insert_eq. split; [reflexivity |].
      rewrite Hlen. congruence.
    + exists old. rewrite lookup_insert_ne by exact Hne. auto.
  - intros c Hc. apply Hbelow.
    destruct (decide (b = c)) as [-> | Hne]; [eauto |].
    rewrite lookup_insert_ne in Hc by exact Hne. exact Hc.
  - exact Hapart.
Qed.

Lemma join_threads_done (E : env) (t_status : option (list Z)) (w w' : world) :
  join_threads E t_status w = Done tt w' ->
  thread_pool w' = None
  /\ pool_size w' = pool_size w
  /\ status_array w' = status_array w
  /\ sizeof_status_array w' = sizeof_status_array w
  /\ next_block w' = next_block w
  /\ heap w'
     = match thread_pool w with
       | Some b => delete b (heap w)
       | None => heap w
       end.
Proof.
  unfold join_threads. intros Hrun.
  apply bind_done_inv in Hrun as ([] & w0 & Hfirst & Hrun).
  assert (H0 : same_memory w w0).
  { destruct t_status.
    - injection Hfirst as <-. apply same_memory_refl.
    - apply (keeps_memory_emit _ _ _ _ Hfirst). }
  apply bind_done_inv in Hrun as (n & w0' & Hget & Hrun).
  injection Hget as <- <-.
  apply bind_done_inv in Hrun as ([] & w1 & Hloop & Hrun).
  apply keeps_memory_join_loop in Hloop as H1.
  apply bind_done_inv in Hrun as ([] & w2 & Hprint & Hrun).
  apply keeps_memory_emit in Hprint as H2.
  apply bind_done_inv in Hrun as ([] & w3 & Hfree & Hrun).
  apply keeps_memory_destroy_all_mutexes in Hrun as H3.
  pose proof (same_memory_trans _ _ _ H0 (same_memory_trans _ _ _ H1 H2))
    as (Hp & Hsize & Hsa & Hsz & Hheap & Hnb).
  destruct H3 as (Hp3 & Hsize3 & Hsa3 & Hsz3 & Hheap3 & Hnb3).
  rewrite Hp3, Hsize3, Hsa3, Hsz3, Hheap3, Hnb3.
  unfold FREE, free, bind, get, modify, ret in Hfree.
  rewrite Hp in Hfree.
  destruct (thread_pool w) as [b |].
  - rewrite Hheap in Hfree.
    destruct (heap w !! b); [| discriminate].
    injection Hfree as <-. simpl. repeat split; assumption.
  - injection Hfree as <-. repeat split; assumption.
Qed.

Lemma join_threads_well_formed (E : env) (t_status : option (list Z))
    (w w' : world) :
  well_formed w -> join_threads E t_status w = Done tt w' -> well_formed w'.
Proof.
  intros (Htable & Hstatus & Hbelow & Hapart) Hrun.
  destruct (join_threads_done E t_status w w' Hrun)
    as (Hp & Hsize & Hsa & Hsz & Hnb & Hheap).
  unfold well_formed, table_ok, status_ok, heap_below, apart in *.
  rewrite Hp, Hsa, Hsz, Hnb, Hheap.
  split; [exact I |]. split; [| split; [| discriminate]].
  - destruct (status_array w) as [s |]; [| exact Hstatus].
    destruct (thread_pool w) as [b |]; [| exact Hstatus].
    destruct Hstatus as (cells & Hs & Hlen). exists cells.
    rewrite lookup_delete_ne; [auto |].
    intros ->. apply (Hapart s); reflexivity.
  - intros c Hc. apply Hbelow.
    destruct (thread_pool w) as [b |]; [| exact Hc].
    destruct (decide (b = c)) as [-> | Hne].
    + rewrite lookup_delete_eq in Hc. destruct Hc; discriminate.
    + rewrite lookup_delete_ne in Hc by exact Hne. exact Hc.
Qed.

Lemma set_status_element_well_formed (E : env) (index v rc : Z) (w w' : world) :
  well_formed w ->
  set_status_element E index v w = Done rc w' ->
  well_formed w'.
Proof.
  intros Hwf Hrun. unfold set_status_element in Hrun.
  apply bind_done_inv in Hrun as ([] & w1 & Hlock & Hrun).
  destruct (quiet_lock_status_array E w) as ([] & w1' & Hlock' & Hrep1).
  rewrite Hlock in Hlock'. injection Hlock' as <-.
  apply only_reports_globals in Hrep1
    as (Hp1 & Hsize1 & Hsa1 & Hsz1 & _ & Hheap1 & Hnb1 & _).
  apply bind_done_inv in Hrun as (size & w1' & Hget & Hrun).
  injection Hget as <- <-.
  apply bind_done_inv in Hrun as (rc' & w2 & Hwrite & Hrun).
  apply bind_done_inv in Hrun as ([] & w3 & Hunlock & Hret).
  injection Hret as <- <-.
  destruct (quiet_unlock_status_array E w2) as ([] & w3' & Hunlock' & Hrep3).
  rewrite Hunlock in Hunlock'. injection Hunlock' as <-.
  apply only_reports_globals in Hrep3
    as (Hp3 & Hsize3 & Hsa3 & Hsz3 & _ & Hheap3 & Hnb3 & _).
  destruct (index <? sizeof_status_array w1).
  - apply bind_done_inv in Hwrite as (table & w1' & Hget & Hwrite).
    injection Hget as <- <-.
    apply bind_done_inv in Hwrite as ([] & w2' & Hstore & Hret).
    injection Hret as <- <-.
    unfold store in Hstore. rewrite Hsa1, Hheap1 in Hstore.
    destruct (status_array w) as [b |] eqn:Hsa; [| discriminate].
    destruct (heap w !! b) as [cells |] eqn:Hcells; [| discriminate].
    destruct ((0 <=? index) && (index <? Z.of_nat (length cells)));
      [| discriminate].
    injection Hstore as <-. simpl in *.
    apply (well_formed_update w w3 b cells (<[Z.to_nat index := v]> cells) Hwf Hcells);
      [apply length_insert | congruence .. ].
  - injection Hwrite as <- <-.
    apply (same_memory_well_formed w w3); [| exact Hwf].
    repeat split; congruence.
Qed.

Lemma create_status_array_done (ERROR_CODE_MALLOC : Z) (E : env) (w w' : world) :
  ERROR_CODE_MALLOC <> 0 \/ refused E (pool_size w) = false ->
  create_status_array ERROR_CODE_MALLOC E w = Done tt w' ->
  refused E (pool_size w) = false
  /\ status_array_live w
  /\ thread_pool w' = thread_pool w
  /\ pool_size w' = pool_size w
  /\ status_array w' = Some (next_block w)
  /\ sizeof_status_array w' = pool_size w
  /\ next_block w' = Pos.succ (next_block w)
  /\ heap w'
     = <[next_block w := garbage E <$> seq 0 (Z.to_nat (pool_size w))]>
         (match status_array w with
          | Some b => delete b (heap w)
          | None => heap w
          end).
Proof.
  intros Hcode Hrun. unfold create_status_array in Hrun.
  apply bind_done_inv in Hrun as ([] & w1 & Hlock & Hrun).
  destruct (quiet_lock_status_array E w) as ([] & w1' & Hlock' & Hrep1).
  rewrite Hlock in Hlock'. injection Hlock' as <-.
  apply only_reports_globals in Hrep1
    as (Hp1 & Hsize1 & Hsa1 & Hsz1 & _ & Hheap1 & Hnb1 & _).
  apply bind_done_inv in Hrun as ([] & w2 & Hfree & Hrun).
  assert (H2 : status_array_live w
               /\ thread_pool w2 = thread_pool w
               /\ pool_size w2 = pool_size w
               /\ next_block w2 = next_block w
               /\ heap w2 = match status_array w with
                            | Some b => delete b (heap w)
                            | None => heap w
                            end).
  { unfold FREE, free, bind, get, modify, ret in Hfree.
    unfold status_array_live.
    rewrite Hsa1 in Hfree. destruct (status_array w) as [b |].
    - rewrite Hheap1 in Hfree.
      destruct (heap w !! b) as [cells |]; [| discriminate].
      injection Hfree as <-. simpl. repeat split; eauto. 
    - injection Hfree as <-. repeat split; auto. }
  destruct H2 as (Hlive & Hp2 & Hsize2 & Hnb2 & Hheap2).
  apply bind_done_inv in Hrun as (n & w2' & Hget & Hrun).
  injection Hget as <- <-.
  apply bind_done_inv in Hrun as ([] & w3 & Hmod & Hrun).
  injection Hmod as <-.
  apply bind_done_inv in Hrun as (n & w3' & Hget & Hrun).
  injection Hget as <- <-. simpl in Hrun.
  apply bind_done_inv in Hrun as (p & w4 & Hmalloc & Hrun).
  apply bind_done_inv in Hrun as ([] & w5 & Hmod & Hrun).
  injection Hmod as <-.
  apply bind_done_inv in Hrun as (rc & w6 & Hrc & Hrun).
  apply bind_done_inv in Hrun as ([] & w7 & Hunlock & Hrun).
  destruct (quiet_unlock_status_array E w6) as ([] & w7' & Hunlock' & Hrep7).
  rewrite Hunlock in Hunlock'. injection Hunlock' as <-.
  apply only_reports_globals in Hrep7
    as (Hp7 & Hsize7 & Hsa7 & Hsz7 & _ & Hheap7 & Hnb7 & _).
  unfold malloc in Hmalloc. rewrite Hsize2 in Hmalloc.
  destruct (refused E (pool_size w)) eqn:Hrefused.
  - injection Hmalloc as <- <-.
    unfold bind, LOG_ERROR, emit, modify, ret in Hrc. injection Hrc as <- <-.
    destruct Hcode as [Hcode | Hfalse]; [| congruence].
    destruct (Z.eqb_spec ERROR_CODE_MALLOC 0); [contradiction | discriminate].
  - injection Hmalloc as <- <-. injection Hrc as <- <-.
    injection Hrun as <-.
    rewrite Hp7, Hsize7, Hsa7, Hsz7, Hheap7, Hnb7. simpl.
    rewrite Hp2, Hsize2, Hnb2, Hheap2.
    repeat split; auto.
Qed.

Lemma create_status_array_well_formed (ERROR_CODE_MALLOC : Z) (E : env)
    (w w' : world) :
  ERROR_CODE_MALLOC <> 0 ->
  well_formed w ->
  create_status_array ERROR_CODE_MALLOC E w = Done tt w' ->
  well_formed w'.
Proof.
  intros Hcode (Htable & Hstatus & Hbelow & Hapart) Hrun.
  destruct (create_status_array_done ERROR_CODE_MALLOC E w w'
              (or_introl Hcode) Hrun)
    as (Hrefused & _ & Hp & Hsize & Hsa & Hsz & Hnb & Hheap).
  assert (Hn : 0 <= pool_size w).
  { unfold refused in Hrefused. apply orb_false_elim in Hrefused as [_ Hneg].
    apply Z.ltb_ge. exact Hneg. }
  assert (Hfresh : heap w !! next_block w = None).
  { destruct (heap w !! next_block w) as [cells |] eqn:Hcells; [| reflexivity].
    exfalso. apply (Pos.lt_irrefl (next_block w)). apply Hbelow. eauto. }
  unfold well_formed, table_ok, status_ok, heap_below, apart in *.
  rewrite Hp, Hsize, Hsa, Hsz, Hnb, Hheap.
  split; [| split; [| split]].
  - destruct (thread_pool w) as [t |] eqn:Ht; [| exact I].
    destruct Htable as (table & Hlookup & Hlen). exists table.
    split; [| exact Hlen].
    rewrite lookup_insert_ne by (intros <-; congruence).
    destruct (status_array w) as [s |]; [| exact Hlookup].
    rewrite lookup_delete_ne; [exact Hlookup |].
    intros ->. apply (Hapart t); reflexivity.
  - eexists. rewrite lookup_insert_eq. split; [reflexivity |].
    rewrite length_fmap, length_seq. lia.
  - intros c Hc.
    destruct (decide (next_block w = c)) as [<- | Hne]; [lia |].
    rewrite lookup_insert_ne in Hc by exact Hne.
    assert (Hold : is_Some (heap w !! c)).
    { destruct (status_array w) as [s |]; [| exact Hc].
      destruct (decide (s = c)) as [-> | Hne'].
      - rewrite lookup_delete_eq in Hc. destruct Hc; discriminate.
      - rewrite lookup_delete_ne in Hc by exact Hne'. exact Hc. }
    specialize (Hbelow c Hold). lia.
  - intros t Ht Heq. injection Heq as <-. rewrite Ht in Htable.
    destruct Htable as (table & Hlookup & _). congruence.
Qed.

Lemma init_status_array_well_formed (ERROR_CODE_MALLOC : Z) (E : env)
    (w w' : world) :
  ERROR_CODE_MALLOC <> 0 ->
  well_formed w ->
  init_status_array ERROR_CODE_MALLOC E w = Done tt w' ->
  well_formed w'.
Proof.
  intros Hcode Hwf Hrun. unfold init_status_array in Hrun.
  apply bind_done_inv in Hrun as (n & w0 & Hget & Hrun).
  injection Hget as <- <-.
  apply bind_done_inv in Hrun as (size & w0 & Hget & Hrun).
  injection Hget as <- <-.
  destruct (negb (pool_size w =? sizeof_status_array w)).
  - apply (create_status_array_well_formed ERROR_CODE_MALLOC E w w' Hcode Hwf Hrun).
  - apply bind_done_inv in Hrun as ([] & w1 & Hlock & Hrun).
    destruct (quiet_lock_status_array E w) as ([] & w1' & Hlock' & Hrep1).
    rewrite Hlock in Hlock'. injection Hlock' as <-.
    apply only_reports_globals in Hrep1
      as (Hp1 & Hsize1 & Hsa1 & Hsz1 & _ & Hheap1 & Hnb1 & _).
    apply bind_done_inv in Hrun as (table & w1' & Hget & Hrun).
    injection Hget as <- <-.
    apply bind_done_inv in Hrun as (size & w1' & Hget & Hrun).
    injection Hget as <- <-.
    apply bind_done_inv in Hrun as ([] & w2 & Hset & Hunlock).
    destruct (quiet_unlock_status_array E w2) as ([] & w3 & Hunlock' & Hrep3).
    rewrite Hunlock in Hunlock'. injection Hunlock' as <-.
    apply only_reports_globals in Hrep3
      as (Hp3 & Hsize3 & Hsa3 & Hsz3 & _ & Hheap3 & Hnb3 & _).
    unfold memset_zero in Hset. rewrite Hsa1, Hheap1, Hsz1 in Hset.
    destruct (status_array w) as [b |] eqn:Hsa.
    + destruct (heap w !! b) as [cells |] eqn:Hcells; [| discriminate].
      destruct ((0 <=? sizeof_status_array w)
                && (sizeof_status_array w <=? Z.of_nat (length cells))) eqn:Hin;
        [| discriminate].
      apply andb_true_iff in Hin as [Hlow Hhigh].
      apply Z.leb_le in Hlow, Hhigh.
      injection Hset as <-. simpl in *.
      apply (well_formed_update w w' b cells
               (replicate (Z.to_nat (sizeof_status_array w)) 0
                  ++ drop (Z.to_nat (sizeof_status_array w)) cells) Hwf Hcells);
        [| congruence ..].
      rewrite length_app, length_replicate, length_drop. lia.
    + destruct (sizeof_status_array w =? 0); [| discriminate].
      injection Hset as <-.
      apply (same_memory_well_formed w w'); [| exact Hwf].
      repeat split; congruence.
Qed.

Lemma create_threads_well_formed (ERROR_CODE_MALLOC : Z) (E : env) (n : Z)
    (p : option positive) (w w' : world) :
  well_formed w ->
  create_threads ERROR_CODE_MALLOC E n w = Done p w' ->
  well_formed w'.
Proof.
  intros (Htable & Hstatus & Hbelow & Hapart) Hrun.
  destruct (refused E n) eqn:Hrefused.
  { rewrite (create_threads_refused _ _ _ _ Hrefused) in Hrun. discriminate. }
  destruct (create_threads_run ERROR_CODE_MALLOC E n w Hrefused)
    as (w2 & table & Hrun2 & Hp & Hheap & Hlen & Hsize & _ & Hsa & Hsz & Hnb & _).
  rewrite Hrun in Hrun2. injection Hrun2 as _ <-.
  assert (Hfresh : heap w !! next_block w = None).
  { destruct (heap w !! next_block w) as [cells |] eqn:Hcells; [| reflexivity].
    exfalso. apply (Pos.lt_irrefl (next_block w)). apply Hbelow. eauto. }
  unfold well_formed, table_ok, status_ok, heap_below, apart in *.
  rewrite Hp, Hsize, Hsa, Hsz, Hnb, Hheap.
  split; [| split; [| split]].
  - exists table. rewrite lookup_insert_eq. auto.
  - destruct (status_array w) as [s |]; [| exact Hstatus].
    destruct Hstatus as (cells & Hlookup & Hcl). exists cells.
    rewrite lookup_insert_ne by (intros <-; congruence). auto.
  - intros c Hc.
    destruct (decide (next_block w = c)) as [<- | Hne]; [lia |].
    rewrite lookup_insert_ne in Hc by exact Hne.
    specialize (Hbelow c Hc). lia.
  - intros t [= <-] Hs.
    destruct (status_array w) as [s |]; [| discriminate].
    injection Hs as ->. destruct Hstatus as (cells & Hlookup & _). congruence.
Qed.

Lemma run_call_well_formed (ERROR_CODE_MALLOC : Z) (E : env) (c : call)
    (v : value) (w w' : world) :
  ERROR_CODE_MALLOC <> 0 ->
  well_formed w ->
  run_call ERROR_CODE_MALLOC E c w = Done v w' ->
  well_formed w'.
Proof.
  intros Hcode Hwf Hrun.
  destruct c; cbn [run_call] in Hrun;
    apply bind_done_inv in Hrun as (a & w1 & Hcall & Hret);
    injection Hret as _ <-.
  - apply (create_threads_well_formed _ _ _ _ _ _ Hwf Hcall).
  - destruct a. apply (join_threads_well_formed _ _ _ _ Hwf Hcall).
  - apply (same_memory_well_formed w w1 (keeps_memory_timed_wait _ _ _ _ _ Hcall) Hwf).
  - apply (same_memory_well_formed w w1
             (keeps_memory_timed_wait_milli _ _ _ _ _ Hcall) Hwf).
  - apply (same_memory_well_formed w w1
             (keeps_memory_find_my_index _ _ _ _ _ Hcall) Hwf).
  - apply (same_memory_well_formed w w1 (keeps_memory_stop_threads _ _ _ _ Hcall) Hwf).
  - apply (same_memory_well_formed w w1 (keeps_memory_should_stop _ _ _ _ Hcall) Hwf).
  - apply (same_memory_well_formed w w1 (keeps_memory_set_stop _ _ _ _ _ Hcall) Hwf).
  - apply (same_memory_well_formed w w1 (keeps_memory_get_pool_size _ _ _ _ Hcall) Hwf).
  - destruct a.
    apply (create_status_array_well_formed _ _ _ _ Hcode Hwf Hcall).
  - destruct a.
    apply (init_status_array_well_formed _ _ _ _ Hcode Hwf Hcall).
  - apply (same_memory_well_formed w w1
             (keeps_memory_get_status_array _ _ _ _ Hcall) Hwf).
  - apply (set_status_element_well_formed _ _ _ _ _ _ Hwf Hcall).
Qed.

Lemma run_calls_well_formed (ERROR_CODE_MALLOC : Z) (cs : list (env * call)) :
  forall w w',
    ERROR_CODE_MALLOC <> 0 ->
    well_formed w ->
    run_calls ERROR_CODE_MALLOC cs w = Done tt w' ->
    well_formed w'.
Proof.
  induction cs as [| [E c] cs IH]; intros w w' Hcode Hwf Hrun.
  - injection Hrun as <-. exact Hwf.
  - cbn [run_calls] in Hrun.
    apply bind_done_inv in Hrun as (v & w1 & Hcall & Hrest).
    apply (IH w1 w' Hcode); [| exact Hrest].
    apply (run_call_well_formed _ _ _ _ _ _ Hcode Hwf Hcall).
Qed.

(** X11: whatever calls of the API a process makes and whatever the
    system answers, as long as the calls return the world stays
    well-formed: [thread_pool] is NULL or a live table of [pool_size]
    handles, [status_array] is NULL with a declared length of 0 or a
    live array of [sizeof_status_array] slots, and the two are different
    objects. *)
Theorem reachable_worlds_well_formed (ERROR_CODE_MALLOC : Z)
    (cs : list (env * call)) (w : world) :
  ERROR_CODE_MALLOC <> 0 ->
  run_calls ERROR_CODE_MALLOC cs initial_world = Done tt w ->
  table_ok w /\ status_ok w /\ apart w.
Proof.
  intros Hcode Hrun.
  destruct (run_calls_well_formed ERROR_CODE_MALLOC cs initial_world w Hcode
              initial_world_well_formed Hrun) as (Ht & Hs & _ & Ha).
  auto.
Qed.

Lemma reachable_worlds_well_formed_witness :
  table_ok pool_of_three /\ status_ok pool_of_three /\ apart pool_of_three.
Proof.
  apply (reachable_worlds_well_formed 12
           [(quiet_env 7 noon, CreateThreads 3);
            (quiet_env 7 noon, InitStatusArray)]);
    [lia | vm_compute; reflexivity].
Defined.

(** X12: in a world reached from the initial one by calls of the API,
    [set_status_element] with an index that is not negative never
    touches memory outside the status array: it returns TRUE when the
    index is below [sizeof_status_array], and then slot [index], and
    only it, holds the new value; it returns FALSE otherwise, and then
    the array is as before. *)
Theorem set_status_element_safe_when_reachable (ERROR_CODE_MALLOC : Z)
    (cs : list (env * call)) (w : world) (E : env) (index v : Z) :
  ERROR_CODE_MALLOC <> 0 ->
  run_calls ERROR_CODE_MALLOC cs initial_world = Done tt w ->
  0 <= index ->
  returned (set_status_element E index v w)
  = Some (if index <? sizeof_status_array w then TRUE else FALSE)
  /\ status_cells (final (set_status_element E index v w))
     = (if index <? sizeof_status_array w
        then (fun cells => <[Z.to_nat index := v]> cells) <$> status_cells w
        else status_cells w).
Proof.
  intros Hcode Hrun Hindex.
  destruct (run_calls_well_formed ERROR_CODE_MALLOC cs initial_world w Hcode
              initial_world_well_formed Hrun) as (_ & Hstatus & _ & _).
  unfold status_ok in Hstatus.
  destruct (Z.ltb_spec index (sizeof_status_array w)) as [Hin | Hout].
  - destruct (status_array w) as [b |] eqn:Hsa; [| lia].
    destruct Hstatus as (cells & Hcells & Hlen).
    destruct (set_status_element_in_range E index v w b cells)
      as (Hret & Hsa' & Hcells' & _); [repeat split; assumption | lia |].
    split; [exact Hret |].
    unfold status_cells. rewrite Hsa', Hcells', Hsa, Hcells. reflexivity.
  - destruct (set_status_element_too_large E index v w Hout)
      as (Hret & Hheap & Hsa').
    split; [exact Hret |].
    unfold status_cells. rewrite Hsa', Hheap. reflexivity.
Qed.

Lemma set_status_element_safe_when_reachable_witness :
  returned (set_status_element (quiet_env 7 noon) 2 5 pool_of_three) = Some TRUE
  /\ status_cells
       (final (set_status_element (quiet_env 7 noon) 2 5 pool_of_three))
     = Some [7; 7; 5].
Proof.
  destruct (set_status_element_safe_when_reachable 12
              [(quiet_env 7 noon, CreateThreads 3);
               (quiet_env 7 noon, InitStatusArray)]
              pool_of_three (quiet_env 7 noon) 2 5)
    as [Hret Hcells]; [lia | vm_compute; reflexivity | lia |].
  split; [exact Hret | exact Hcells].
Defined.

(** ** Releasing and leaking *)

Lemma create_status_array_returns (ERROR_CODE_MALLOC : Z) (E : env) (w : world) :
  status_array_live w ->
  refused E (pool_size w) = false ->
  exists w', create_status_array ERROR_CODE_MALLOC E w = Done tt w'.
Proof.
  intros Hlive Hrefused. unfold status_array_live in Hlive.
  unfold create_status_array, FREE, free, malloc. run.
  destruct (status_array w) as [b |] eqn:Hp.
  - destruct Hlive as [cells Hcells].
    destruct (mutex_status E status_array_mutex MutexLock =? 0); simpl;
      rewrite Hp; simpl; rewrite Hcells; simpl; rewrite Hrefused; simpl;
      destruct (mutex_status E status_array_mutex MutexUnlock =? 0); simpl;
      eauto.
  - destruct (mutex_status E status_array_mutex MutexLock =? 0); simpl;
      rewrite Hp; simpl; rewrite Hrefused; simpl;
      destruct (mutex_status E status_array_mutex MutexUnlock =? 0); simpl;
      eauto.
Qed.

Lemma well_formed_fresh (w : world) (b : positive) :
  well_formed w -> is_Some (heap w !! b) -> next_block w <> b.
Proof.
  intros (_ & _ & Hbelow & _) Hb Heq. subst b.
  apply (Pos.lt_irrefl (next_block w)). apply Hbelow. exact Hb.
Qed.

(** X13: [create_status_array] releases the array it replaces: after a
    call that returns, the pointer [get_status_array] gave before the
    call refers to no object any more, the status array is another
    object, and reading a slot through the old pointer is undefined. *)
Theorem create_status_array_invalidates_pointer (ERROR_CODE_MALLOC : Z)
    (E E' : env) (w : world) (b : positive) :
  well_formed w ->
  returned (get_status_array E' w) = Some (Some b) ->
  refused E (pool_size w) = false ->
  exists w',
    create_status_array ERROR_CODE_MALLOC E w = Done tt w'
    /\ heap w' !! b = None
    /\ status_array w' = Some (next_block w)
    /\ next_block w <> b
    /\ forall i, load (Some b) i w' = Undefined (DanglingPointer b) w'.
Proof.
  intros Hwf Hget Hrefused.
  assert (Hsa : status_array w = Some b).
  { unfold get_status_array in Hget.
    destruct (quiet_lock_status_array E' w) as ([] & w1 & Hlock & Hrep1).
    destruct (quiet_unlock_status_array E' w1) as ([] & w2 & Hunlock & _).
    unfold bind at 1 in Hget. rewrite Hlock in Hget.
    unfold bind at 1, get at 1 in Hget. unfold bind at 1 in Hget.
    rewrite Hunlock in Hget. simpl in Hget.
    apply only_reports_globals in Hrep1 as (_ & _ & Hsa1 & _).
    congruence. }
  pose proof Hwf as (_ & Hstatus & _ & _).
  unfold status_ok in Hstatus. rewrite Hsa in Hstatus.
  destruct Hstatus as (cells & Hcells & _).
  assert (Hlive : status_array_live w)
    by (unfold status_array_live; rewrite Hsa; eauto).
  destruct (create_status_array_returns ERROR_CODE_MALLOC E w Hlive Hrefused)
    as (w' & Hrun).
  destruct (create_status_array_done ERROR_CODE_MALLOC E w w'
              (or_intror Hrefused) Hrun)
    as (_ & _ & _ & _ & Hsa' & _ & _ & Hheap).
  assert (Hfresh : next_block w <> b)
    by (apply well_formed_fresh; [exact Hwf | eauto]).
  assert (Hgone : heap w' !! b = None).
  { rewrite Hheap, Hsa, lookup_insert_ne by exact Hfresh.
    apply lookup_delete_eq. }
  exists w'. split; [exact Hrun |]. split; [exact Hgone |].
  split; [exact Hsa' |]. split; [exact Hfresh |].
  intros i. unfold load. rewrite Hgone. reflexivity.
Qed.

Lemma create_status_array_invalidates_pointer_witness :
  exists w',
    create_status_array 12 (quiet_env 7 noon) pool_of_three = Done tt w'
    /\ heap w' !! 2%positive = None
    /\ status_array w' = Some 3%positive.
Proof.
  destruct (create_status_array_invalidates_pointer 12 (quiet_env 7 noon)
              (quiet_env 7 noon) pool_of_three 2%positive)
    as (w' & Hrun & Hgone & Hsa & _).
  - apply (run_calls_well_formed 12
             [(quiet_env 7 noon, CreateThreads 3);
              (quiet_env 7 noon, InitStatusArray)]
             initial_world pool_of_three);
      [lia | exact initial_world_well_formed | vm_compute; reflexivity].
  - vm_compute. reflexivity.
  - reflexivity.
  - exists w'. split; [exact Hrun | split; [exact Hgone | exact Hsa]].
Defined.

(** X14: [create_threads] never releases a handle table: called while
    a table exists, it allocates another one and makes [thread_pool]
    point to it; the old table stays allocated with its contents, and
    no global refers to it any more. *)
Theorem create_threads_keeps_old_table (ERROR_CODE_MALLOC : Z) (E : env)
    (n : Z) (w : world) (b : positive) (table : list Z) :
  well_formed w ->
  thread_pool w = Some b ->
  heap w !! b = Some table ->
  refused E n = false ->
  exists (p : positive) (w' : world),
    create_threads ERROR_CODE_MALLOC E n w = Done (Some p) w'
    /\ thread_pool w' = Some p
    /\ p <> b
    /\ heap w' !! b = Some table
    /\ status_array w' <> Some b.
Proof.
  intros Hwf Hp Htable Hrefused.
  destruct (create_threads_run ERROR_CODE_MALLOC E n w Hrefused)
    as (w' & new & Hrun & Hp' & Hheap & _ & _ & _ & Hsa & _).
  assert (Hfresh : next_block w <> b)
    by (apply well_formed_fresh; [exact Hwf | eauto]).
  exists (next_block w), w'.
  split; [exact Hrun |]. split; [exact Hp' |]. split; [exact Hfresh |].
  split.
  - rewrite Hheap, lookup_insert_ne by exact Hfresh. exact Htable.
  - rewrite Hsa. destruct Hwf as (_ & _ & _ & Hapart). apply Hapart. exact Hp.
Qed.

Lemma create_threads_keeps_old_table_witness :
  exists (p : positive) (w' : world),
    create_threads 12 (quiet_env 7 noon) 2 pool_of_three = Done (Some p) w'
    /\ thread_pool w' = Some p
    /\ p <> 1%positive
    /\ heap w' !! 1%positive = Some [1; 2; 3]
    /\ status_array w' <> Some 1%positive.
Proof.
  apply (create_threads_keeps_old_table 12 (quiet_env 7 noon) 2 pool_of_three
           1%positive [1; 2; 3]).
  - apply (run_calls_well_formed 12
             [(quiet_env 7 noon, CreateThreads 3);
              (quiet_env 7 noon, InitStatusArray)]
             initial_world pool_of_three);
      [lia | exact initial_world_well_formed | vm_compute; reflexivity].
  - reflexivity.
  - vm_compute. reflexivity.
  - reflexivity.
Defined.

Lemma init_status_array_pool_size (ERROR_CODE_MALLOC : Z) (E : env) (w : world) :
  pool_size (final (init_status_array ERROR_CODE_MALLOC E w)) = pool_size w.
Proof.
  unfold init_status_array.
  unfold bind at 1, get at 1. unfold bind at 1, get at 1.
  destruct (negb (pool_size w =? sizeof_status_array w)).
  - unfold create_status_array, FREE, free, malloc.
    every_path; simplify_eq /=; reflexivity.
  - unfold memset_zero. every_path; simplify_eq /=; reflexivity.
Qed.

(** X15: calling [init_status_array] twice repairs what the first call
    may leave: in a well-formed world with a positive pool size, if the
    first call gets its memory, then after the second call the status
    array has [pool_size] slots and every one of them is 0. *)
Theorem init_status_array_twice_zeroes (ERROR_CODE_MALLOC : Z) (E1 E2 : env)
    (w : world) :
  well_formed w ->
  0 < pool_size w ->
  malloc_fails E1 = false ->
  returned (init_status_array ERROR_CODE_MALLOC E1 w) = Some tt
  /\ returned
       (init_status_array ERROR_CODE_MALLOC E2
          (final (init_status_array ERROR_CODE_MALLOC E1 w)))
     = Some tt
  /\ status_cells
       (final (init_status_array ERROR_CODE_MALLOC E2
                 (final (init_status_array ERROR_CODE_MALLOC E1 w))))
     = Some (replicate (Z.to_nat (pool_size w)) 0).
Proof.
  intros Hwf Hsize Hmalloc.
  pose proof Hwf as (_ & Hstatus & _ & _). unfold status_ok in Hstatus.
  pose proof (init_status_array_pool_size ERROR_CODE_MALLOC E1 w) as Hsize1.
  set (w1 := final (init_status_array ERROR_CODE_MALLOC E1 w)) in *.
  assert (Hfirst : returned (init_status_array ERROR_CODE_MALLOC E1 w) = Some tt
                   /\ exists b cells,
                        status_array_at w1 b cells
                        /\ length cells = Z.to_nat (pool_size w)).
  { destruct (Z.eq_dec (pool_size w) (sizeof_status_array w)) as [Heq | Hne].
    - destruct (status_array w) as [b |] eqn:Hsa; [| lia].
      destruct Hstatus as (cells & Hcells & Hlen).
      destruct (init_status_array_same_size ERROR_CODE_MALLOC E1 w b cells)
        as [Hret Hat]; [repeat split; assumption | exact Heq |].
      split; [exact Hret |]. exists b, (replicate (length cells) 0).
      split; [exact Hat |]. rewrite length_replicate. lia.
    - destruct (init_status_array_resized ERROR_CODE_MALLOC E1 w)
        as [Hret Hat]; [exact Hne | lia | exact Hmalloc | |].
      { unfold status_array_live. destruct (status_array w); [| exact I].
        destruct Hstatus as (cells & Hcells & _). eauto. }
      split; [exact Hret |]. eexists _, _. split; [exact Hat |].
      rewrite length_fmap, length_seq. reflexivity. }
  destruct Hfirst as (Hret1 & b & cells & Hat & Hlen).
  split; [exact Hret1 |].
  destruct (init_status_array_same_size ERROR_CODE_MALLOC E2 w1 b cells Hat)
    as [Hret2 (Hsa2 & Hcells2 & _)].
  { destruct Hat as (_ & _ & Hsz). rewrite Hsize1, <- Hsz, Hlen. lia. }
  split; [exact Hret2 |].
  unfold status_cells. rewrite Hsa2, Hcells2, Hlen. reflexivity.
Qed.

Lemma init_status_array_twice_zeroes_witness :
  status_cells
    (final (init_status_array 12 (quiet_env 7 noon)
              (final (init_status_array 12 (quiet_env 7 noon)
                        (final (create_threads 12 (quiet_env 7 noon) 3
                                  initial_world))))))
  = Some [0; 0; 0].
Proof.
  destruct (init_status_array_twice_zeroes 12 (quiet_env 7 noon)
              (quiet_env 7 noon)
              (final (create_threads 12 (quiet_env 7 noon) 3 initial_world)))
    as (_ & _ & Hcells).
  - apply (run_calls_well_formed 12 [(quiet_env 7 noon, CreateThreads 3)]
             initial_world);
      [lia | exact initial_world_well_formed | vm_compute; reflexivity].
  - vm_compute. reflexivity.
  - reflexivity.
  - exact Hcells.
Defined.

(** ** From creation to tear-down *)

(** X16: a pool that was created with every thread started, and is then
    joined without a liveness array, is joined completely: when
    [join_threads] returns, the handles it joined are the handles of the
    threads that were started, each once and in the order of their
    creation, and no handle table is left.  ([pthread_join] returns when
    the worker has ended; a worker that never ends keeps the real call
    waiting, a run the embedding does not describe.) *)
Theorem pool_lifecycle (ERROR_CODE_MALLOC : Z) (E E' : env) (n : Z) (w : world) :
  0 < n ->
  malloc_fails E = false ->
  (forall i, 0 <= i < n -> create_status E i = 0) ->
  exists (table : list Z) (w1 w2 : world),
    create_threads ERROR_CODE_MALLOC E n w = Done (thread_pool w1) w1
    /\ handle_table w1 = Some table
    /\ Z.of_nat (length table) = n
    /\ NoDup table
    /\ started_threads (trace w1) = started_threads (trace w) ++ table
    /\ join_threads E' None w1 = Done tt w2
    /\ joined_handles (trace w2) = joined_handles (trace w) ++ table
    /\ thread_pool w2 = None.
Proof.
  intros Hn Hmalloc Hcreate.
  destruct (create_threads_all_started ERROR_CODE_MALLOC E n w Hn Hmalloc Hcreate)
    as (w1 & Hrun & Htable & Hsize & Hstart).
  assert (Hrefused : refused E n = false).
  { unfold refused. rewrite Hmalloc. simpl. apply Z.ltb_ge. lia. }
  destruct (create_threads_run ERROR_CODE_MALLOC E n w Hrefused)
    as (w1' & table' & Hrun' & Hp1 & _ & _ & _ & _ & _ & _ & _ & _ & Hjoin1).
  rewrite Hrun in Hrun'. injection Hrun' as <-.
  set (table := seqZ (next_tid w) n) in *.
  set (b := next_block w) in *.
  assert (Hlookup : heap w1 !! b = Some table)
    by (unfold handle_table in Htable; rewrite Hp1 in Htable; exact Htable).
  assert (Hlen : Z.of_nat (length table) = n)
    by (subst table; rewrite length_seqZ; lia).
  set (w0 := set_trace
               (trace w1 ++
                [EvPrintf "join_threads: "
                   "%s Joining on ALL threads reguardless of state \n" []]) w1).
  destruct (join_threads_loop E' None b table (length table) 0%nat w0)
    as (w2 & Hloop & Hp2 & Hheap2 & _ & Hjoin2 & _);
    [exact Hp1 | exact Hlookup | lia | exact I |].
  change (Z.of_nat 0) with 0 in Hloop.
  set (w3 := set_thread_pool None
               (set_heap (delete b (heap w2))
                  (logged [EvPrintf "join_threads: "
                             "%s Threads Stopped Successfully\n" []] w2))).
  destruct (quiet_destroy_all_mutexes E' w3) as ([] & w4 & Hdestroy & Hrep4).
  pose proof (only_reports_joined _ _ Hrep4) as Hjoin4.
  apply only_reports_globals in Hrep4 as (Hp4 & _).
  exists table, w1, w4.
  split; [rewrite Hp1; exact Hrun |].
  split; [exact Htable |]. split; [exact Hlen |].
  split; [apply NoDup_seqZ |]. split; [exact Hstart |].
  split.
  { unfold join_threads.
    unfold bind at 1, printf at 1, emit, modify. fold w0.
    unfold bind at 1, get at 1.
    replace (pool_size w0) with n by (symmetry; exact Hsize).
    rewrite <- Hlen, Nat2Z.id.
    change false with (will_check None).
    unfold bind at 1. rewrite Hloop.
    unfold bind at 1, printf at 1, emit, modify.
    unfold bind at 1, FREE, free.
    unfold bind at 1, get at 1.
    change (set_trace _ w2)
      with (logged [EvPrintf "join_threads: "
                      "%s Threads Stopped Successfully\n" []] w2).
    change (thread_pool (logged _ w2)) with (thread_pool w2). rewrite Hp2.
    unfold bind at 1.
    change (heap (logged _ w2)) with (heap w2).
    rewrite Hheap2. change (heap w0) with (heap w1). rewrite Hlookup.
    unfold modify.
    change (set_thread_pool None (set_heap (delete b (heap w1)) _))
      with (set_thread_pool None
              (set_heap (delete b (heap w1))
                 (logged [EvPrintf "join_threads: "
                            "%s Threads Stopped Successfully\n" []] w2))).
    replace (heap w1) with (heap w2) by (rewrite Hheap2; reflexivity).
    exact Hdestroy. }
  split; [| rewrite Hp4; reflexivity].
  rewrite Hjoin4. subst w3. simpl.
  rewrite joined_handles_app, app_nil_r, Hjoin2. subst w0. simpl.
  rewrite joined_handles_app, app_nil_r, join_all_handles, Hjoin1.
  reflexivity.
Qed.

Lemma pool_lifecycle_witness :
  exists (table : list Z) (w1 w2 : world),
    create_threads 12 (quiet_env 7 noon) 4 initial_world
    = Done (thread_pool w1) w1
    /\ handle_table w1 = Some table
    /\ Z.of_nat (length table) = 4
    /\ NoDup table
    /\ started_threads (trace w1)
       = started_threads (trace initial_world) ++ table
    /\ join_threads (quiet_env 7 noon) None w1 = Done tt w2
    /\ joined_handles (trace w2)
       = joined_handles (trace initial_world) ++ table
    /\ thread_pool w2 = None.
Proof.
  apply (pool_lifecycle 12 (quiet_env 7 noon) (quiet_env 7 noon) 4 initial_world);
    [lia | reflexivity | intros i Hi; reflexivity].
Defined.

(** X17: no negative index is safe: in every world reached from the
    initial one by calls of the API, [set_status_element] with a
    negative index passes the test [index < sizeof_status_array] and
    ends in undefined behaviour, a store before the status array or
    through the NULL pointer. *)
Theorem set_status_element_negative_index (ERROR_CODE_MALLOC : Z)
    (cs : list (env * call)) (w : world) (E : env) (index v : Z) :
  ERROR_CODE_MALLOC <> 0 ->
  run_calls ERROR_CODE_MALLOC cs initial_world = Done tt w ->
  index < 0 ->
  exists w',
    set_status_element E index v w
    = Undefined
        (match status_array w with
         | Some b => OutOfBounds b index
         | None => NullDereference
         end) w'.
Proof.
  intros Hcode Hrun Hindex.
  destruct (run_calls_well_formed ERROR_CODE_MALLOC cs initial_world w Hcode
              initial_world_well_formed Hrun) as (_ & Hstatus & _ & _).
  unfold status_ok in Hstatus.
  destruct (status_array w) as [b |] eqn:Hsa.
  - destruct Hstatus as (cells & Hcells & Hlen).
    apply (set_status_element_below_zero E index v w b cells);
      [repeat split; assumption | exact Hindex].
  - assert (Hguard : (index <? 0) = true) by (apply Z.ltb_lt; exact Hindex).
    unfold set_status_element, store. run.
    destruct (mutex_status E status_array_mutex MutexLock =? 0); simpl;
      rewrite Hstatus, Hguard; simpl; rewrite Hsa; simpl; eauto.
Qed.

Lemma set_status_element_negative_index_witness :
  exists w',
    set_status_element (quiet_env 0 noon) (-1) 5 initial_world
    = Undefined NullDereference w'.
Proof.
  apply (set_status_element_negative_index 12 [] initial_world
           (quiet_env 0 noon) (-1) 5);
    [lia | reflexivity | lia].
Defined.
